(** * WebATM gateway: protocol client and proxy orchestration

    A shallow embedding of the parts of [WebATM/bluesky_client.py] and
    [WebATM/proxy/...] that carry the node identity scheme, the
    subscription keys, the signal and subscriber dispatch, the active-node
    resubscription protocol, the command stack, the connection health
    machine and the throttled fan-out.

    Conventions.
    - A Python [bytes] is a [list byte]; a Python [str] is a [string]
      (8-bit characters, so [encode("charmap")] is total on it).
    - A Python [int] is a [Z]; a [float] (wall-clock readings, simulation
      values) is carried by a rational [Q]; rounding is not modelled.
    - An insertion-ordered [dict] is an association list whose keys are
      pairwise distinct; a [set] is a duplicate-free list.
    - A function with effects returns its new state together with the list
      of the observable calls it made (socket options, frames written,
      callbacks invoked, events pushed to the event channel).
    - A raised [Exception] is a [None] result, or the [Raised] outcome of a
      callback. *)

From Stdlib Require Import ZArith List String Ascii Bool Lia QArith.
From Stdlib.Strings Require Import Byte.
From Stdlib Require Finite.
Import ListNotations.

Local Open Scope Z_scope.
Local Open Scope list_scope.

Set Implicit Arguments.

(* [length] is the length of a list throughout; strings use [String.length]. *)
Abbreviation length := List.length.
Set Warnings "-register-all".

(* ================================================================== *)
(** * Part I. The embedding                                            *)
(* ================================================================== *)

(** ** Bytes, strings and the dynamically typed values of the protocol *)

Definition bytes := list byte.

Definition bytes_eq_dec : forall x y : bytes, {x = y} + {x <> y} :=
  list_eq_dec byte_eq_dec.

Definition bytes_eqb (x y : bytes) : bool :=
  if bytes_eq_dec x y then true else false.

Definition string_eqb (x y : string) : bool :=
  if string_dec x y then true else false.

(** The integer value of a byte, as [b[i]] or [ord(b)] gives it. *)
Definition byte_val (b : byte) : Z := Z.of_N (Byte.to_N b).

(** [chr(n).encode("charmap")]: one byte for [0 <= n < 256]; [chr] raises
    below zero and the codec raises from 256 on. *)
Definition chr_charmap (n : Z) : option bytes :=
  if (0 <=? n) && (n <? 256)
  then option_map (fun b => [b]) (Byte.of_N (Z.to_N n))
  else None.

(** A group or node designator as the client functions accept it: an
    [int] group id, a [str] or a [bytes] identity. *)
Inductive pyid :=
| PInt (n : Z)
| PStr (s : string)
| PBytes (b : bytes).

(** A destination ([to_group]): always text in this program, the
    empty string by default or a node identity. *)
Inductive addr :=
| AStr (s : string)
| ABytes (b : bytes).

Definition pyid_of_addr (a : addr) : pyid :=
  match a with
  | AStr s => PStr s
  | ABytes b => PBytes b
  end.

Definition addr_eq_dec : forall x y : addr, {x = y} + {x <> y}.
Proof.
  decide equality; [apply string_dec | apply bytes_eq_dec].
Defined.

Definition pyid_eq_dec : forall x y : pyid, {x = y} + {x <> y}.
Proof.
  decide equality; [apply Z.eq_dec | apply string_dec | apply bytes_eq_dec].
Defined.

(** Values as [msgpack.unpackb(..., raw=False)] produces them. A list
    stands for a list or a tuple; the maps of the protocol are keyed by
    names, so a dict is keyed by strings. *)
Inductive pyval :=
| VNone
| VBool (b : bool)
| VInt (n : Z)
| VFloat (q : Q)
| VStr (s : string)
| VBytes (b : bytes)
| VList (l : list pyval)
| VDict (d : list (string * pyval)).

(** Truth value of an object, as [if x:] and [x and ...] take it. *)
Definition truthy (v : pyval) : bool :=
  match v with
  | VNone => false
  | VBool b => b
  | VInt n => negb (n =? 0)
  | VFloat q => negb (Qeq_bool q 0)
  | VStr EmptyString => false
  | VStr _ => true
  | VBytes [] => false
  | VBytes _ => true
  | VList [] => false
  | VList _ => true
  | VDict [] => false
  | VDict _ => true
  end.

(** ** Insertion-ordered dictionaries *)

Section Dict.

Variable V : Type.

(** [k in d] *)
Fixpoint dict_mem (k : string) (d : list (string * V)) : bool :=
  match d with
  | [] => false
  | (k', _) :: rest => string_eqb k k' || dict_mem k rest
  end.

(** [d.get(k)] *)
Fixpoint dict_get (k : string) (d : list (string * V)) : option V :=
  match d with
  | [] => None
  | (k', v) :: rest => if string_eqb k k' then Some v else dict_get k rest
  end.

(** [d[k] = v]: a key already present keeps its place. *)
Fixpoint dict_set (k : string) (v : V) (d : list (string * V))
  : list (string * V) :=
  match d with
  | [] => [(k, v)]
  | (k', v') :: rest =>
      if string_eqb k k' then (k', v) :: rest
      else (k', v') :: dict_set k v rest
  end.

(** [d.update(other)] *)
Definition dict_update (d other : list (string * V)) : list (string * V) :=
  fold_left (fun acc kv => dict_set (fst kv) (snd kv) acc) other d.

(** [del d[k]] *)
Fixpoint dict_del (k : string) (d : list (string * V)) : list (string * V) :=
  match d with
  | [] => []
  | (k', v) :: rest =>
      if string_eqb k k' then rest else (k', v) :: dict_del k rest
  end.

(** [list(d.keys())] *)
Definition dict_keys (d : list (string * V)) : list string := map fst d.

End Dict.

(** ** Text *)

Module Text.

(** The characters [str.strip] and [str.split] take for white space,
    among the 8-bit ones. *)
Definition is_space (ch : ascii) : bool :=
  let n := nat_of_ascii ch in
  ((9 <=? n) && (n <=? 13) || (28 <=? n) && (n <=? 32)
   || (n =? 133) || (n =? 160))%nat.

Fixpoint lstrip (s : string) : string :=
  match s with
  | EmptyString => EmptyString
  | String ch rest => if is_space ch then lstrip rest else s
  end.

Definition reverse (s : string) : string :=
  string_of_list_ascii (rev (list_ascii_of_string s)).

(** [s.strip()] *)
Definition strip (s : string) : string :=
  reverse (lstrip (reverse (lstrip s))).

(** [s.split(sep)] for a one-character separator. *)
Fixpoint split_on (sep : ascii) (s : string) : list string :=
  match s with
  | EmptyString => [EmptyString]
  | String ch rest =>
      if Ascii.eqb ch sep then EmptyString :: split_on sep rest
      else
        match split_on sep rest with
        | w :: ws => String ch w :: ws
        | [] => [String ch EmptyString]
        end
  end.

(** [s.split()]: the maximal runs of characters that are not white space. *)
Fixpoint split (s : string) : list string :=
  match s with
  | EmptyString => []
  | String ch rest =>
      if is_space ch then split rest
      else
        match rest with
        | EmptyString => [String ch EmptyString]
        | String ch' _ =>
            if is_space ch' then String ch EmptyString :: split rest
            else
              match split rest with
              | w :: ws => String ch w :: ws
              | [] => [String ch EmptyString]
              end
        end
  end.

(** [sep.join(words)] *)
Fixpoint join (sep : string) (words : list string) : string :=
  match words with
  | [] => EmptyString
  | [w] => w
  | w :: rest => w ++ sep ++ join sep rest
  end.

(** [ch.upper()] on 8-bit characters. Three of them (code points 181, 223
    and 255) have an upper case outside the 8-bit range; they are left
    as they are, and no comparison made by the program can tell. *)
Definition upper_char (ch : ascii) : ascii :=
  let n := nat_of_ascii ch in
  if ((97 <=? n) && (n <=? 122)
      || (224 <=? n) && (n <=? 254) && negb (n =? 247))%nat
  then ascii_of_nat (n - 32)
  else ch.

Fixpoint upper (s : string) : string :=
  match s with
  | EmptyString => EmptyString
  | String ch rest => String (upper_char ch) (upper rest)
  end.

(** [b.hex()] *)
Definition hex_digit (n : N) : ascii :=
  match n with
  | 0 => "0" | 1 => "1" | 2 => "2" | 3 => "3" | 4 => "4" | 5 => "5"
  | 6 => "6" | 7 => "7" | 8 => "8" | 9 => "9" | 10 => "a" | 11 => "b"
  | 12 => "c" | 13 => "d" | 14 => "e" | _ => "f"
  end%N%char.

Fixpoint hex (b : bytes) : string :=
  match b with
  | [] => EmptyString
  | x :: rest =>
      let n := Byte.to_N x in
      String (hex_digit (n / 16)) (String (hex_digit (n mod 16)) (hex rest))
  end.

End Text.

Module Wire.

(** *** Constants of [bluesky_client.py] *)

Definition IDLEN : nat := 5.
Definition GROUPID_CLIENT : Z := 67.   (* ord("C") *)
Definition GROUPID_SIM : Z := 83.      (* ord("S") *)
Definition GROUPID_NOGROUP : Z := 78.  (* ord("N") *)
Definition GROUPID_DEFAULT : Z := 0.
Definition MSG_SUBSCRIBE : Z := 1.
Definition MSG_UNSUBSCRIBE : Z := 0.

Definition wildcard : byte := "*"%byte.
Definition underscore : byte := "_"%byte.

(** [asbytestr(data)] *)
Definition asbytestr (data : pyid) : option bytes :=
  match data with
  | PInt n => chr_charmap n
  | PStr s => Some (list_byte_of_string s)
  | PBytes b => Some b
  end.

Definition asbytestr_addr (a : addr) : bytes :=
  match a with
  | AStr s => list_byte_of_string s
  | ABytes b => b
  end.

(** [seqidx2id(seqidx)] *)
Definition seqidx2id (seqidx : Z) : option bytes := chr_charmap (128 + seqidx).

(** The argument of [seqid2idx]: an [int] (a byte taken out of an identity
    by indexing) or a [bytes] object, on which [ord] is applied. *)
Inductive seqarg :=
| SeqInt (v : Z)
| SeqBytes (b : bytes).

(** [seqid2idx(seqid_byte)]; [ord] raises unless its argument has length 1. *)
Definition seqid2idx (seqid_byte : seqarg) : option Z :=
  match seqid_byte with
  | SeqInt v => Some (Z.max (-1) (v - 128))
  | SeqBytes [b] => Some (Z.max (-1) (byte_val b - 128))
  | SeqBytes _ => None
  end.

(** [os.urandom(n)]: the first [n] bytes of an entropy source. *)
Definition urandom (entropy : nat -> byte) (n : nat) : bytes :=
  map entropy (seq 0 n).

(** [b.replace(b"*", b"_")] *)
Definition replace_wildcard (b : bytes) : bytes :=
  map (fun x => if Byte.eqb x wildcard then underscore else x) b.

(** [genid(group_id, seqidx)] *)
Definition genid (entropy : nat -> byte) (group_id : pyid) (seqidx : Z)
  : option bytes :=
  match asbytestr group_id with
  | None => None
  | Some group_bytes =>
      if (IDLEN <=? length group_bytes)%nat
      then Some (firstn IDLEN group_bytes)
      else
        let group_bytes' :=
          if (length group_bytes <? IDLEN - 1)%nat
          then
            let padding_needed := (IDLEN - 1 - length group_bytes)%nat in
            group_bytes ++ replace_wildcard (urandom entropy padding_needed)
          else group_bytes in
        match seqidx2id seqidx with
        | None => None
        | Some s => Some (group_bytes' ++ s)
        end
  end.

(** [b.ljust(width, fill)]: pads on the right, never truncates. *)
Definition ljust (b : bytes) (width : nat) (fill : byte) : bytes :=
  b ++ repeat fill (width - length b).

(** The key of [_subscribe] and [_unsubscribe]:
    [bto_group.ljust(IDLEN, b"*") + btopic + bfrom_group]; the three
    conversions are made in the order topic, source, destination. *)
Definition subscribe_key (topic : string) (from_group : pyid) (to_group : addr)
  : option bytes :=
  match asbytestr (PStr topic) with
  | None => None
  | Some btopic =>
      match asbytestr from_group with
      | None => None
      | Some bfrom_group =>
          let bto_group := asbytestr_addr to_group in
          Some (ljust bto_group IDLEN wildcard ++ btopic ++ bfrom_group)
      end
  end.

End Wire.

(** ** Signals and subscribers ([BlueSkySignal], [BlueSkySubscriber]) *)

Module Signals.

Section Dispatch.

(** [W] is everything a callback can read and write (the registries
    included), [Cb] names the callbacks, [Args] is what [emit] passes. *)
Variables (W Cb Args : Type).

(** How a call ends: it returns, or it raises an [Exception]; in both
    cases the effects it had so far stay. *)
Inductive outcome :=
| Returned (w : W)
| Raised (w : W).

Definition world_of (o : outcome) : W :=
  match o with
  | Returned w => w
  | Raised w => w
  end.

Variable call : Cb -> Args -> W -> outcome.

(** The [except Exception as e:] arm of both [emit] functions: a warning
    is logged and the traceback printed; nothing is raised again. *)
Variable log_warning : Cb -> W -> W.

(** [try: callback(args)  except Exception: ...] *)
Definition guarded_call (cb : Cb) (args : Args) (w : W) : outcome :=
  match call cb args w with
  | Returned w' => Returned w'
  | Raised w' => Returned (log_warning cb w')
  end.

(** [for callback in callbacks_snapshot: ...] over a list fixed before the
    loop starts. The second component lists the callbacks entered. *)
Fixpoint for_each (snapshot : list Cb) (args : Args) (w : W)
  : outcome * list Cb :=
  match snapshot with
  | [] => (Returned w, [])
  | cb :: rest =>
      match guarded_call cb args w with
      | Returned w' =>
          let (o, entered) := for_each rest args w' in (o, cb :: entered)
      | Raised w' => (Raised w', [cb])
      end
  end.

(** [BlueSkySignal.emit]: the loop runs over the copy
    [self.callbacks[:]] taken on entry. *)
Definition signal_emit (callbacks : W -> list Cb) (args : Args) (w : W)
  : outcome * list Cb :=
  let callbacks_snapshot := callbacks w in
  for_each callbacks_snapshot args w.

(** [BlueSkySubscriber.emit]: the loop runs over the list object stored
    for the topic itself, so each step reads position [i] of the list as
    it is at that moment. [fuel] bounds the number of steps. *)
Fixpoint subscriber_loop (subscribers : W -> list Cb) (fuel i : nat)
    (args : Args) (w : W) : option (outcome * list Cb) :=
  match fuel with
  | O => None
  | S fuel' =>
      match nth_error (subscribers w) i with
      | None => Some (Returned w, [])
      | Some cb =>
          match guarded_call cb args w with
          | Returned w' =>
              match subscriber_loop subscribers fuel' (S i) args w' with
              | Some (o, entered) => Some (o, cb :: entered)
              | None => None
              end
          | Raised w' => Some (Raised w', [cb])
          end
      end
  end.

Definition subscriber_emit (subscribers : W -> list Cb) (fuel : nat)
    (args : Args) (w : W) : option (outcome * list Cb) :=
  subscriber_loop subscribers fuel 0 args w.

(** The world after running the callbacks of [cbs] one after the other,
    each on what its predecessor left, raising or not. *)
Definition run_all (cbs : list Cb) (args : Args) (w : W) : W :=
  fold_left (fun w cb => world_of (guarded_call cb args w)) cbs w.

End Dispatch.

End Signals.

(** ** The protocol client ([BlueSkyClient]) *)

Module Client.

Import Wire.

Inductive sockopt := SUBSCRIBE | UNSUBSCRIBE.

Inductive signal_name :=
| SigNodeAdded
| SigNodeRemoved
| SigServerAdded
| SigServerRemoved
| SigActnodeChanged.

(** What can be connected to [node_added]: the client's own two methods
    (connected by [__init__]) and callbacks of the proxy, named by a
    number. The other signals only ever receive callbacks of the proxy. *)
Inductive slot :=
| SlotActnode
| SlotRequestData
| SlotExternal (n : nat).

Definition slot_eq_dec : forall x y : slot, {x = y} + {x <> y}.
Proof.
  decide equality; apply Nat.eq_dec.
Defined.

(** The calls the client makes on its collaborators. *)
Inductive event :=
| SetSockOpt (opt : sockopt) (key : bytes)
    (* sock_recv.setsockopt(opt, key) *)
| SendMultipart (header : bytes) (data : pyval)
    (* sock_send.send_multipart([header, msgpack.packb(data)]) *)
| Invoked (sig : signal_name) (cb : nat) (arg : bytes)
    (* a callback of the proxy called by a signal *)
| Dispatched (topic : string) (args : list pyval)
             (kwargs : list (string * pyval)).
    (* subscriber.emit(topic, args, kwargs) *)

Record sockets := {
  zmq_context : bool;
  sock_recv : bool;
  sock_send : bool;
  poller : bool
}.

Record signals := {
  node_added : list slot;
  node_removed : list nat;
  server_added : list nat;
  server_removed : list nat;
  actnode_changed : list nat
}.

(** [BlueSkyStack] *)
Record stack_state := {
  cmdstack : list (string * option bytes);
  stack_sender_id : option bytes;
  current : string
}.

(** [BlueSkyContext]; [Reset] and [ActChange] are the strings below. *)
Record context := {
  action : pyval;
  ctx_sender_id : option bytes
}.

Definition Reset : string := "RESET".
Definition ActChange : string := "ACTCHANGE".

Record client := {
  node_id : bytes;
  group_id : bytes;
  server_id : bytes;
  act_id : option bytes;
  connected : bool;
  running : bool;
  socks : sockets;
  nodes : list bytes;
  servers : list bytes;
  acttopics : list (string * list addr);
  sigs : signals;
  subscribers : list (string * list nat);
  stack : stack_state;
  ctx : context
}.

Definition set_act_id (v : option bytes) (c : client) : client :=
  {| node_id := node_id c; group_id := group_id c; server_id := server_id c;
     act_id := v; connected := connected c; running := running c;
     socks := socks c; nodes := nodes c; servers := servers c;
     acttopics := acttopics c; sigs := sigs c; subscribers := subscribers c;
     stack := stack c; ctx := ctx c |}.

Definition set_flags (conn run : bool) (c : client) : client :=
  {| node_id := node_id c; group_id := group_id c; server_id := server_id c;
     act_id := act_id c; connected := conn; running := run;
     socks := socks c; nodes := nodes c; servers := servers c;
     acttopics := acttopics c; sigs := sigs c; subscribers := subscribers c;
     stack := stack c; ctx := ctx c |}.

Definition set_socks (v : sockets) (c : client) : client :=
  {| node_id := node_id c; group_id := group_id c; server_id := server_id c;
     act_id := act_id c; connected := connected c; running := running c;
     socks := v; nodes := nodes c; servers := servers c;
     acttopics := acttopics c; sigs := sigs c; subscribers := subscribers c;
     stack := stack c; ctx := ctx c |}.

Definition set_nodes (v : list bytes) (c : client) : client :=
  {| node_id := node_id c; group_id := group_id c; server_id := server_id c;
     act_id := act_id c; connected := connected c; running := running c;
     socks := socks c; nodes := v; servers := servers c;
     acttopics := acttopics c; sigs := sigs c; subscribers := subscribers c;
     stack := stack c; ctx := ctx c |}.

Definition set_servers (v : list bytes) (c : client) : client :=
  {| node_id := node_id c; group_id := group_id c; server_id := server_id c;
     act_id := act_id c; connected := connected c; running := running c;
     socks := socks c; nodes := nodes c; servers := v;
     acttopics := acttopics c; sigs := sigs c; subscribers := subscribers c;
     stack := stack c; ctx := ctx c |}.

Definition set_acttopics (v : list (string * list addr)) (c : client)
  : client :=
  {| node_id := node_id c; group_id := group_id c; server_id := server_id c;
     act_id := act_id c; connected := connected c; running := running c;
     socks := socks c; nodes := nodes c; servers := servers c;
     acttopics := v; sigs := sigs c; subscribers := subscribers c;
     stack := stack c; ctx := ctx c |}.

Definition set_sigs (v : signals) (c : client) : client :=
  {| node_id := node_id c; group_id := group_id c; server_id := server_id c;
     act_id := act_id c; connected := connected c; running := running c;
     socks := socks c; nodes := nodes c; servers := servers c;
     acttopics := acttopics c; sigs := v; subscribers := subscribers c;
     stack := stack c; ctx := ctx c |}.

Definition set_subscribers (v : list (string * list nat)) (c : client)
  : client :=
  {| node_id := node_id c; group_id := group_id c; server_id := server_id c;
     act_id := act_id c; connected := connected c; running := running c;
     socks := socks c; nodes := nodes c; servers := servers c;
     acttopics := acttopics c; sigs := sigs c; subscribers := v;
     stack := stack c; ctx := ctx c |}.

Definition set_stack (v : stack_state) (c : client) : client :=
  {| node_id := node_id c; group_id := group_id c; server_id := server_id c;
     act_id := act_id c; connected := connected c; running := running c;
     socks := socks c; nodes := nodes c; servers := servers c;
     acttopics := acttopics c; sigs := sigs c; subscribers := subscribers c;
     stack := v; ctx := ctx c |}.

Definition set_ctx (v : context) (c : client) : client :=
  {| node_id := node_id c; group_id := group_id c; server_id := server_id c;
     act_id := act_id c; connected := connected c; running := running c;
     socks := socks c; nodes := nodes c; servers := servers c;
     acttopics := acttopics c; sigs := sigs c; subscribers := subscribers c;
     stack := stack c; ctx := v |}.

Definition set_node_added (v : list slot) (s : signals) : signals :=
  {| node_added := v; node_removed := node_removed s;
     server_added := server_added s; server_removed := server_removed s;
     actnode_changed := actnode_changed s |}.

(** *** Sets and the registry of active-only topics *)

Definition mem_bytes (x : bytes) (l : list bytes) : bool :=
  if in_dec bytes_eq_dec x l then true else false.

Definition mem_addr (x : addr) (l : list addr) : bool :=
  if in_dec addr_eq_dec x l then true else false.

(** [s.add(x)] *)
Definition set_add_bytes (x : bytes) (l : list bytes) : list bytes :=
  if mem_bytes x l then l else l ++ [x].

Definition set_add_addr (x : addr) (l : list addr) : list addr :=
  if mem_addr x l then l else l ++ [x].

(** [s.discard(x)] *)
Definition discard_bytes (x : bytes) (l : list bytes) : list bytes :=
  filter (fun y => negb (bytes_eqb x y)) l.

Definition discard_addr (x : addr) (l : list addr) : list addr :=
  filter (fun y => if addr_eq_dec x y then false else true) l.

(** [topic in self.acttopics] *)
Fixpoint registry_mem (topic : string) (reg : list (string * list addr))
  : bool :=
  match reg with
  | [] => false
  | (t, _) :: rest => string_eqb topic t || registry_mem topic rest
  end.

(** [self.acttopics[topic].add(to_group)] on a [defaultdict(set)]: a
    missing topic is first entered, last, with an empty set. *)
Fixpoint registry_add (topic : string) (to_group : addr)
    (reg : list (string * list addr)) : list (string * list addr) :=
  match reg with
  | [] => [(topic, [to_group])]
  | (t, groupset) :: rest =>
      if string_eqb topic t
      then (t, set_add_addr to_group groupset) :: rest
      else (t, groupset) :: registry_add topic to_group rest
  end.

(** [self.acttopics[topic].discard(to_group)] for a topic that is present. *)
Fixpoint registry_discard (topic : string) (to_group : addr)
    (reg : list (string * list addr)) : list (string * list addr) :=
  match reg with
  | [] => []
  | (t, groupset) :: rest =>
      if string_eqb topic t
      then (t, discard_addr to_group groupset) :: rest
      else (t, groupset) :: registry_discard topic to_group rest
  end.

(** The (topic, addressee) pairs, in the order in which
    [for topic, groupset in self.acttopics.items(): for to_group in groupset]
    visits them. (The order in which Python walks a set is unspecified; the
    model walks it in insertion order.) *)
Definition registry_pairs (reg : list (string * list addr))
  : list (string * addr) :=
  flat_map (fun tg => map (fun g => (fst tg, g)) (snd tg)) reg.

(** *** Low-level subscription *)

(** [from_group == GROUPID_DEFAULT]: only the integer 0 equals it. *)
Definition is_default (from_group : pyid) : bool :=
  match from_group with
  | PInt n => n =? GROUPID_DEFAULT
  | _ => false
  end.

(** The tail shared by [_subscribe] and [_unsubscribe]: build the key and
    set the socket option. When a conversion raises, the [except] arm logs
    the error and nothing is sent. *)
Definition set_key (opt : sockopt) (topic : string) (from_group : pyid)
    (to_group : addr) (c : client) : client * list event :=
  match subscribe_key topic from_group to_group with
  | Some key => (c, [SetSockOpt opt key])
  | None => (c, [])
  end.

(** [_subscribe(topic, from_group, to_group, actonly)] *)
Definition _subscribe (topic : string) (from_group : pyid) (to_group : addr)
    (actonly : bool) (c : client) : client * list event :=
  if negb (sock_recv (socks c)) then (c, [])
  else if is_default from_group then
    if actonly then
      let c1 := set_acttopics (registry_add topic to_group (acttopics c)) c in
      match act_id c1 with
      | Some act => set_key SUBSCRIBE topic (PBytes act) to_group c1
      | None => (c1, [])
      end
    else set_key SUBSCRIBE topic (PInt GROUPID_SIM) to_group c
  else set_key SUBSCRIBE topic from_group to_group c.

(** [_unsubscribe(topic, from_group, to_group)] *)
Definition _unsubscribe (topic : string) (from_group : pyid) (to_group : addr)
    (c : client) : client * list event :=
  if negb (sock_recv (socks c)) then (c, [])
  else if is_default from_group then
    if registry_mem topic (acttopics c) then
      let c1 :=
        set_acttopics (registry_discard topic to_group (acttopics c)) c in
      match act_id c1 with
      | Some act => set_key UNSUBSCRIBE topic (PBytes act) to_group c1
      | None => (c1, [])
      end
    else set_key UNSUBSCRIBE topic (PInt GROUPID_SIM) to_group c
  else set_key UNSUBSCRIBE topic from_group to_group c.

(** The key handed to the socket by a call, if one was. *)
Definition key_of (r : client * list event) : option bytes :=
  match snd r with
  | [SetSockOpt _ key] => Some key
  | _ => None
  end.

(** *** Signals of the client *)

(** [BlueSkySignal.connect] and [BlueSkySignal.disconnect] *)
Definition signal_connect (cb : slot) (callbacks : list slot) : list slot :=
  if in_dec slot_eq_dec cb callbacks then callbacks else callbacks ++ [cb].

Fixpoint signal_disconnect (cb : slot) (callbacks : list slot) : list slot :=
  match callbacks with
  | [] => []
  | x :: rest =>
      if slot_eq_dec cb x then rest else x :: signal_disconnect cb rest
  end.

(** What a callback sees and changes: the client and the calls made so
    far. *)
Definition world := (client * list event)%type.

Definition record (evs : list event) (w : world) : world :=
  (fst w, snd w ++ evs).

(** A callback of the proxy. Whether it returns or raises makes no
    difference to the client (see [Signals.guarded_call]); such callbacks
    do not write to the client, so the model records the call only. *)
Definition call_external (sig : signal_name) (cb : nat) (arg : bytes)
    (w : world) : Signals.outcome world :=
  Signals.Returned (record [Invoked sig cb arg] w).

(** [signal.emit(arg)] for a signal that carries callbacks of the proxy. *)
Definition emit_external (sig : signal_name) (callbacks : client -> list nat)
    (arg : bytes) (c : client) : client * list event :=
  Signals.world_of
    (fst (Signals.signal_emit (call_external sig) (fun _ w => w)
            (fun w => callbacks (fst w)) arg (c, []))).

(** *** Active node *)

(** [for ...: if self.act_id: self._unsubscribe(topic, self.act_id, to_group)
             self._subscribe(topic, newact, to_group)] for one pair. *)
Definition resubscribe (newact : bytes) (binding : string * addr)
    (c : client) : client * list event :=
  let (topic, to_group) := binding in
  let (c1, e1) :=
    match act_id c with
    | Some ((_ :: _) as old) => _unsubscribe topic (PBytes old) to_group c
    | _ => (c, [])
    end in
  let (c2, e2) := _subscribe topic (PBytes newact) to_group false c1 in
  (c2, e1 ++ e2).

Fixpoint resubscribe_all (newact : bytes) (pairs : list (string * addr))
    (c : client) : client * list event :=
  match pairs with
  | [] => (c, [])
  | binding :: rest =>
      let (c1, e1) := resubscribe newact binding c in
      let (c2, e2) := resubscribe_all newact rest c1 in
      (c2, e1 ++ e2)
  end.

Definition same_id (x : bytes) (y : option bytes) : bool :=
  match y with
  | Some y' => bytes_eqb x y'
  | None => false
  end.

(** [actnode(newact)]; the third component is the value returned. The
    registry is not written during the loop (every call inside it names its
    source explicitly), so the pairs are those on entry. *)
Definition actnode (newact : option bytes) (c : client)
  : client * list event * option bytes :=
  match newact with
  | Some ((_ :: _) as newact') =>
      if negb (mem_bytes newact' (nodes c)) then (c, [], None)
      else
        let c1 :=
          match act_id c with
          | None =>
              set_sigs (set_node_added
                          (signal_disconnect SlotActnode (node_added (sigs c)))
                          (sigs c)) c
          | Some _ => c
          end in
        if negb (same_id newact' (act_id c1)) then
          let (c2, e2) :=
            resubscribe_all newact' (registry_pairs (acttopics c1)) c1 in
          let c3 := set_act_id (Some newact') c2 in
          let (c4, e4) :=
            emit_external SigActnodeChanged
              (fun c => actnode_changed (sigs c)) newact' c3 in
          (c4, e2 ++ e4, act_id c4)
        else (c1, [], act_id c1)
  | _ => (c, [], act_id c)
  end.

(** *** Sending *)

(** [to_group or ...]: a falsy destination becomes the empty string. *)
Definition or_empty (to_group : addr) : addr :=
  match to_group with
  | AStr EmptyString => AStr EmptyString
  | ABytes [] => AStr EmptyString
  | _ => to_group
  end.

(** [send(topic, data, to_group)]; the third component is the value
    returned. The transport is taken to accept the frame. *)
Definition send (topic : string) (data : pyval) (to_group : addr) (c : client)
  : client * list event * bool :=
  if negb (running c) || negb (sock_send (socks c)) then (c, [], false)
  else
    match asbytestr (PStr topic) with
    | None => (c, [], false)
    | Some btopic =>
        let bto_group := asbytestr_addr (or_empty to_group) in
        let header := ljust bto_group IDLEN wildcard ++ btopic ++ node_id c in
        (c, [SendMultipart header data], true)
    end.

(** [on_node_added_request_data(node_id)] *)
Definition on_node_added_request_data (new_node : bytes) (c : client)
  : client * list event :=
  let topics := VList [VStr "POLY"; VStr "STACKCMDS"] in
  let '(c1, e1, _) := send "REQUEST" topics (AStr EmptyString) c in
  let '(c2, e2, _) := send "REQUEST" topics (AStr EmptyString) c1 in
  (c2, e1 ++ e2).

(** A callback of [node_added]. *)
Definition call_slot (cb : slot) (arg : bytes) (w : world)
  : Signals.outcome world :=
  match cb with
  | SlotActnode =>
      let '(c, evs, _) := actnode (Some arg) (fst w) in
      Signals.Returned (c, snd w ++ evs)
  | SlotRequestData =>
      let (c, evs) := on_node_added_request_data arg (fst w) in
      Signals.Returned (c, snd w ++ evs)
  | SlotExternal n => call_external SigNodeAdded n arg w
  end.

(** [self.node_added.emit(sender_id)] *)
Definition emit_node_added (arg : bytes) (c : client) : client * list event :=
  Signals.world_of
    (fst (Signals.signal_emit call_slot (fun _ w => w)
            (fun w => node_added (sigs (fst w))) arg (c, []))).

(** *** Discovery: [_process_subscription_message(msg)], on [msg[0]] *)

Definition last_byte_val (b : bytes) : Z :=
  match rev b with
  | x :: _ => byte_val x
  | [] => 0
  end.

Definition _process_subscription_message (frame : bytes) (c : client)
  : client * list event :=
  if negb (length frame =? IDLEN + 1)%nat then (c, [])
  else
    match frame with
    | [] => (c, [])
    | kind :: sender_id =>
        match seqid2idx (SeqInt (last_byte_val sender_id)), sender_id with
        | Some sequence_idx, group :: _ =>
            if (byte_val group =? GROUPID_SIM)
               || (byte_val group =? GROUPID_NOGROUP) then
              if byte_val kind =? MSG_SUBSCRIBE then
                if 0 <? sequence_idx then
                  if negb (mem_bytes sender_id (nodes c)) then
                    let c1 := set_nodes (set_add_bytes sender_id (nodes c)) c in
                    if negb (bytes_eqb sender_id (node_id c1))
                    then emit_node_added sender_id c1
                    else (c1, [])
                  else (c, [])
                else if sequence_idx =? 0 then
                  if negb (mem_bytes sender_id (servers c)) then
                    let c1 :=
                      set_servers (set_add_bytes sender_id (servers c)) c in
                    emit_external SigServerAdded
                      (fun c => server_added (sigs c)) sender_id c1
                  else (c, [])
                else (c, [])
              else if byte_val kind =? MSG_UNSUBSCRIBE then
                if 0 <? sequence_idx then
                  if mem_bytes sender_id (nodes c) then
                    let c1 := set_nodes (discard_bytes sender_id (nodes c)) c in
                    emit_external SigNodeRemoved
                      (fun c => node_removed (sigs c)) sender_id c1
                  else (c, [])
                else if sequence_idx =? 0 then
                  if mem_bytes sender_id (servers c) then
                    let c1 :=
                      set_servers (discard_bytes sender_id (servers c)) c in
                    emit_external SigServerRemoved
                      (fun c => server_removed (sigs c)) sender_id c1
                  else (c, [])
                else (c, [])
              else (c, [])
            else (c, [])
        | _, _ => (c, [])
        end
    end.

(** *** Life cycle *)

(** The statement of the [try] block of [close] at which an exception
    arises, if one does. *)
Inductive close_fault :=
| CloseClean
| FaultUnregister
| FaultCloseRecv
| FaultCloseSend
| FaultDestroy.

(** The [try] block of [close]: unregister, close the two sockets, destroy
    the context, drop the poller; an exception leaves the rest as it is. *)
Definition release (fault : close_fault) (s : sockets) : sockets :=
  let unregisters := poller s && (sock_recv s || sock_send s) in
  match fault with
  | FaultUnregister => if unregisters then s else
      {| zmq_context := false; sock_recv := false; sock_send := false;
         poller := false |}
  | FaultCloseRecv => if sock_recv s then s else
      {| zmq_context := false; sock_recv := false; sock_send := false;
         poller := false |}
  | FaultCloseSend => if sock_send s then
      {| zmq_context := zmq_context s; sock_recv := false;
         sock_send := sock_send s; poller := poller s |}
      else
      {| zmq_context := false; sock_recv := false; sock_send := false;
         poller := false |}
  | FaultDestroy => if zmq_context s then
      {| zmq_context := zmq_context s; sock_recv := false;
         sock_send := false; poller := poller s |}
      else
      {| zmq_context := false; sock_recv := false; sock_send := false;
         poller := false |}
  | CloseClean =>
      {| zmq_context := false; sock_recv := false; sock_send := false;
         poller := false |}
  end.

(** [close()] *)
Definition close (fault : close_fault) (c : client) : client :=
  let c1 := set_flags false false c in
  let c2 := set_socks (release fault (socks c1)) c1 in
  let c3 := set_nodes [] c2 in
  let c4 := set_servers [] c3 in
  let c5 := set_acttopics [] c4 in
  set_act_id None c5.

(** How far [connect] gets: to the end, or to an exception after some of
    the four resources have been created. *)
Inductive connect_result :=
| ConnectOk
| ContextFailed
| RecvSocketFailed
| SendSocketFailed
| PollerFailed
| WiringFailed.

Definition opened (r : connect_result) (s : sockets) : sockets :=
  match r with
  | ContextFailed => s
  | RecvSocketFailed =>
      {| zmq_context := true; sock_recv := sock_recv s;
         sock_send := sock_send s; poller := poller s |}
  | SendSocketFailed =>
      {| zmq_context := true; sock_recv := true;
         sock_send := sock_send s; poller := poller s |}
  | PollerFailed =>
      {| zmq_context := true; sock_recv := true; sock_send := true;
         poller := poller s |}
  | WiringFailed | ConnectOk =>
      {| zmq_context := true; sock_recv := true; sock_send := true;
         poller := true |}
  end.

(** [connect(hostname, ...)]; the third component is the value returned.
    On success the client announces itself by subscribing to its own
    identity: empty topic, empty source, [node_id] as destination. *)
Definition connect (r : connect_result) (fault : close_fault) (c : client)
  : client * list event * bool :=
  let c1 := set_socks (opened r (socks c)) c in
  match r with
  | ConnectOk =>
      let (c2, e2) :=
        _subscribe EmptyString (PStr EmptyString) (ABytes (node_id c1))
          false c1 in
      (set_flags true true c2, e2, true)
  | _ => (close fault c1, [], false)
  end.

(** [BlueSkySubscriber.subscribe(topic, callback)] on the
    [defaultdict(list)]. *)
Fixpoint subscribers_add (topic : string) (cb : nat)
    (subs : list (string * list nat)) : list (string * list nat) :=
  match subs with
  | [] => [(topic, [cb])]
  | (t, cbs) :: rest =>
      if string_eqb topic t then (t, cbs ++ [cb]) :: rest
      else (t, cbs) :: subscribers_add topic cb rest
  end.

(** [subscribe(topic, callback, actonly)] *)
Definition subscribe (topic : string) (callback : nat) (actonly : bool)
    (c : client) : client * list event :=
  let c1 := set_subscribers (subscribers_add topic callback (subscribers c)) c in
  _subscribe topic (PInt GROUPID_DEFAULT) (AStr EmptyString) actonly c1.

(** [BlueSkyClient(group_id)]: a fresh client. [genid] raises for a group
    id that cannot be encoded. *)
Definition new_client (entropy : nat -> byte) (group : pyid) : option client :=
  match genid entropy group 1, asbytestr group, seqidx2id 0 with
  | Some id, Some g, Some zero =>
      Some {| node_id := id;
              group_id := firstn (length id - 1) g;
              server_id := removelast id ++ zero;
              act_id := None;
              connected := false;
              running := false;
              socks := {| zmq_context := false; sock_recv := false;
                          sock_send := false; poller := false |};
              nodes := [];
              servers := [];
              acttopics := [];
              sigs := {| node_added := [SlotActnode; SlotRequestData];
                         node_removed := []; server_added := [];
                         server_removed := []; actnode_changed := [] |};
              subscribers := [];
              stack := {| cmdstack := []; stack_sender_id := None;
                          current := EmptyString |};
              ctx := {| action := VNone; ctx_sender_id := None |} |}
  | _, _, _ => None
  end.

(** *** Data frames: [_process_data_message(msg)]

    [header] is [msg[0]]; [payload] is what [msgpack.unpackb(msg[1])]
    gave, or [None] when it raised. *)

Section DataFrames.

(** [bytes.decode()] (UTF-8), which raises on some inputs, and [str(x)]
    belong to the run time. *)
Variable utf8_decode : bytes -> option string.
Variable py_str : pyval -> string.

(** The branch shared by ACDATA, ROUTEDATA and POLY: a two-element
    payload is [action_type, actual_data]; the action and the sender are
    left in the context and only [actual_data] is delivered. *)
Definition shared_state (topic : string) (data : pyval) (sender_id : bytes)
    (c : client) : client * list event :=
  match data with
  | VList [action_type; actual_data] =>
      let act :=
        match action_type with
        | VStr a =>
            if string_eqb a "RESET" then VStr Reset
            else if string_eqb a "ACTCHANGE" then VStr ActChange
            else action_type
        | _ => action_type
        end in
      (set_ctx {| action := act; ctx_sender_id := Some sender_id |} c,
       [Dispatched topic [actual_data] []])
  | _ => (c, [Dispatched topic [data] []])
  end.

(** The ECHO branch: the positional arguments of the dispatch. *)
Definition echo_args (data : pyval) (sender_id : bytes) : list pyval :=
  match data with
  | VList l =>
      match l with
      | [] => [VStr EmptyString; VInt 0; VBytes sender_id]
      | [text] => [text; VInt 0; VBytes sender_id]
      | [text; flags] => [text; flags; VBytes sender_id]
      | _ => l
      end
  | VDict d =>
      let text :=
        match dict_get "text" d with Some v => v | None => VStr EmptyString
        end in
      let flags :=
        match dict_get "flags" d with Some v => v | None => VInt 0 end in
      let data_sender_id :=
        match dict_get "sender_id" d with
        | Some v => v
        | None => VBytes sender_id
        end in
      [text; flags; data_sender_id]
  | _ => [VStr (py_str data); VInt 0; VBytes sender_id]
  end.

Definition is_empty_str (v : pyval) : bool :=
  match v with
  | VStr EmptyString => true
  | _ => false
  end.

Definition _process_data_message (header : bytes) (payload : option pyval)
    (c : client) : client * list event :=
  if (length header <? IDLEN * 2)%nat then (c, [])
  else
    match utf8_decode
            (firstn (length header - IDLEN - IDLEN) (skipn IDLEN header)),
          payload with
    | Some topic, Some data =>
        let sender_id := skipn (length header - IDLEN) header in
        if string_eqb topic EmptyString then (c, [])
        else if string_eqb topic "SIMINFO"
                && match data with
                   | VList l => (7 <=? length l)%nat
                   | _ => false
                   end
        then
          match data with
          | VList l =>
              (c, [Dispatched topic l [("sender_id"%string, VBytes sender_id)]])
          | _ => (c, [])
          end
        else if string_eqb topic "ACDATA" || string_eqb topic "ROUTEDATA"
        then shared_state topic data sender_id c
        else if string_eqb topic "ECHO"
        then (c, [Dispatched topic (echo_args data sender_id) []])
        else if string_eqb topic "POLY"
        then shared_state topic data sender_id c
        else
          match data with
          | VDict d => (c, [Dispatched topic [] d])
          | VList l => (c, [Dispatched topic l []])
          | _ =>
              if is_empty_str data then (c, [Dispatched topic [] []])
              else (c, [Dispatched topic [data] []])
          end
    | _, _ => (c, [])
    end.

End DataFrames.

(** *** The command stack ([BlueSkyStack]) *)

(** The body of the loop of [stack(...)] for one command line. *)
Definition stack_line (sender_id : option bytes) (cmdline : string)
    (s : stack_state) : stack_state :=
  let cmdline := Text.strip cmdline in
  if string_eqb cmdline EmptyString then s
  else
    {| cmdstack :=
         cmdstack s
         ++ map (fun line => (Text.strip line, sender_id))
              (Text.split_on ";" cmdline);
       stack_sender_id := stack_sender_id s;
       current := current s |}.

(** [stack.stack(cmdlines..., sender_id=sender_id)] *)
Definition stack_commands (cmdlines : list string) (sender_id : option bytes)
    (c : client) : client :=
  set_stack (fold_left (fun s l => stack_line sender_id l s) cmdlines (stack c))
    c.

(** One turn of [stack.commands()]: the first entry leaves the queue and
    becomes the current one; on an empty queue the generator ends and
    resets [current] and [sender_id]. *)
Definition next_command (s : stack_state) : stack_state :=
  match cmdstack s with
  | (cmdline, sender_id) :: rest =>
      {| cmdstack := rest; stack_sender_id := sender_id;
         current := cmdline |}
  | [] =>
      {| cmdstack := []; stack_sender_id := None; current := EmptyString |}
  end.

(** *** What can happen to a client

    The methods above, called by the proxy or by [receive] on a frame of
    either socket, the command stack filled and drained by the proxy, and
    the two things the proxy does to the client from outside: connecting
    one of its callbacks to a signal, and writing [act_id = None]. *)

(** [signal.connect(callback)] for a callback of the proxy. *)
Definition connect_external (n : nat) (callbacks : list nat) : list nat :=
  if in_dec Nat.eq_dec n callbacks then callbacks else callbacks ++ [n].

Definition connect_signal (sig : signal_name) (n : nat) (s : signals)
  : signals :=
  match sig with
  | SigNodeAdded =>
      set_node_added (signal_connect (SlotExternal n) (node_added s)) s
  | SigNodeRemoved =>
      {| node_added := node_added s;
         node_removed := connect_external n (node_removed s);
         server_added := server_added s; server_removed := server_removed s;
         actnode_changed := actnode_changed s |}
  | SigServerAdded =>
      {| node_added := node_added s; node_removed := node_removed s;
         server_added := connect_external n (server_added s);
         server_removed := server_removed s;
         actnode_changed := actnode_changed s |}
  | SigServerRemoved =>
      {| node_added := node_added s; node_removed := node_removed s;
         server_added := server_added s;
         server_removed := connect_external n (server_removed s);
         actnode_changed := actnode_changed s |}
  | SigActnodeChanged =>
      {| node_added := node_added s; node_removed := node_removed s;
         server_added := server_added s; server_removed := server_removed s;
         actnode_changed := connect_external n (actnode_changed s) |}
  end.

Inductive op :=
| OpConnect (r : connect_result) (fault : close_fault)
| OpClose (fault : close_fault)
| OpControlFrame (frame : bytes)
| OpDataFrame (utf8_decode : bytes -> option string)
              (py_str : pyval -> string) (header : bytes)
              (payload : option pyval)
| OpSubscribe (topic : string) (callback : nat) (actonly : bool)
| OpLowSubscribe (topic : string) (from_group : pyid) (to_group : addr)
                 (actonly : bool)
| OpLowUnsubscribe (topic : string) (from_group : pyid) (to_group : addr)
| OpActnode (newact : option bytes)
| OpSend (topic : string) (data : pyval) (to_group : addr)
| OpStack (cmdlines : list string) (sender_id : option bytes)
| OpNextCommand
| OpConnectSignal (sig : signal_name) (n : nat)
| OpClearActId.

(** [update()] and [receive()] hand a frame on only when the client is
    running, connected and has a poller. *)
Definition run_op (o : op) (c : client) : client * list event :=
  match o with
  | OpConnect r fault => fst (connect r fault c)
  | OpClose fault => (close fault c, [])
  | OpControlFrame frame =>
      if running c && connected c && poller (socks c)
      then _process_subscription_message frame c
      else (c, [])
  | OpDataFrame utf8_decode py_str header payload =>
      if running c && connected c && poller (socks c)
      then _process_data_message utf8_decode py_str header payload c
      else (c, [])
  | OpSubscribe topic callback actonly => subscribe topic callback actonly c
  | OpLowSubscribe topic from_group to_group actonly =>
      _subscribe topic from_group to_group actonly c
  | OpLowUnsubscribe topic from_group to_group =>
      _unsubscribe topic from_group to_group c
  | OpActnode newact => fst (actnode newact c)
  | OpSend topic data to_group => fst (send topic data to_group c)
  | OpStack cmdlines sender_id => (stack_commands cmdlines sender_id c, [])
  | OpNextCommand => (set_stack (next_command (stack c)) c, [])
  | OpConnectSignal sig n => (set_sigs (connect_signal sig n (sigs c)) c, [])
  | OpClearActId => (set_act_id None c, [])
  end.

Fixpoint run_ops (os : list op) (c : client) : client * list event :=
  match os with
  | [] => (c, [])
  | o :: rest =>
      let (c1, e1) := run_op o c in
      let (c2, e2) := run_ops rest c1 in
      (c2, e1 ++ e2)
  end.

(** The states a client started by [BlueSkyClient(group)] can be in. *)
Definition reachable (c : client) : Prop :=
  exists entropy group c0 os,
    new_client entropy group = Some c0 /\ fst (run_ops os c0) = c.

End Client.

(** ** The proxy ([BlueSkyProxy] and its managers and handlers) *)

Module Proxy.

Import Wire.

(** An entry of [tracked_nodes]. *)
Record node_record := {
  node_id : bytes;
  node_id_str : string;
  node_num : Z;
  server_id : bytes;
  status : string;
  time : string
}.

(** What the proxy pushes to the event channel: [socketio.emit(name,
    payload)]. The payload of a [node_info] event is the rendering of the
    four components kept here. *)
Inductive push :=
| Emit (name : string) (payload : pyval)
| EmitNodeInfo (nodes : list (string * node_record)) (servers : list bytes)
               (active_node : option string) (total_nodes : nat).

(** The state of [BlueSkyProxy]. [socketio] tells whether an event channel
    is attached, [network_timer] whether a poll tick is scheduled; an empty
    dict stands for an empty cache. *)
Record proxy := {
  bluesky_client : option Client.client;
  running : bool;
  network_timer : bool;
  socketio : bool;
  allow_reconnection : bool;
  last_successful_update : Q;
  connection_timeout : Q;
  was_connected : bool;
  connection_failures : Z;
  max_connection_failures : Z;
  traffic_data : pyval;
  sim_data : pyval;
  echo_data : pyval;
  last_update : Q;
  poly_data_by_node : list (string * pyval);
  polyline_data_by_node : list (string * pyval);
  last_siminfo_emit : Q;
  last_acdata_emit : Q;
  last_echo_emit : Q;
  siminfo_interval : Q;
  acdata_interval : Q;
  connected_clients : Z;
  tracked_nodes : list (string * node_record);
  tracked_servers : list bytes;
  current_bbox : pyval;
  aircraft_counter : Z;
  cmddict : list (string * string);
  server_ip : string
}.

Definition set_bluesky_client (v : option Client.client) (p : proxy) : proxy :=
  {| bluesky_client := v; running := running p;
     network_timer := network_timer p; socketio := socketio p;
     allow_reconnection := allow_reconnection p;
     last_successful_update := last_successful_update p;
     connection_timeout := connection_timeout p;
     was_connected := was_connected p;
     connection_failures := connection_failures p;
     max_connection_failures := max_connection_failures p;
     traffic_data := traffic_data p; sim_data := sim_data p;
     echo_data := echo_data p; last_update := last_update p;
     poly_data_by_node := poly_data_by_node p;
     polyline_data_by_node := polyline_data_by_node p;
     last_siminfo_emit := last_siminfo_emit p;
     last_acdata_emit := last_acdata_emit p;
     last_echo_emit := last_echo_emit p;
     siminfo_interval := siminfo_interval p;
     acdata_interval := acdata_interval p;
     connected_clients := connected_clients p;
     tracked_nodes := tracked_nodes p; tracked_servers := tracked_servers p;
     current_bbox := current_bbox p; aircraft_counter := aircraft_counter p;
     cmddict := cmddict p; server_ip := server_ip p |}.

Definition set_running (v : bool) (p : proxy) : proxy :=
  {| bluesky_client := bluesky_client p; running := v;
     network_timer := network_timer p; socketio := socketio p;
     allow_reconnection := allow_reconnection p;
     last_successful_update := last_successful_update p;
     connection_timeout := connection_timeout p;
     was_connected := was_connected p;
     connection_failures := connection_failures p;
     max_connection_failures := max_connection_failures p;
     traffic_data := traffic_data p; sim_data := sim_data p;
     echo_data := echo_data p; last_update := last_update p;
     poly_data_by_node := poly_data_by_node p;
     polyline_data_by_node := polyline_data_by_node p;
     last_siminfo_emit := last_siminfo_emit p;
     last_acdata_emit := last_acdata_emit p;
     last_echo_emit := last_echo_emit p;
     siminfo_interval := siminfo_interval p;
     acdata_interval := acdata_interval p;
     connected_clients := connected_clients p;
     tracked_nodes := tracked_nodes p; tracked_servers := tracked_servers p;
     current_bbox := current_bbox p; aircraft_counter := aircraft_counter p;
     cmddict := cmddict p; server_ip := server_ip p |}.

Definition set_network_timer (v : bool) (p : proxy) : proxy :=
  {| bluesky_client := bluesky_client p; running := running p;
     network_timer := v; socketio := socketio p;
     allow_reconnection := allow_reconnection p;
     last_successful_update := last_successful_update p;
     connection_timeout := connection_timeout p;
     was_connected := was_connected p;
     connection_failures := connection_failures p;
     max_connection_failures := max_connection_failures p;
     traffic_data := traffic_data p; sim_data := sim_data p;
     echo_data := echo_data p; last_update := last_update p;
     poly_data_by_node := poly_data_by_node p;
     polyline_data_by_node := polyline_data_by_node p;
     last_siminfo_emit := last_siminfo_emit p;
     last_acdata_emit := last_acdata_emit p;
     last_echo_emit := last_echo_emit p;
     siminfo_interval := siminfo_interval p;
     acdata_interval := acdata_interval p;
     connected_clients := connected_clients p;
     tracked_nodes := tracked_nodes p; tracked_servers := tracked_servers p;
     current_bbox := current_bbox p; aircraft_counter := aircraft_counter p;
     cmddict := cmddict p; server_ip := server_ip p |}.

Definition set_allow_reconnection (v : bool) (p : proxy) : proxy :=
  {| bluesky_client := bluesky_client p; running := running p;
     network_timer := network_timer p; socketio := socketio p;
     allow_reconnection := v;
     last_successful_update := last_successful_update p;
     connection_timeout := connection_timeout p;
     was_connected := was_connected p;
     connection_failures := connection_failures p;
     max_connection_failures := max_connection_failures p;
     traffic_data := traffic_data p; sim_data := sim_data p;
     echo_data := echo_data p; last_update := last_update p;
     poly_data_by_node := poly_data_by_node p;
     polyline_data_by_node := polyline_data_by_node p;
     last_siminfo_emit := last_siminfo_emit p;
     last_acdata_emit := last_acdata_emit p;
     last_echo_emit := last_echo_emit p;
     siminfo_interval := siminfo_interval p;
     acdata_interval := acdata_interval p;
     connected_clients := connected_clients p;
     tracked_nodes := tracked_nodes p; tracked_servers := tracked_servers p;
     current_bbox := current_bbox p; aircraft_counter := aircraft_counter p;
     cmddict := cmddict p; server_ip := server_ip p |}.

Definition set_last_successful_update (v : Q) (p : proxy) : proxy :=
  {| bluesky_client := bluesky_client p; running := running p;
     network_timer := network_timer p; socketio := socketio p;
     allow_reconnection := allow_reconnection p; last_successful_update := v;
     connection_timeout := connection_timeout p;
     was_connected := was_connected p;
     connection_failures := connection_failures p;
     max_connection_failures := max_connection_failures p;
     traffic_data := traffic_data p; sim_data := sim_data p;
     echo_data := echo_data p; last_update := last_update p;
     poly_data_by_node := poly_data_by_node p;
     polyline_data_by_node := polyline_data_by_node p;
     last_siminfo_emit := last_siminfo_emit p;
     last_acdata_emit := last_acdata_emit p;
     last_echo_emit := last_echo_emit p;
     siminfo_interval := siminfo_interval p;
     acdata_interval := acdata_interval p;
     connected_clients := connected_clients p;
     tracked_nodes := tracked_nodes p; tracked_servers := tracked_servers p;
     current_bbox := current_bbox p; aircraft_counter := aircraft_counter p;
     cmddict := cmddict p; server_ip := server_ip p |}.

Definition set_was_connected (v : bool) (p : proxy) : proxy :=
  {| bluesky_client := bluesky_client p; running := running p;
     network_timer := network_timer p; socketio := socketio p;
     allow_reconnection := allow_reconnection p;
     last_successful_update := last_successful_update p;
     connection_timeout := connection_timeout p; was_connected := v;
     connection_failures := connection_failures p;
     max_connection_failures := max_connection_failures p;
     traffic_data := traffic_data p; sim_data := sim_data p;
     echo_data := echo_data p; last_update := last_update p;
     poly_data_by_node := poly_data_by_node p;
     polyline_data_by_node := polyline_data_by_node p;
     last_siminfo_emit := last_siminfo_emit p;
     last_acdata_emit := last_acdata_emit p;
     last_echo_emit := last_echo_emit p;
     siminfo_interval := siminfo_interval p;
     acdata_interval := acdata_interval p;
     connected_clients := connected_clients p;
     tracked_nodes := tracked_nodes p; tracked_servers := tracked_servers p;
     current_bbox := current_bbox p; aircraft_counter := aircraft_counter p;
     cmddict := cmddict p; server_ip := server_ip p |}.

Definition set_connection_failures (v : Z) (p : proxy) : proxy :=
  {| bluesky_client := bluesky_client p; running := running p;
     network_timer := network_timer p; socketio := socketio p;
     allow_reconnection := allow_reconnection p;
     last_successful_update := last_successful_update p;
     connection_timeout := connection_timeout p;
     was_connected := was_connected p; connection_failures := v;
     max_connection_failures := max_connection_failures p;
     traffic_data := traffic_data p; sim_data := sim_data p;
     echo_data := echo_data p; last_update := last_update p;
     poly_data_by_node := poly_data_by_node p;
     polyline_data_by_node := polyline_data_by_node p;
     last_siminfo_emit := last_siminfo_emit p;
     last_acdata_emit := last_acdata_emit p;
     last_echo_emit := last_echo_emit p;
     siminfo_interval := siminfo_interval p;
     acdata_interval := acdata_interval p;
     connected_clients := connected_clients p;
     tracked_nodes := tracked_nodes p; tracked_servers := tracked_servers p;
     current_bbox := current_bbox p; aircraft_counter := aircraft_counter p;
     cmddict := cmddict p; server_ip := server_ip p |}.

Definition set_traffic_data (v : pyval) (p : proxy) : proxy :=
  {| bluesky_client := bluesky_client p; running := running p;
     network_timer := network_timer p; socketio := socketio p;
     allow_reconnection := allow_reconnection p;
     last_successful_update := last_successful_update p;
     connection_timeout := connection_timeout p;
     was_connected := was_connected p;
     connection_failures := connection_failures p;
     max_connection_failures := max_connection_failures p; traffic_data := v;
     sim_data := sim_data p; echo_data := echo_data p;
     last_update := last_update p; poly_data_by_node := poly_data_by_node p;
     polyline_data_by_node := polyline_data_by_node p;
     last_siminfo_emit := last_siminfo_emit p;
     last_acdata_emit := last_acdata_emit p;
     last_echo_emit := last_echo_emit p;
     siminfo_interval := siminfo_interval p;
     acdata_interval := acdata_interval p;
     connected_clients := connected_clients p;
     tracked_nodes := tracked_nodes p; tracked_servers := tracked_servers p;
     current_bbox := current_bbox p; aircraft_counter := aircraft_counter p;
     cmddict := cmddict p; server_ip := server_ip p |}.

Definition set_sim_data (v : pyval) (p : proxy) : proxy :=
  {| bluesky_client := bluesky_client p; running := running p;
     network_timer := network_timer p; socketio := socketio p;
     allow_reconnection := allow_reconnection p;
     last_successful_update := last_successful_update p;
     connection_timeout := connection_timeout p;
     was_connected := was_connected p;
     connection_failures := connection_failures p;
     max_connection_failures := max_connection_failures p;
     traffic_data := traffic_data p; sim_data := v; echo_data := echo_data p;
     last_update := last_update p; poly_data_by_node := poly_data_by_node p;
     polyline_data_by_node := polyline_data_by_node p;
     last_siminfo_emit := last_siminfo_emit p;
     last_acdata_emit := last_acdata_emit p;
     last_echo_emit := last_echo_emit p;
     siminfo_interval := siminfo_interval p;
     acdata_interval := acdata_interval p;
     connected_clients := connected_clients p;
     tracked_nodes := tracked_nodes p; tracked_servers := tracked_servers p;
     current_bbox := current_bbox p; aircraft_counter := aircraft_counter p;
     cmddict := cmddict p; server_ip := server_ip p |}.

Definition set_echo_data (v : pyval) (p : proxy) : proxy :=
  {| bluesky_client := bluesky_client p; running := running p;
     network_timer := network_timer p; socketio := socketio p;
     allow_reconnection := allow_reconnection p;
     last_successful_update := last_successful_update p;
     connection_timeout := connection_timeout p;
     was_connected := was_connected p;
     connection_failures := connection_failures p;
     max_connection_failures := max_connection_failures p;
     traffic_data := traffic_data p; sim_data := sim_data p; echo_data := v;
     last_update := last_update p; poly_data_by_node := poly_data_by_node p;
     polyline_data_by_node := polyline_data_by_node p;
     last_siminfo_emit := last_siminfo_emit p;
     last_acdata_emit := last_acdata_emit p;
     last_echo_emit := last_echo_emit p;
     siminfo_interval := siminfo_interval p;
     acdata_interval := acdata_interval p;
     connected_clients := connected_clients p;
     tracked_nodes := tracked_nodes p; tracked_servers := tracked_servers p;
     current_bbox := current_bbox p; aircraft_counter := aircraft_counter p;
     cmddict := cmddict p; server_ip := server_ip p |}.

Definition set_last_update (v : Q) (p : proxy) : proxy :=
  {| bluesky_client := bluesky_client p; running := running p;
     network_timer := network_timer p; socketio := socketio p;
     allow_reconnection := allow_reconnection p;
     last_successful_update := last_successful_update p;
     connection_timeout := connection_timeout p;
     was_connected := was_connected p;
     connection_failures := connection_failures p;
     max_connection_failures := max_connection_failures p;
     traffic_data := traffic_data p; sim_data := sim_data p;
     echo_data := echo_data p; last_update := v;
     poly_data_by_node := poly_data_by_node p;
     polyline_data_by_node := polyline_data_by_node p;
     last_siminfo_emit := last_siminfo_emit p;
     last_acdata_emit := last_acdata_emit p;
     last_echo_emit := last_echo_emit p;
     siminfo_interval := siminfo_interval p;
     acdata_interval := acdata_interval p;
     connected_clients := connected_clients p;
     tracked_nodes := tracked_nodes p; tracked_servers := tracked_servers p;
     current_bbox := current_bbox p; aircraft_counter := aircraft_counter p;
     cmddict := cmddict p; server_ip := server_ip p |}.

Definition set_poly_data_by_node (v : list (string * pyval)) (p : proxy) : proxy :=
  {| bluesky_client := bluesky_client p; running := running p;
     network_timer := network_timer p; socketio := socketio p;
     allow_reconnection := allow_reconnection p;
     last_successful_update := last_successful_update p;
     connection_timeout := connection_timeout p;
     was_connected := was_connected p;
     connection_failures := connection_failures p;
     max_connection_failures := max_connection_failures p;
     traffic_data := traffic_data p; sim_data := sim_data p;
     echo_data := echo_data p; last_update := last_update p;
     poly_data_by_node := v;
     polyline_data_by_node := polyline_data_by_node p;
     last_siminfo_emit := last_siminfo_emit p;
     last_acdata_emit := last_acdata_emit p;
     last_echo_emit := last_echo_emit p;
     siminfo_interval := siminfo_interval p;
     acdata_interval := acdata_interval p;
     connected_clients := connected_clients p;
     tracked_nodes := tracked_nodes p; tracked_servers := tracked_servers p;
     current_bbox := current_bbox p; aircraft_counter := aircraft_counter p;
     cmddict := cmddict p; server_ip := server_ip p |}.

Definition set_polyline_data_by_node (v : list (string * pyval)) (p : proxy) : proxy :=
  {| bluesky_client := bluesky_client p; running := running p;
     network_timer := network_timer p; socketio := socketio p;
     allow_reconnection := allow_reconnection p;
     last_successful_update := last_successful_update p;
     connection_timeout := connection_timeout p;
     was_connected := was_connected p;
     connection_failures := connection_failures p;
     max_connection_failures := max_connection_failures p;
     traffic_data := traffic_data p; sim_data := sim_data p;
     echo_data := echo_data p; last_update := last_update p;
     poly_data_by_node := poly_data_by_node p; polyline_data_by_node := v;
     last_siminfo_emit := last_siminfo_emit p;
     last_acdata_emit := last_acdata_emit p;
     last_echo_emit := last_echo_emit p;
     siminfo_interval := siminfo_interval p;
     acdata_interval := acdata_interval p;
     connected_clients := connected_clients p;
     tracked_nodes := tracked_nodes p; tracked_servers := tracked_servers p;
     current_bbox := current_bbox p; aircraft_counter := aircraft_counter p;
     cmddict := cmddict p; server_ip := server_ip p |}.

Definition set_last_siminfo_emit (v : Q) (p : proxy) : proxy :=
  {| bluesky_client := bluesky_client p; running := running p;
     network_timer := network_timer p; socketio := socketio p;
     allow_reconnection := allow_reconnection p;
     last_successful_update := last_successful_update p;
     connection_timeout := connection_timeout p;
     was_connected := was_connected p;
     connection_failures := connection_failures p;
     max_connection_failures := max_connection_failures p;
     traffic_data := traffic_data p; sim_data := sim_data p;
     echo_data := echo_data p; last_update := last_update p;
     poly_data_by_node := poly_data_by_node p;
     polyline_data_by_node := polyline_data_by_node p;
     last_siminfo_emit := v; last_acdata_emit := last_acdata_emit p;
     last_echo_emit := last_echo_emit p;
     siminfo_interval := siminfo_interval p;
     acdata_interval := acdata_interval p;
     connected_clients := connected_clients p;
     tracked_nodes := tracked_nodes p; tracked_servers := tracked_servers p;
     current_bbox := current_bbox p; aircraft_counter := aircraft_counter p;
     cmddict := cmddict p; server_ip := server_ip p |}.

Definition set_last_acdata_emit (v : Q) (p : proxy) : proxy :=
  {| bluesky_client := bluesky_client p; running := running p;
     network_timer := network_timer p; socketio := socketio p;
     allow_reconnection := allow_reconnection p;
     last_successful_update := last_successful_update p;
     connection_timeout := connection_timeout p;
     was_connected := was_connected p;
     connection_failures := connection_failures p;
     max_connection_failures := max_connection_failures p;
     traffic_data := traffic_data p; sim_data := sim_data p;
     echo_data := echo_data p; last_update := last_update p;
     poly_data_by_node := poly_data_by_node p;
     polyline_data_by_node := polyline_data_by_node p;
     last_siminfo_emit := last_siminfo_emit p; last_acdata_emit := v;
     last_echo_emit := last_echo_emit p;
     siminfo_interval := siminfo_interval p;
     acdata_interval := acdata_interval p;
     connected_clients := connected_clients p;
     tracked_nodes := tracked_nodes p; tracked_servers := tracked_servers p;
     current_bbox := current_bbox p; aircraft_counter := aircraft_counter p;
     cmddict := cmddict p; server_ip := server_ip p |}.

Definition set_last_echo_emit (v : Q) (p : proxy) : proxy :=
  {| bluesky_client := bluesky_client p; running := running p;
     network_timer := network_timer p; socketio := socketio p;
     allow_reconnection := allow_reconnection p;
     last_successful_update := last_successful_update p;
     connection_timeout := connection_timeout p;
     was_connected := was_connected p;
     connection_failures := connection_failures p;
     max_connection_failures := max_connection_failures p;
     traffic_data := traffic_data p; sim_data := sim_data p;
     echo_data := echo_data p; last_update := last_update p;
     poly_data_by_node := poly_data_by_node p;
     polyline_data_by_node := polyline_data_by_node p;
     last_siminfo_emit := last_siminfo_emit p;
     last_acdata_emit := last_acdata_emit p; last_echo_emit := v;
     siminfo_interval := siminfo_interval p;
     acdata_interval := acdata_interval p;
     connected_clients := connected_clients p;
     tracked_nodes := tracked_nodes p; tracked_servers := tracked_servers p;
     current_bbox := current_bbox p; aircraft_counter := aircraft_counter p;
     cmddict := cmddict p; server_ip := server_ip p |}.

Definition set_tracked_nodes (v : list (string * node_record)) (p : proxy) : proxy :=
  {| bluesky_client := bluesky_client p; running := running p;
     network_timer := network_timer p; socketio := socketio p;
     allow_reconnection := allow_reconnection p;
     last_successful_update := last_successful_update p;
     connection_timeout := connection_timeout p;
     was_connected := was_connected p;
     connection_failures := connection_failures p;
     max_connection_failures := max_connection_failures p;
     traffic_data := traffic_data p; sim_data := sim_data p;
     echo_data := echo_data p; last_update := last_update p;
     poly_data_by_node := poly_data_by_node p;
     polyline_data_by_node := polyline_data_by_node p;
     last_siminfo_emit := last_siminfo_emit p;
     last_acdata_emit := last_acdata_emit p;
     last_echo_emit := last_echo_emit p;
     siminfo_interval := siminfo_interval p;
     acdata_interval := acdata_interval p;
     connected_clients := connected_clients p; tracked_nodes := v;
     tracked_servers := tracked_servers p; current_bbox := current_bbox p;
     aircraft_counter := aircraft_counter p; cmddict := cmddict p;
     server_ip := server_ip p |}.

Definition set_tracked_servers (v : list bytes) (p : proxy) : proxy :=
  {| bluesky_client := bluesky_client p; running := running p;
     network_timer := network_timer p; socketio := socketio p;
     allow_reconnection := allow_reconnection p;
     last_successful_update := last_successful_update p;
     connection_timeout := connection_timeout p;
     was_connected := was_connected p;
     connection_failures := connection_failures p;
     max_connection_failures := max_connection_failures p;
     traffic_data := traffic_data p; sim_data := sim_data p;
     echo_data := echo_data p; last_update := last_update p;
     poly_data_by_node := poly_data_by_node p;
     polyline_data_by_node := polyline_data_by_node p;
     last_siminfo_emit := last_siminfo_emit p;
     last_acdata_emit := last_acdata_emit p;
     last_echo_emit := last_echo_emit p;
     siminfo_interval := siminfo_interval p;
     acdata_interval := acdata_interval p;
     connected_clients := connected_clients p;
     tracked_nodes := tracked_nodes p; tracked_servers := v;
     current_bbox := current_bbox p; aircraft_counter := aircraft_counter p;
     cmddict := cmddict p; server_ip := server_ip p |}.

Definition set_current_bbox (v : pyval) (p : proxy) : proxy :=
  {| bluesky_client := bluesky_client p; running := running p;
     network_timer := network_timer p; socketio := socketio p;
     allow_reconnection := allow_reconnection p;
     last_successful_update := last_successful_update p;
     connection_timeout := connection_timeout p;
     was_connected := was_connected p;
     connection_failures := connection_failures p;
     max_connection_failures := max_connection_failures p;
     traffic_data := traffic_data p; sim_data := sim_data p;
     echo_data := echo_data p; last_update := last_update p;
     poly_data_by_node := poly_data_by_node p;
     polyline_data_by_node := polyline_data_by_node p;
     last_siminfo_emit := last_siminfo_emit p;
     last_acdata_emit := last_acdata_emit p;
     last_echo_emit := last_echo_emit p;
     siminfo_interval := siminfo_interval p;
     acdata_interval := acdata_interval p;
     connected_clients := connected_clients p;
     tracked_nodes := tracked_nodes p; tracked_servers := tracked_servers p;
     current_bbox := v; aircraft_counter := aircraft_counter p;
     cmddict := cmddict p; server_ip := server_ip p |}.

Definition set_aircraft_counter (v : Z) (p : proxy) : proxy :=
  {| bluesky_client := bluesky_client p; running := running p;
     network_timer := network_timer p; socketio := socketio p;
     allow_reconnection := allow_reconnection p;
     last_successful_update := last_successful_update p;
     connection_timeout := connection_timeout p;
     was_connected := was_connected p;
     connection_failures := connection_failures p;
     max_connection_failures := max_connection_failures p;
     traffic_data := traffic_data p; sim_data := sim_data p;
     echo_data := echo_data p; last_update := last_update p;
     poly_data_by_node := poly_data_by_node p;
     polyline_data_by_node := polyline_data_by_node p;
     last_siminfo_emit := last_siminfo_emit p;
     last_acdata_emit := last_acdata_emit p;
     last_echo_emit := last_echo_emit p;
     siminfo_interval := siminfo_interval p;
     acdata_interval := acdata_interval p;
     connected_clients := connected_clients p;
     tracked_nodes := tracked_nodes p; tracked_servers := tracked_servers p;
     current_bbox := current_bbox p; aircraft_counter := v;
     cmddict := cmddict p; server_ip := server_ip p |}.

Definition set_cmddict (v : list (string * string)) (p : proxy) : proxy :=
  {| bluesky_client := bluesky_client p; running := running p;
     network_timer := network_timer p; socketio := socketio p;
     allow_reconnection := allow_reconnection p;
     last_successful_update := last_successful_update p;
     connection_timeout := connection_timeout p;
     was_connected := was_connected p;
     connection_failures := connection_failures p;
     max_connection_failures := max_connection_failures p;
     traffic_data := traffic_data p; sim_data := sim_data p;
     echo_data := echo_data p; last_update := last_update p;
     poly_data_by_node := poly_data_by_node p;
     polyline_data_by_node := polyline_data_by_node p;
     last_siminfo_emit := last_siminfo_emit p;
     last_acdata_emit := last_acdata_emit p;
     last_echo_emit := last_echo_emit p;
     siminfo_interval := siminfo_interval p;
     acdata_interval := acdata_interval p;
     connected_clients := connected_clients p;
     tracked_nodes := tracked_nodes p; tracked_servers := tracked_servers p;
     current_bbox := current_bbox p; aircraft_counter := aircraft_counter p;
     cmddict := v; server_ip := server_ip p |}.

(** [BlueSkyProxy()]: the proxy before [start_client]. *)
Definition new_proxy (now : Q) : proxy :=
  {| bluesky_client := None; running := false; network_timer := false;
     socketio := false; allow_reconnection := false;
     last_successful_update := now; connection_timeout := 10;
     was_connected := false; connection_failures := 0;
     max_connection_failures := 3;
     traffic_data := VDict []; sim_data := VDict []; echo_data := VDict [];
     last_update := 0;
     poly_data_by_node := []; polyline_data_by_node := [];
     last_siminfo_emit := 0; last_acdata_emit := 0; last_echo_emit := 0;
     siminfo_interval := 1 # 10; acdata_interval := 1 # 10;
     connected_clients := 0;
     tracked_nodes := []; tracked_servers := [];
     current_bbox := VNone; aircraft_counter := 0;
     cmddict :=
       [("HELP"%string, "HELP [command]: Display help information"%string);
        ("?"%string, "?: Display help information (alias for HELP)"%string)];
     server_ip := "localhost" |}.

(** [self.proxy.socketio and self.proxy.connected_clients > 0] *)
Definition has_consumers (p : proxy) : bool :=
  socketio p && (0 <? connected_clients p).

(** *** Node manager *)

(** [_get_safe_active_node()] *)
Definition _get_safe_active_node (p : proxy) : option string :=
  match bluesky_client p with
  | None => None
  | Some c =>
      if negb (running p) || negb (was_connected p)
         || (length (tracked_nodes p) =? 0)%nat
      then None
      else
        match Client.act_id c with
        | Some ((_ :: _) as raw_active_id) =>
            let active_id_str := Text.hex raw_active_id in
            if dict_mem active_id_str (tracked_nodes p)
            then Some active_id_str
            else None
        | _ => None
        end
  end.

(** [_emit_node_info()] *)
Definition _emit_node_info (p : proxy) : list push :=
  if has_consumers p then
    [EmitNodeInfo (tracked_nodes p) (tracked_servers p)
       (_get_safe_active_node p) (length (tracked_nodes p))]
  else [].

(** *** Data manager *)

(** [_emit_connection_status(connected)] *)
Definition _emit_connection_status (connected : bool) (now : Q) (p : proxy)
  : list push :=
  if has_consumers p then
    [Emit "connection_status"
       (VDict [("connected"%string, VBool connected);
               ("server_ip"%string, VStr (server_ip p));
               ("timestamp"%string, VFloat now)])]
  else [].

Definition empty_shape_data : pyval := VDict [("polys"%string, VDict [])].

(** [_emit_cleared_data()] *)
Definition _emit_cleared_data (now : Q) (p : proxy) : list push :=
  if has_consumers p then
    [Emit "acdata"
       (VDict [("id"%string, VList []); ("lat"%string, VList []);
               ("lon"%string, VList []); ("alt"%string, VList []);
               ("tas"%string, VList []); ("trk"%string, VList []);
               ("vs"%string, VList []); ("inconf"%string, VList []);
               ("tcpamax"%string, VList []); ("nconf_cur"%string, VInt 0);
               ("nconf_tot"%string, VInt 0); ("nlos_cur"%string, VInt 0);
               ("nlos_tot"%string, VInt 0)]);
     Emit "siminfo"
       (VDict [("speed"%string, VFloat 0); ("simdt"%string, VFloat 0);
               ("simt"%string, VFloat 0); ("simutc"%string, VStr EmptyString);
               ("ntraf"%string, VInt 0); ("state"%string, VInt 0);
               ("scenname"%string, VStr "disconnected")]);
     Emit "poly" empty_shape_data;
     Emit "polyline" empty_shape_data;
     Emit "server_disconnected"
       (VDict [("timestamp"%string, VFloat now);
               ("reason"%string, VStr "BlueSky server disconnected")])]
  else [].

(** [utils.make_json_serializable(obj)]. The values of [pyval] hold no
    numpy object and no byte-keyed array encoding, so what remains is the
    dict, the list and the default branch. *)
Fixpoint make_json_serializable (obj : pyval) : pyval :=
  match obj with
  | VDict d =>
      VDict ((fix items (d : list (string * pyval)) :=
                match d with
                | [] => []
                | (key, value) :: rest =>
                    (key, make_json_serializable value) :: items rest
                end) d)
  | VList l =>
      VList ((fix each (l : list pyval) :=
                match l with
                | [] => []
                | item :: rest => make_json_serializable item :: each rest
                end) l)
  | _ => obj
  end.

(** *** Simulation handlers ([handlers/simulation.py]) *)

(** The seven positional arguments of [on_siminfo_received], with the
    types BlueSky gives them; [None] is Python's [None]. *)
Record siminfo := {
  speed : option Q;
  simdt : option Q;
  simt : option Q;
  simutc : option string;
  ntraf : option Z;
  state : option Z;
  scenname : option string
}.

Definition float_or_zero (x : option Q) : pyval :=
  match x with Some q => VFloat q | None => VFloat 0 end.

Definition int_or_zero (x : option Z) : pyval :=
  match x with Some n => VInt n | None => VInt 0 end.

Definition str_or_empty (x : option string) : pyval :=
  match x with Some t => VStr t | None => VStr EmptyString end.

(** [int(x)] of a float: truncation towards zero. *)
Definition int_of_float (q : Q) : Z := Z.quot (Qnum q) (Zpos (Qden q)).

(** [s[:-3]] *)
Definition drop_last3 (s : string) : string :=
  string_of_list_ascii
    (firstn (length (list_ascii_of_string s) - 3) (list_ascii_of_string s)).

Definition empty_traffic_data : pyval :=
  VDict [("id"%string, VList []); ("lat"%string, VList []);
         ("actype"%string, VList []); ("lon"%string, VList []);
         ("alt"%string, VList []); ("tas"%string, VList []);
         ("trk"%string, VList []); ("vs"%string, VList []);
         ("inconf"%string, VList []); ("tcpamax"%string, VList []);
         ("nconf_cur"%string, VInt 0); ("nconf_tot"%string, VInt 0);
         ("nlos_cur"%string, VInt 0); ("nlos_tot"%string, VInt 0)].

(** [ctx.action == ctx.Reset or ctx.action == ctx.ActChange] *)
Definition reset_or_actchange (p : proxy) : bool :=
  match bluesky_client p with
  | Some c =>
      match Client.action (Client.ctx c) with
      | VStr a => string_eqb a Client.Reset || string_eqb a Client.ActChange
      | _ => false
      end
  | None => false
  end.

Section Handlers.

(** [utils.tim2txt] (which goes through [strftime]) and
    [bluesky_client.safe_decode] render a time and an identity as text;
    [str(x)] belongs to the run time. *)
Variable tim2txt : Q -> string.
Variable safe_decode : bytes -> string.
Variable py_str : pyval -> string.

(** [on_siminfo_received(speed, ..., scenname, sender_id=sender_id)], as
    the client dispatches it: [sender_id] is the identity taken from the
    frame header, and [now] is the clock. *)
Definition on_siminfo_received (info : siminfo) (sender_id : bytes)
    (now : Q) (p : proxy) : proxy * list push :=
  if negb (allow_reconnection p) then (p, [])
  else
    let sender_id_str := Text.hex sender_id in
    let p1 := set_last_successful_update now p in
    let sim_data :=
      VDict [("speed"%string, float_or_zero (speed info));
             ("simdt"%string, float_or_zero (simdt info));
             ("simt"%string, float_or_zero (simt info));
             ("simutc"%string, str_or_empty (simutc info));
             ("ntraf"%string, int_or_zero (ntraf info));
             ("state"%string, int_or_zero (state info));
             ("scenname"%string, str_or_empty (scenname info));
             ("sender_id"%string, VStr sender_id_str)] in
    let p2 := set_sim_data sim_data p1 in
    let (p3, e3) :=
      match dict_get sender_id_str (tracked_nodes p2) with
      | Some node =>
          if string_eqb sender_id_str EmptyString then (p2, [])
          else
            let simt_str :=
              match simt info with
              | Some t => drop_last3 (tim2txt t)
              | None => "00:00:00"%string
              end in
            let new_status :=
              match scenname info with
              | Some EmptyString | None => "init"%string
              | Some name => name
              end in
            let node' :=
              {| node_id := node_id node; node_id_str := node_id_str node;
                 node_num := node_num node; server_id := server_id node;
                 status := new_status; time := simt_str |} in
            let p' :=
              set_tracked_nodes
                (dict_set sender_id_str node' (tracked_nodes p2)) p2 in
            let seconds :=
              match simt info with
              | Some t => int_of_float t
              | None => 0
              end in
            if seconds mod 5 =? 0 then (p', _emit_node_info p')
            else (p', [])
      | None => (p2, [])
      end in
    if has_consumers p3
       && Qle_bool (siminfo_interval p3) (now - last_siminfo_emit p3)
    then (set_last_siminfo_emit now p3, e3 ++ [Emit "siminfo" sim_data])
    else (p3, e3).

(** [on_acdata_received(data)] *)
Definition on_acdata_received (data : pyval) (now : Q) (p : proxy)
  : proxy * list push :=
  if negb (allow_reconnection p) then (p, [])
  else if reset_or_actchange p then
    let p1 := set_traffic_data empty_traffic_data p in
    (p1, if has_consumers p1 then [Emit "acdata" empty_traffic_data] else [])
  else
    let p1 := set_last_successful_update now p in
    let serializable_data := make_json_serializable data in
    let p2 := set_traffic_data serializable_data p1 in
    if has_consumers p2
       && Qle_bool (acdata_interval p2) (now - last_acdata_emit p2)
    then (set_last_acdata_emit now p2, [Emit "acdata" serializable_data])
    else (p2, []).

(** [echo(text, flags, sender_id)] of [handlers/echo.py]; [flags] is an
    integer or [None]. *)
Definition echo (text : pyval) (flags : option Z) (sender_id : option bytes)
    (now : Q) (p : proxy) : proxy * list push :=
  if negb (allow_reconnection p) then (p, [])
  else
    let p1 := set_last_successful_update now p in
    let formatted_text :=
      match text with
      | VNone => EmptyString
      | _ => py_str text
      end in
    let sender_str :=
      match sender_id with
      | Some b => VStr (safe_decode b)
      | None => VNone
      end in
    let echo_data :=
      VDict [("text"%string, VStr formatted_text);
             ("flags"%string, int_or_zero flags);
             ("timestamp"%string, VFloat now);
             ("sender"%string, sender_str)] in
    let p2 := set_echo_data echo_data p1 in
    (p2, if has_consumers p2 then [Emit "echo" echo_data] else []).

End Handlers.

(** *** A body that may raise

    The body of a [try] statement: it changes the proxy, pushes events and
    either ends with a value or raises, keeping what it did so far. *)

Definition step (A : Type) : Type := proxy -> proxy * list push * option A.

Definition ret {A : Type} (a : A) : step A := fun p => (p, [], Some a).

Definition raise {A : Type} : step A := fun p => (p, [], None).

Definition bind {A B : Type} (m : step A) (k : A -> step B) : step B :=
  fun p =>
    let '(p1, e1, r) := m p in
    match r with
    | Some a => let '(p2, e2, r2) := k a p1 in (p2, e1 ++ e2, r2)
    | None => (p1, e1, None)
    end.

Notation "x <- m ;; k" := (bind m (fun x => k))
  (at level 61, m at next level, right associativity).
Notation "m ;;; k" := (bind m (fun _ => k))
  (at level 61, right associativity).

Definition modify (f : proxy -> proxy) : step unit :=
  fun p => (f p, [], Some tt).

Definition reading {A : Type} (f : proxy -> A) : step A :=
  fun p => (p, [], Some (f p)).

Definition pushing (evs : proxy -> list push) : step unit :=
  fun p => (p, evs p, Some tt).

(** A value whose computation may raise. *)
Definition checked {A : Type} (o : option A) : step A :=
  match o with
  | Some a => ret a
  | None => raise
  end.

(** [try: body  except Exception: log] *)
Definition try_except (body : step unit) (p : proxy) : proxy * list push :=
  fst (body p).

(** *** Shape handler ([handlers/shapes.py]) *)

(** [[coords[i] for i in range(0, len(coords), 2)]] and the same from 1. *)
Fixpoint evens (l : list pyval) : list pyval :=
  match l with
  | x :: _ :: rest => x :: evens rest
  | [x] => [x]
  | [] => []
  end.

Definition odds (l : list pyval) : list pyval :=
  match l with
  | _ :: rest => evens rest
  | [] => []
  end.

(** The conversion of a flat [coordinates] array into [lat] and [lon],
    made when the array has at least [min_len] numbers. *)
Definition convert_coordinates (min_len : nat) (name : string)
    (poly_info : list (string * pyval)) : list (string * pyval) :=
  if dict_mem "coordinates" poly_info
     && negb (dict_mem "lat" poly_info && dict_mem "lon" poly_info)
  then
    match dict_get "coordinates" poly_info with
    | Some (VList coords) =>
        if (min_len <=? length coords)%nat then
          dict_set "name" (VStr name)
            (dict_set "lon" (VList (odds coords))
               (dict_set "lat" (VList (evens coords)) poly_info))
        else poly_info
    | _ => poly_info
    end
  else poly_info.

(** One turn of [for name, poly_info in polys.items()]. *)
Definition separate_one
    (acc : list (string * pyval) * list (string * pyval))
    (entry : string * pyval)
  : list (string * pyval) * list (string * pyval) :=
  let (polygons_polys, polylines_polys) := acc in
  let (name, poly_info) := entry in
  match poly_info with
  | VDict info =>
      match dict_get "shape" info with
      | Some (VStr shape) =>
          if string_eqb shape "LINE" then
            (polygons_polys,
             dict_set name (VDict (convert_coordinates 4 name info))
               polylines_polys)
          else if string_eqb shape "POLYALT" then
            (dict_set name
               (VDict (convert_coordinates 6 name
                         (dict_set "shape" (VStr "POLY") info)))
               polygons_polys,
             polylines_polys)
          else
            (dict_set name (VDict (convert_coordinates 6 name info))
               polygons_polys,
             polylines_polys)
      | _ =>
          (dict_set name (VDict (convert_coordinates 6 name info))
             polygons_polys,
           polylines_polys)
      end
  | _ => (dict_set name poly_info polygons_polys, polylines_polys)
  end.

(** [_separate_poly_and_polyline_data(poly_data)]: the polygons and the
    polylines. When [polys] is not a dict, [polys.items()] raises and the
    [except] arm takes everything for polygons. *)
Definition _separate_poly_and_polyline_data (poly_data : pyval)
  : pyval * pyval :=
  match poly_data with
  | VDict d =>
      match dict_get "polys" d with
      | Some (VDict polys) =>
          let (polygons_polys, polylines_polys) :=
            fold_left separate_one polys ([], []) in
          (match polygons_polys with
           | [] => VDict []
           | _ => VDict [("polys"%string, VDict polygons_polys)]
           end,
           match polylines_polys with
           | [] => VDict []
           | _ => VDict [("polys"%string, VDict polylines_polys)]
           end)
      | Some _ => (poly_data, VDict [])
      | None => (poly_data, VDict [])
      end
  | _ => (poly_data, VDict [])
  end.

(** The condition [x and x.get("polys")]: it raises on a true value that
    is not a dict, and else gives [x["polys"]] when that is true. *)
Definition polys_if_any (x : pyval) : option (option pyval) :=
  if negb (truthy x) then Some None
  else
    match x with
    | VDict d =>
        match dict_get "polys" d with
        | Some v => if truthy v then Some (Some v) else Some None
        | None => Some None
        end
    | _ => None
    end.

(** [action_type] as [on_poly_received] works it out of [data]; decoding
    a single byte that is not ASCII raises. *)
Definition action_type_of (data : pyval) : option (option string) :=
  match data with
  | VList (VStr a :: _ :: _) => Some (Some a)
  | VList (VBytes [b] :: _ :: _) =>
      if (Byte.to_N b <? 128)%N
      then Some (Some (String (ascii_of_byte b) EmptyString))
      else None
  | VList (VBytes b :: _ :: _) => Some (Some (Text.hex b))
  | _ => Some None
  end.

Definition clears_first (action_type : option string) : bool :=
  match action_type with
  | Some a => string_eqb a "R" || string_eqb a "X" || string_eqb a "C"
  | None => false
  end.

(** The two stores are handled alike; [which] selects one. *)
Inductive store := Polygons | Polylines.

Definition store_of (which : store) (p : proxy) : list (string * pyval) :=
  match which with
  | Polygons => poly_data_by_node p
  | Polylines => polyline_data_by_node p
  end.

Definition set_store (which : store) (v : list (string * pyval)) (p : proxy)
  : proxy :=
  match which with
  | Polygons => set_poly_data_by_node v p
  | Polylines => set_polyline_data_by_node v p
  end.

(** [store[sender_id]["polys"]], a dict. *)
Definition stored_polys (which : store) (sender_id : string) (p : proxy)
  : option (list (string * pyval)) :=
  match dict_get sender_id (store_of which p) with
  | Some (VDict entry) =>
      match dict_get "polys" entry with
      | Some (VDict polys) => Some polys
      | _ => None
      end
  | _ => None
  end.

Definition set_stored_polys (which : store) (sender_id : string)
    (polys : list (string * pyval)) (p : proxy) : proxy :=
  match dict_get sender_id (store_of which p) with
  | Some (VDict entry) =>
      set_store which
        (dict_set sender_id (VDict (dict_set "polys" (VDict polys) entry))
           (store_of which p)) p
  | _ => p
  end.

(** [if sender_id not in store: store[sender_id] = {"polys": {}}] *)
Definition init_store (which : store) (sender_id : string) : step unit :=
  modify (fun p =>
    if dict_mem sender_id (store_of which p) then p
    else set_store which
           (dict_set sender_id empty_shape_data (store_of which p)) p).

(** The reset arm for one store: the separated data replace the entry. *)
Definition replace_shapes (which : store) (sender_id : string)
    (separated : pyval) : step unit :=
  found <- checked (polys_if_any separated) ;;
  modify (fun p =>
    set_store which
      (dict_set sender_id
         (match found with Some _ => separated | None => empty_shape_data end)
         (store_of which p)) p).

(** What [d.update(v)] finds in one element of a sequence [v]: the element
    is made a sequence (a string gives its characters, bytes their
    numbers, a dict its keys), has to have two members, and the first has
    to be hashable to become the key. *)
Inductive update_item :=
| StrKeyed (key : string) (value : pyval)
| OtherKeyed
| NoPair.

Definition keyed (key value : pyval) : update_item :=
  match key with
  | VStr s => StrKeyed s value
  | VList _ | VDict _ => NoPair
  | _ => OtherKeyed
  end.

Definition update_item_of (element : pyval) : update_item :=
  match element with
  | VList [key; value] => keyed key value
  | VStr (String a (String b EmptyString)) =>
      StrKeyed (String a EmptyString) (VStr (String b EmptyString))
  | VBytes [_; _] => OtherKeyed
  | VDict [(k1, _); (k2, _)] => StrKeyed k1 (VStr k2)
  | _ => NoPair
  end.

(** The elements [d.update(v)] walks through for a [v] that is not a
    dict; a number, a truth value or [None] cannot be walked through. *)
Definition update_elements (v : pyval) : option (list pyval) :=
  match v with
  | VList l => Some l
  | VStr s =>
      Some (map (fun ch => VStr (String ch EmptyString))
              (list_ascii_of_string s))
  | VBytes b => Some (map (fun x => VInt (byte_val x)) b)
  | _ => None
  end.

(** [polys.update(items)] for a sequence: the pairs go in one by one, and
    an element that is no pair raises and leaves in what went in before
    it; the truth value tells whether the end was reached. A key that is
    not a string has no place in the dictionaries of the model: the model
    stops at it as at an element that is no pair, and what is stated of
    merging leaves such payloads out. *)
Fixpoint update_from_items (items : list pyval)
    (polys : list (string * pyval)) : list (string * pyval) * bool :=
  match items with
  | [] => (polys, true)
  | element :: rest =>
      match update_item_of element with
      | StrKeyed key value => update_from_items rest (dict_set key value polys)
      | _ => (polys, false)
      end
  end.

(** The merge arm for one store:
    [store[sender_id]["polys"].update(separated["polys"])]. A mapping is
    what the separation produces; when the separation failed, [polys] is
    whatever the payload held, and a sequence of pairs is merged as
    well. *)
Definition merge_shapes (which : store) (sender_id : string)
    (separated : pyval) : step unit :=
  found <- checked (polys_if_any separated) ;;
  match found with
  | Some (VDict new_polys) =>
      polys <- (fun p => checked (stored_polys which sender_id p) p) ;;
      modify (set_stored_polys which sender_id (dict_update polys new_polys))
  | Some other =>
      polys <- (fun p => checked (stored_polys which sender_id p) p) ;;
      items <- checked (update_elements other) ;;
      let (polys', complete) := update_from_items items polys in
      modify (set_stored_polys which sender_id polys') ;;;
      if complete then ret tt else raise
  | None => ret tt
  end.

(** The shapes left by the limit: when there are more than five, all
    names but the last five are deleted. *)
Definition keep_most_recent (polys : list (string * pyval))
  : list (string * pyval) :=
  if (5 <? length polys)%nat then
    let poly_names := dict_keys polys in
    let shapes_to_remove := firstn (length poly_names - 5) poly_names in
    fold_left (fun d shape_name => dict_del shape_name d) shapes_to_remove
      polys
  else polys.

Definition apply_limit (which : store) (sender_id : string) : step unit :=
  polys <- (fun p => checked (stored_polys which sender_id p) p) ;;
  modify (set_stored_polys which sender_id (keep_most_recent polys)).

(** The sender left in the client's context, as a hex string. *)
Definition context_sender (p : proxy) : option string :=
  match bluesky_client p with
  | Some c =>
      match Client.ctx_sender_id (Client.ctx c) with
      | Some ((_ :: _) as b) => Some (Text.hex b)
      | _ => None
      end
  | None => None
  end.

Definition stored_or_empty (which : store) (sender_id : string) (p : proxy)
  : pyval :=
  match dict_get sender_id (store_of which p) with
  | Some v => v
  | None => empty_shape_data
  end.

(** The [try] block of [on_poly_received(data)]. *)
Definition poly_body (data : pyval) : step unit :=
  sender_id <- reading context_sender ;;
  let poly_data := make_json_serializable data in
  let (polygons, polylines) := _separate_poly_and_polyline_data poly_data in
  match sender_id with
  | Some sender =>
      init_store Polygons sender ;;;
      init_store Polylines sender ;;;
      action_type <- checked (action_type_of data) ;;
      (if clears_first action_type then
         replace_shapes Polygons sender polygons ;;;
         replace_shapes Polylines sender polylines
       else
         merge_shapes Polygons sender polygons ;;;
         merge_shapes Polylines sender polylines) ;;;
      apply_limit Polygons sender ;;;
      apply_limit Polylines sender ;;;
      active_node_id <- reading _get_safe_active_node ;;
      match active_node_id with
      | Some active =>
          if string_eqb sender active then
            pushing (fun p =>
              if socketio p then
                [Emit "poly" (stored_or_empty Polygons sender p);
                 Emit "polyline" (stored_or_empty Polylines sender p)]
              else [])
          else ret tt
      | None => ret tt
      end
  | None => ret tt
  end.

(** [on_poly_received(data)] *)
Definition on_poly_received (data : pyval) (now : Q) (p : proxy)
  : proxy * list push :=
  if negb (allow_reconnection p) then (p, [])
  else try_except (poly_body data) (set_last_successful_update now p).

(** *** Command processor ([managers/command_processor.py]) *)

(** What the proxy does to the outside: a call of the client on its
    sockets, or an event pushed to the event channel. *)
Inductive effect :=
| OnWire (e : Client.event)
| Pushed (e : push).

(** [_echo_response(text, flags)] *)
Definition _echo_response (text : string) (flags : Z) (now : Q) (p : proxy)
  : proxy * list push :=
  let echo_data :=
    VDict [("text"%string, VStr text); ("flags"%string, VInt flags);
           ("timestamp"%string, VFloat now)] in
  let p1 := set_echo_data echo_data p in
  (p1, if has_consumers p1 then [Emit "echo" echo_data] else []).

(** [_execute_local_command(cmd, argstring)] *)
Definition _execute_local_command (cmd argstring : string) : bool * string :=
  if string_eqb cmd "HELP" || string_eqb cmd "?" then
    if string_eqb argstring EmptyString
    then
      (true,
       "BlueSky Web Client: Enter commands to control simulation"%string)
    else
      (true,
       ("Help for " ++ argstring ++ ": Command forwarded to server")%string)
  else
    (false,
     ("Local command " ++ cmd ++ " not implemented in web client")%string).

(** [_forward_command(cmdline)]: to the active node, or else to the
    default server address. Without a client the look-up of the target
    raises, and the [except] arm answers with an echo. *)
Definition _forward_command (cmdline : string) (now : Q) (p : proxy)
  : proxy * list effect :=
  match bluesky_client p with
  | Some c =>
      let target :=
        match Client.act_id c with
        | Some ((_ :: _) as act) => act
        | _ => Client.server_id c
        end in
      let '(c1, evs, _) := Client.send "STACK" (VStr cmdline) (ABytes target) c in
      (set_bluesky_client (Some c1) p, map OnWire evs)
  | None =>
      let (p1, evs) :=
        _echo_response
          "Error sending command: 'NoneType' object has no attribute 'act_id'"
          1 now p in
      (p1, map Pushed evs)
  end.

(** [cmd in ("HELP", "?")] *)
Definition is_local (cmd : string) : bool :=
  string_eqb cmd "HELP" || string_eqb cmd "?".

(** The body of the loop of [_process_stack_commands] for one command
    line. (What [_execute_local_command] returns for the two local
    commands is never a failure, and it does not raise.) *)
Definition process_command (cmdline : string) (now : Q) (p : proxy)
  : proxy * list effect :=
  let cmd_parts := Text.split (Text.strip cmdline) in
  match cmd_parts with
  | [] => (p, [])
  | first :: args =>
      let cmd := Text.upper first in
      let argstring := Text.join " " args in
      if is_local cmd then
        let (success, echotext) := _execute_local_command cmd argstring in
        let echoflags := 0 in
        let (echotext, echoflags) :=
          if success then (echotext, echoflags)
          else if string_eqb argstring EmptyString then
            ((if string_eqb echotext EmptyString
              then cmd ++ ": Command help text" else echotext)%string,
             echoflags)
          else
            (("Syntax error: "
              ++ (if string_eqb echotext EmptyString
                  then "Usage: " ++ cmd else echotext))%string, 2) in
        if string_eqb echotext EmptyString then (p, [])
        else
          let (p1, evs) := _echo_response echotext echoflags now p in
          (p1, map Pushed evs)
      else _forward_command cmdline now p
  end.

(** What [stack.commands()] does before it yields an entry: the entry
    leaves the queue and becomes the current one. *)
Definition pop_command (cmdline : string) (sender_id : option bytes)
    (rest : list (string * option bytes)) (p : proxy) : proxy :=
  match bluesky_client p with
  | Some c =>
      set_bluesky_client
        (Some (Client.set_stack
                 {| Client.cmdstack := rest;
                    Client.stack_sender_id := sender_id;
                    Client.current := cmdline |} c)) p
  | None => p
  end.

(** [for cmdline in stack.commands(): ...] over the queue as it is when
    the loop starts; nothing in the loop body puts a command on it. *)
Fixpoint drain (queue : list (string * option bytes)) (now : Q) (p : proxy)
  : proxy * list effect :=
  match queue with
  | [] =>
      (pop_command EmptyString None [] p, [])
  | (cmdline, sender_id) :: rest =>
      let p1 := pop_command cmdline sender_id rest p in
      let (p2, e2) := process_command cmdline now p1 in
      let (p3, e3) := drain rest now p2 in
      (p3, e2 ++ e3)
  end.

(** [_process_stack_commands()] *)
Definition _process_stack_commands (now : Q) (p : proxy)
  : proxy * list effect :=
  match bluesky_client p with
  | Some c =>
      if Client.running c
      then drain (Client.cmdstack (Client.stack c)) now p
      else (p, [])
  | None => (p, [])
  end.

(** [send_command(command)]; the third component is the value returned. *)
Definition send_command (command : string) (now : Q) (p : proxy)
  : proxy * list effect * bool :=
  match bluesky_client p with
  | Some c =>
      if Client.running c then
        let p1 :=
          set_bluesky_client (Some (Client.stack_commands [command] None c)) p
        in
        let (p2, e2) := _process_stack_commands now p1 in
        (p2, e2, true)
      else (p, [], false)
  | None => (p, [], false)
  end.

(** *** Connection manager ([managers/connection_manager.py]) *)

(** [ConnectionManager.close()] *)
Definition close (fault : Client.close_fault) (now : Q) (p : proxy) : proxy :=
  let p := set_allow_reconnection false p in
  let p :=
    match bluesky_client p with
    | Some c => set_bluesky_client (Some (Client.close fault c)) p
    | None => p
    end in
  let p := set_was_connected false p in
  let p := set_last_successful_update now p in
  let p := set_tracked_nodes [] p in
  let p := set_tracked_servers [] p in
  let p :=
    match bluesky_client p with
    | Some c => set_bluesky_client (Some (Client.set_act_id None c)) p
    | None => p
    end in
  let p := set_traffic_data (VDict []) p in
  let p := set_sim_data (VDict []) p in
  let p := set_echo_data (VDict []) p in
  let p := set_last_update 0 p in
  let p := set_last_siminfo_emit 0 p in
  let p := set_last_acdata_emit 0 p in
  let p := set_last_echo_emit 0 p in
  let p := set_current_bbox VNone p in
  let p := set_aircraft_counter 0 p in
  set_cmddict [] p.

(** [_handle_disconnection(reason)]; the reason only goes to the log. *)
Definition _handle_disconnection (reason : string)
    (fault : Client.close_fault) (now : Q) (p : proxy) : proxy * list push :=
  let (p, e1) :=
    if was_connected p then
      let p1 := set_was_connected false p in
      (p1, _emit_connection_status false now p1)
    else (p, []) in
  let p := set_running false p in
  let p := set_allow_reconnection false p in
  let p := set_connection_failures 0 p in
  let p :=
    match bluesky_client p with
    | Some c => set_bluesky_client (Some (Client.set_act_id None c)) p
    | None => p
    end in
  let p := set_tracked_nodes [] p in
  let p := set_tracked_servers [] p in
  let p := set_traffic_data (VDict []) p in
  let p := set_sim_data (VDict []) p in
  let p := set_echo_data (VDict []) p in
  let p := set_poly_data_by_node [] p in
  let p := set_polyline_data_by_node [] p in
  let e2 :=
    if has_consumers p then _emit_cleared_data now p ++ _emit_node_info p
    else [] in
  (close fault now p, e1 ++ e2).

(** How [self.proxy.bluesky_client.update()] ends, with what the handlers
    it ran did to the proxy: it returns, or an exception leaves it. *)
Inductive update_outcome :=
| Updated (p : proxy) (evs : list push)
| UpdateRaised (p : proxy) (evs : list push).

(** [now - last_successful_update > connection_timeout] *)
Definition silent_too_long (now : Q) (p : proxy) : bool :=
  negb (Qle_bool (now - last_successful_update p) (connection_timeout p)).

(** The callback of the network timer: one poll tick. [update] is the
    poll of the client; the timer that fired is spent, and
    [network_timer] tells at the end whether a next tick was scheduled. *)
Definition network_timer_callback (update : proxy -> update_outcome)
    (fault : Client.close_fault) (now : Q) (p : proxy) : proxy * list push :=
  let p := set_network_timer false p in
  let schedule (r : proxy * list push) : proxy * list push :=
    if running (fst r) && allow_reconnection (fst r)
    then (set_network_timer true (fst r), snd r)
    else r in
  if running p && allow_reconnection p
     && match bluesky_client p with Some _ => true | None => false end
  then
    match update p with
    | Updated p1 e1 =>
        let p2 := set_connection_failures 0 p1 in
        let has_active_nodes := (0 <? length (tracked_nodes p2))%nat in
        if has_active_nodes && negb (was_connected p2) then
          let p3 := set_was_connected true p2 in
          let e3 := _emit_connection_status true now p3 in
          if was_connected p3 && silent_too_long now p3 then
            let (p4, e4) :=
              _handle_disconnection "Connection timeout" fault now p3 in
            (p4, e1 ++ e3 ++ e4)
          else schedule (p3, e1 ++ e3)
        else if negb has_active_nodes && was_connected p2
                && silent_too_long now p2 then
          let p3 := set_was_connected false p2 in
          let e3 := _emit_connection_status false now p3 in
          let (p4, e4) :=
            _handle_disconnection "No nodes detected after timeout" fault now
              p3 in
          (p4, e1 ++ e3 ++ e4)
        else if was_connected p2 && silent_too_long now p2 then
          let (p4, e4) :=
            _handle_disconnection "Connection timeout" fault now p2 in
          (p4, e1 ++ e4)
        else schedule (p2, e1)
    | UpdateRaised p1 e1 =>
        let p2 := set_connection_failures (connection_failures p1 + 1) p1 in
        if max_connection_failures p2 <=? connection_failures p2 then
          let (p3, e3) :=
            _handle_disconnection "Network error (max failures)" fault now p2
          in
          (p3, e1 ++ e3)
        else schedule (p2, e1)
    end
  else (p, []).

End Proxy.

(** ** Further functions of [bluesky_client.py] *)

Module Identity.

Import Wire Client.

(** [all(32 <= ord(c) <= 126 for c in decoded)], on code points. *)
Definition printable (decoded : list N) : bool :=
  forallb (fun cp => (32 <=? cp)%N && (cp <=? 126)%N) decoded.

(** The string of code points that fit a character. *)
Definition text_of (decoded : list N) : string :=
  string_of_list_ascii (map ascii_of_N decoded).

(** [data.decode("ascii")]: raises on a byte above 127. *)
Definition decode_ascii (data : bytes) : option (list N) :=
  if forallb (fun x => (Byte.to_N x <? 128)%N) data
  then Some (map Byte.to_N data)
  else None.

Section Decoding.

(** [data.decode("utf-8")] gives code points, or raises; the decoder
  belongs to the run time. *)
Variable utf8_decode : bytes -> option (list N).

(** [safe_decode(data)] on a bytes object. *)
Definition safe_decode (data : bytes) : string :=
match utf8_decode data with
| Some decoded =>
    if printable decoded then text_of decoded
    else Text.upper (Text.hex data)
| None =>
    match decode_ascii data with
    | Some decoded => text_of decoded
    | None => Text.upper (Text.hex data)
    end
end.

End Decoding.


End Identity.

(** ** Node manager ([managers/node_manager.py]) *)

Module NodeManager.

Import Wire Proxy.

(** [_on_server_added(server_id)] *)
Definition _on_server_added (server_id : bytes) (p : proxy)
  : proxy * list push :=
  if Client.mem_bytes server_id (tracked_servers p) then (p, [])
  else
    let p1 := set_tracked_servers (tracked_servers p ++ [server_id]) p in
    (p1, if running p1 then _emit_node_info p1 else []).

(** [_on_server_removed(server_id)] *)
Definition _on_server_removed (server_id : bytes) (p : proxy)
  : proxy * list push :=
  if Client.mem_bytes server_id (tracked_servers p) then
    let p1 :=
      set_tracked_servers (Client.discard_bytes server_id (tracked_servers p))
        p in
    (p1, _emit_node_info p1)
  else (p, []).

(** [node_id[-1]], which raises on the empty identity. *)
Definition last_byte (node_id : bytes) : option byte :=
  match rev node_id with
  | x :: _ => Some x
  | [] => None
  end.

(** The entry [_on_node_added] stores for a node. *)
Definition new_node_record (node_id : bytes) (node_num : Z)
    (server_id : bytes) : node_record :=
  {| node_id := node_id; node_id_str := Text.hex node_id;
     node_num := node_num; server_id := server_id;
     status := "init"; time := "00:00:00" |}.

(** The [try] block of [_on_node_added(node_id)]. *)
Definition node_added_body (node_id : bytes) (now : Q) : step unit :=
  let node_id_str := Text.hex node_id in
  tracked <- reading (fun p => dict_mem node_id_str (tracked_nodes p)) ;;
  if tracked then ret tt
  else
    zero <- checked (seqidx2id 0) ;;
    c <- (fun p => checked (bluesky_client p) p) ;;
    let server_id :=
      if Client.mem_bytes (removelast node_id ++ zero) (Client.servers c)
      then removelast node_id ++ zero
      else ["0"%byte] in
    known <- reading (fun p => Client.mem_bytes server_id (tracked_servers p)) ;;
    (if known then ret tt
     else fun p => let (p1, e1) := _on_server_added server_id p in
                   (p1, e1, Some tt)) ;;;
    last <- checked (last_byte node_id) ;;
    node_num <- checked (seqid2idx (SeqInt (byte_val last))) ;;
    modify (fun p =>
      set_tracked_nodes
        (dict_set node_id_str (new_node_record node_id node_num server_id)
           (tracked_nodes p)) p) ;;;
    newly_connected <-
      reading (fun p => negb (was_connected p)
                        && (0 <? length (tracked_nodes p))%nat) ;;
    (if newly_connected then
       modify (set_was_connected true) ;;;
       pushing (_emit_connection_status true now)
     else ret tt) ;;;
    pushing (fun p => if running p then _emit_node_info p else []).

(** [_on_node_added(node_id)] *)
Definition _on_node_added (node_id : bytes) (now : Q) (p : proxy)
  : proxy * list push :=
  try_except (node_added_body node_id now) p.

(** [_on_node_removed(node_id)]; the third component tells whether the
    one-second timer of [_check_node_shutdown] was started. *)
Definition _on_node_removed (node_id : bytes) (p : proxy)
  : proxy * list push * bool :=
  let node_id_str := Text.hex node_id in
  let (p1, e1) :=
    if dict_mem node_id_str (tracked_nodes p) then
      let p1 := set_tracked_nodes (dict_del node_id_str (tracked_nodes p)) p in
      (p1, _emit_node_info p1)
    else (p, []) in
  (p1, e1,
   (length (tracked_nodes p1) =? 0)%nat && was_connected p1 && running p1).

(** [_check_node_shutdown()] *)
Definition _check_node_shutdown (fault : Client.close_fault) (now : Q)
    (p : proxy) : proxy * list push :=
  if (length (tracked_nodes p) =? 0)%nat && was_connected p && running p
  then
    _handle_disconnection "All nodes removed (server shutdown)" fault now p
  else (p, []).

(** [len(x)], which raises on an object without a length. *)
Definition py_len (x : pyval) : option nat :=
  match x with
  | VStr s => Some (String.length s)
  | VBytes b => Some (length b)
  | VList l => Some (length l)
  | VDict d => Some (length d)
  | _ => None
  end.

(** [len(shape_data.get("polys", {}))] *)
Definition shape_count (shape_data : pyval) : option nat :=
  match shape_data with
  | VDict d =>
      match dict_get "polys" d with
      | Some polys => py_len polys
      | None => Some 0%nat
      end
  | _ => None
  end.

(** One half of [_emit_active_node_poly_data]: the shapes of one store. *)
Definition emit_active_shapes (name : string) (which : store)
    (active_node_id : option string) : step unit :=
  stored <-
    reading (fun p =>
      match active_node_id with
      | Some active =>
          if string_eqb active EmptyString then None
          else dict_get active (store_of which p)
      | None => None
      end) ;;
  match stored with
  | Some shape_data =>
      checked (shape_count shape_data) ;;;
      pushing (fun p =>
        if has_consumers p then [Emit name shape_data] else [])
  | None =>
      pushing (fun p =>
        if has_consumers p then [Emit name (VDict [])] else [])
  end.

(** [_emit_active_node_poly_data()] *)
Definition _emit_active_node_poly_data (p : proxy) : proxy * list push :=
  try_except
    (active_node_id <- reading _get_safe_active_node ;;
     emit_active_shapes "poly" Polygons active_node_id ;;;
     emit_active_shapes "polyline" Polylines active_node_id) p.

(** [_on_actnode_changed(node_id)] *)
Definition _on_actnode_changed (node_id : bytes) (p : proxy)
  : proxy * list push :=
  if running p then
    let e1 := _emit_node_info p in
    let (p2, e2) := _emit_active_node_poly_data p in
    (p2, e1 ++ e2)
  else (p, []).

End NodeManager.

(** ** Data manager ([managers/data_manager.py]) *)

Module DataManager.

Import Proxy.

(** [_clear_state(context)]; the context only chooses a log line. *)
Definition _clear_state (now : Q) (p : proxy) : proxy * list push :=
  let p := set_was_connected false p in
  let p := set_last_successful_update now p in
  let p := set_tracked_nodes [] p in
  let p := set_tracked_servers [] p in
  let p := set_traffic_data (VDict []) p in
  let p := set_sim_data (VDict []) p in
  let p := set_echo_data (VDict []) p in
  let p := set_last_update 0 p in
  let p := set_poly_data_by_node [] p in
  let p := set_polyline_data_by_node [] p in
  let p := set_last_siminfo_emit 0 p in
  let p := set_last_acdata_emit 0 p in
  let p := set_last_echo_emit 0 p in
  let p := set_current_bbox VNone p in
  let p := set_aircraft_counter 0 p in
  let p := set_cmddict [] p in
  (p, if has_consumers p then _emit_node_info p else []).

(** What [get_current_data()] returns for the first page load. *)
Record current_data := {
  cd_traffic_data : pyval;
  cd_sim_data : pyval;
  cd_echo_data : pyval;
  cd_poly_data : pyval;
  cd_polyline_data : pyval;
  cd_cmddict : list (string * string);
  cd_connected : bool;
  cd_server_ip : string;
  cd_last_update : Q;
  cd_nodes : list (string * node_record);
  cd_servers : list (string * bytes);
  cd_active_node : option string;
  cd_total_nodes : nat;
  cd_timestamp : Q
}.

(** The shapes of one store for the active node, or the empty dict. *)
Definition active_shapes (which : store) (active_node_id : string)
    (p : proxy) : pyval :=
  match dict_get active_node_id (store_of which p) with
  | Some shape_data => shape_data
  | None => VDict []
  end.

Section CurrentData.

(** [safe_decode], which names the servers. *)
Variable safe_decode : bytes -> string.

(** [{_safe_decode(k): v for k, v in tracked_servers.items()}], each value
  being the entry of its server: a name that comes again keeps its first
  place and takes the later server. *)
Definition servers_by_name (servers : list bytes) : list (string * bytes) :=
fold_left (fun d k => dict_set (safe_decode k) k d) servers [].

(** [get_current_data()]; counting the shapes for the log raises when a
  stored entry is not a dict of sized shapes. *)
Definition get_current_data (now : Q) (p : proxy) : option current_data :=
let active_node_id := _get_safe_active_node p in
let shapes :=
  match active_node_id with
  | Some active =>
      if string_eqb active EmptyString then Some (VDict [], VDict [])
      else
        let poly_data := active_shapes Polygons active p in
        let polyline_data := active_shapes Polylines active p in
        match NodeManager.shape_count poly_data,
              NodeManager.shape_count polyline_data with
        | Some _, Some _ => Some (poly_data, polyline_data)
        | _, _ => None
        end
  | None => Some (VDict [], VDict [])
  end in
match shapes with
| Some (poly_data, polyline_data) =>
    Some {| cd_traffic_data := traffic_data p;
            cd_sim_data := sim_data p;
            cd_echo_data := echo_data p;
            cd_poly_data := poly_data;
            cd_polyline_data := polyline_data;
            cd_cmddict := cmddict p;
            cd_connected :=
              was_connected p && running p
              && (0 <? length (tracked_nodes p))%nat;
            cd_server_ip := server_ip p;
            cd_last_update := last_successful_update p;
            cd_nodes := tracked_nodes p;
            cd_servers := servers_by_name (tracked_servers p);
            cd_active_node := active_node_id;
            cd_total_nodes := length (tracked_nodes p);
            cd_timestamp := now |}
| None => None
end.

End CurrentData.

End DataManager.

(** ** Command processor: forwarding ([managers/command_processor.py]) *)

Module CommandProcessor.

Import Proxy.

(** [forward(cmdlines..., target_id=target_id)]: the command lines go as
    one STACK message, joined by semicolons. Without a client the look-up
    of the target raises and the [except] arm answers with an echo. *)
Definition forward (cmdlines : list string) (target_id : option bytes)
    (now : Q) (p : proxy) : proxy * list effect :=
  match cmdlines with
  | [] => (p, [])
  | _ =>
      let command_str := Text.join ";" cmdlines in
      match bluesky_client p, target_id with
      | Some c, _ =>
          let target :=
            match target_id with
            | Some given => given
            | None =>
                match Client.act_id c with
                | Some ((_ :: _) as act) => act
                | _ => Client.server_id c
                end
            end in
          if Client.running c then
            let '(c1, evs, _) :=
              Client.send "STACK" (VStr command_str) (ABytes target) c in
            (set_bluesky_client (Some c1) p, map OnWire evs)
          else (p, [])
      | None, Some _ => (p, [])
      | None, None =>
          let (p1, evs) :=
            _echo_response
              "Error forwarding command: 'NoneType' object has no attribute 'act_id'"
              1 now p in
          (p1, map Pushed evs)
      end
  end.

End CommandProcessor.

(** ** Event handlers ([handlers/events.py]) *)

Module Events.

Import Proxy.

(** [if node_id in store: del store[node_id]], for both stores. *)
Definition forget_shapes (node_id : string) (p : proxy) : proxy :=
  let p :=
    if dict_mem node_id (poly_data_by_node p)
    then set_poly_data_by_node (dict_del node_id (poly_data_by_node p)) p
    else p in
  if dict_mem node_id (polyline_data_by_node p)
  then set_polyline_data_by_node (dict_del node_id (polyline_data_by_node p)) p
  else p.

(** [on_reset_received(data)]; the payload is not looked at. *)
Definition on_reset_received (now : Q) (p : proxy) : proxy * list push :=
  if negb (allow_reconnection p) then (p, [])
  else
    let p := set_last_successful_update now p in
    let sender_id := context_sender p in
    let active_node_id := _get_safe_active_node p in
    let reset_node_id :=
      match sender_id with
      | Some sender =>
          if string_eqb sender EmptyString then active_node_id
          else Some sender
      | None => active_node_id
      end in
    match reset_node_id with
    | Some reset_node =>
        if string_eqb reset_node EmptyString then (p, [])
        else
          let p := forget_shapes reset_node p in
          let active_node_id := _get_safe_active_node p in
          let p :=
            match active_node_id with
            | Some active =>
                if negb (string_eqb active EmptyString)
                   && negb (string_eqb active reset_node)
                then forget_shapes active p
                else p
            | None => p
            end in
          (p,
           if has_consumers p then
             [Emit "poly" empty_shape_data;
              Emit "polyline" empty_shape_data;
              Emit "reset"
                (VDict [("reason"%string, VStr "BlueSky simulation reset");
                        ("timestamp"%string, VFloat now)])]
           else [])
    | None => (p, [])
    end.

End Events.

(** * Vocabulary of the statements, and sample values

    What the theorems below speak of beyond the program: the cases of the
    description written out as functions and predicates, to be compared
    with the program, and the values the theorems are tried on. *)

Module WireSpec.

Import Wire.

Definition valid_group (g : pyid) : Prop :=
  match g with PInt n => 0 <= n < 256 | _ => True end.

End WireSpec.

Module SignalsSpec.

Import WireSpec.

(* witness *)
Definition demo_call (cb : nat) (args : unit) (w : list nat)
  : Signals.outcome (list nat) :=
  if Nat.even cb then Signals.Returned (w ++ [cb]) else Signals.Raised (w ++ [cb]).

End SignalsSpec.

Module ClientSpec.

Import WireSpec SignalsSpec Wire Client.

(** The source a call resolves to. *)
Definition resolved_source (from_group : pyid) (active_only : bool)
    (c : client) : option pyid :=
  if is_default from_group then
    if active_only then option_map PBytes (act_id c)
    else Some (PInt GROUPID_SIM)
  else Some from_group.

(** The key for a topic, a node identity as source and an addressee. *)
Definition node_key (topic : string) (node : bytes) (to_group : addr) : bytes :=
  ljust (asbytestr_addr to_group) IDLEN wildcard
  ++ list_byte_of_string topic ++ node.

(** The calls of one turn of the loop of [actnode]. *)
Definition resubscription (old : option bytes) (newact : bytes)
    (binding : string * addr) : list event :=
  match old with
  | Some old_id =>
      [SetSockOpt UNSUBSCRIBE (node_key (fst binding) old_id (snd binding))]
  | None => []
  end
  ++ [SetSockOpt SUBSCRIBE (node_key (fst binding) newact (snd binding))].

(** The state [actnode] goes through before its loop. *)
Definition auto_select_dropped (c : client) : client :=
  match act_id c with
  | None =>
      set_sigs (set_node_added
                  (signal_disconnect SlotActnode (node_added (sigs c)))
                  (sigs c)) c
  | Some _ => c
  end.

(** ** Registry facts *)

Definition registry_wf (reg : list (string * list addr)) : Prop :=
  NoDup (map fst reg) /\ Forall (fun tg => NoDup (snd tg)) reg.

(** The active-only bindings: a topic is bound to an addressee when the
    registry holds the addressee in a set kept for the topic. *)
Definition bound (reg : list (string * list addr)) (topic : string)
    (to_group : addr) : Prop :=
  exists groupset, In (topic, groupset) reg /\ In to_group groupset.

Definition client_inv (c : client) : Prop :=
  NoDup (node_added (sigs c))
  /\ (nodes c <> [] -> running c = true)
  /\ (running c = true -> sock_recv (socks c) = true)
  /\ registry_wf (acttopics c)
  /\ act_id c <> Some [].

Definition auto_select_off (c : client) : Prop :=
  ~ In SlotActnode (node_added (sigs c)).

(* sample *)
Definition sample_entropy (_ : nat) : byte := "x"%byte.

Definition sample_node1 : bytes := ["S"; "a"; "b"; "c"; x81]%byte.

Definition sample_node2 : bytes := ["S"; "a"; "b"; "c"; x82]%byte.

Definition sample_ops : list op :=
  [OpConnect ConnectOk CloseClean;
   OpSubscribe "ACDATA" 0 true;
   OpSubscribe "ROUTEDATA" 1 true;
   OpControlFrame (x01 :: sample_node1);
   OpControlFrame (x01 :: sample_node2)].

Definition sample_start : client :=
  {| node_id := ["C"; "x"; "x"; "x"; x81]%byte;
     group_id := ["C"]%byte;
     server_id := ["C"; "x"; "x"; "x"; x80]%byte;
     act_id := None; connected := false; running := false;
     socks := {| zmq_context := false; sock_recv := false;
                 sock_send := false; poller := false |};
     nodes := []; servers := []; acttopics := [];
     sigs := {| node_added := [SlotActnode; SlotRequestData];
                node_removed := []; server_added := [];
                server_removed := []; actnode_changed := [] |};
     subscribers := [];
     stack := {| cmdstack := []; stack_sender_id := None;
                 current := EmptyString |};
     ctx := {| action := VNone; ctx_sender_id := None |} |}.

Definition sample_client : client :=
  Eval vm_compute in fst (run_ops sample_ops sample_start).

(** A client that has also taken a shared-state data frame and a command,
    and to which the proxy has connected its callbacks. *)
Definition sample_decode (b : bytes) : option string :=
  Some (string_of_list_byte b).

Definition sample_text (_ : pyval) : string := EmptyString.

Definition sample_busy_ops : list op :=
  sample_ops
  ++ [OpConnectSignal SigNodeAdded 1;
      OpConnectSignal SigActnodeChanged 5;
      OpDataFrame sample_decode sample_text
        (repeat wildcard IDLEN ++ list_byte_of_string "ACDATA"
         ++ sample_node1)
        (Some (VList [VStr "RESET"; VDict []]));
      OpStack ["HOLD"%string] None;
      OpNextCommand].

Definition sample_busy_client : client :=
  Eval vm_compute in fst (run_ops sample_busy_ops sample_start).

(** The topic and the sender of a header. *)
Definition header_topic (header : bytes) : bytes :=
  firstn (length header - IDLEN - IDLEN) (skipn IDLEN header).

Definition header_sender (header : bytes) : bytes :=
  skipn (length header - IDLEN) header.

(** A decoder that agrees with UTF-8 on ASCII and refuses the rest. *)
Definition ascii_decode (b : bytes) : option string :=
  if forallb (fun x => (Byte.to_N x <? 128)%N) b
  then Some (string_of_list_byte b) else None.

Definition sample_str (v : pyval) : string :=
  match v with
  | VStr s => s
  | _ => "?"
  end.

Definition sample_header : bytes :=
  ["C"; "x"; "x"; "x"; x81; "E"; "C"; "H"; "O"; "S"; "a"; "b"; "c"; x81]%byte.

(** The sockets of a client that holds none. *)
Definition no_sockets : sockets :=
  {| zmq_context := false; sock_recv := false; sock_send := false;
     poller := false |}.

(** ** Discovery *)

(** What a control frame announces. *)
Inductive announcement :=
| NodeUp (sender_id : bytes)
| ServerUp (sender_id : bytes)
| NodeDown (sender_id : bytes)
| ServerDown (sender_id : bytes).

(** The group byte of a simulation node or of an ungrouped one. *)
Definition sim_group (sender_id : bytes) : bool :=
  match sender_id with
  | group :: _ =>
      (byte_val group =? GROUPID_SIM) || (byte_val group =? GROUPID_NOGROUP)
  | [] => false
  end.

(** The reading [_process_subscription_message] makes of a frame: a kind
    byte, then an identity of [IDLEN] bytes of a simulation group whose
    last byte tells a node (above 128) from a server (128). *)
Definition announced (frame : bytes) : option announcement :=
  match frame with
  | kind :: sender_id =>
      if (length sender_id =? IDLEN)%nat && sim_group sender_id then
        if byte_val kind =? MSG_SUBSCRIBE then
          if 128 <? last_byte_val sender_id then Some (NodeUp sender_id)
          else if last_byte_val sender_id =? 128
               then Some (ServerUp sender_id) else None
        else if byte_val kind =? MSG_UNSUBSCRIBE then
          if 128 <? last_byte_val sender_id then Some (NodeDown sender_id)
          else if last_byte_val sender_id =? 128
               then Some (ServerDown sender_id) else None
        else None
      else None
  | [] => None
  end.

(** The identities a client may come to know as nodes and as servers. *)
Definition node_identity (sender_id : bytes) : Prop :=
  length sender_id = IDLEN /\ sim_group sender_id = true
  /\ 128 < last_byte_val sender_id.

Definition server_identity (sender_id : bytes) : Prop :=
  length sender_id = IDLEN /\ sim_group sender_id = true
  /\ last_byte_val sender_id = 128.

Definition known_sets_ok (c : client) : Prop :=
  NoDup (nodes c) /\ NoDup (servers c)
  /\ Forall node_identity (nodes c)
  /\ Forall server_identity (servers c).

Definition identities_ok (c : client) : Prop :=
  length (node_id c) = IDLEN
  /\ server_id c = removelast (node_id c) ++ [x80]%byte
  /\ known_sets_ok c.

(** ** Subscribing to a topic *)

(** The callbacks registered for a topic, in registration order. *)
Definition callbacks_of (topic : string) (c : client) : list nat :=
  match dict_get topic (subscribers c) with
  | Some cbs => cbs
  | None => []
  end.

(** ** The first node found *)

(** The request for the shared state of the nodes. *)
Definition state_request (c : client) : event :=
  SendMultipart
    (repeat wildcard IDLEN ++ list_byte_of_string "REQUEST" ++ node_id c)
    (VList [VStr "POLY"; VStr "STACKCMDS"]).

(** A connected client that has bound two topics to the active node, and
    knows no node yet. *)
Definition sample_listening_ops : list op :=
  [OpConnect ConnectOk CloseClean;
   OpSubscribe "ACDATA" 0 true;
   OpSubscribe "ROUTEDATA" 1 true].

Definition sample_listening : client :=
  Eval vm_compute in fst (run_ops sample_listening_ops sample_start).

End ClientSpec.

Module ProxySpec.

Import WireSpec SignalsSpec ClientSpec Proxy.

Definition other (which : store) : store :=
  match which with Polygons => Polylines | Polylines => Polygons end.



(** What the separation of a well-formed message gives. *)
Definition wrap_polys (polys : list (string * pyval)) : pyval :=
  match polys with
  | [] => VDict []
  | _ => VDict [("polys"%string, VDict polys)]
  end.

Definition last_five (A : Type) (l : list A) : list A :=
  skipn (length l - 5) l.



(** *** A run of single-shape messages *)

(** The store a shape goes to, and the form it is kept in, as
    [separate_one] decides them. *)
Definition kind_of (poly_info : pyval) : store :=
  match poly_info with
  | VDict info =>
      match dict_get "shape" info with
      | Some (VStr shape) =>
          if string_eqb shape "LINE" then Polylines else Polygons
      | _ => Polygons
      end
  | _ => Polygons
  end.

Definition kept_form (name : string) (poly_info : pyval) : pyval :=
  match poly_info with
  | VDict info =>
      match dict_get "shape" info with
      | Some (VStr shape) =>
          if string_eqb shape "LINE" then
            VDict (convert_coordinates 4 name info)
          else if string_eqb shape "POLYALT" then
            VDict (convert_coordinates 6 name
                     (dict_set "shape" (VStr "POLY") info))
          else VDict (convert_coordinates 6 name info)
      | _ => VDict (convert_coordinates 6 name info)
      end
  | _ => poly_info
  end.






Definition sample_proxy : proxy :=
  {| bluesky_client :=
       Some (Client.set_ctx
               {| Client.action := VNone;
                  Client.ctx_sender_id := Some sample_node1 |}
               sample_client);
     running := true; network_timer := true;
     socketio := true; allow_reconnection := true;
     last_successful_update := 0; connection_timeout := 10;
     was_connected := true; connection_failures := 0;
     max_connection_failures := 3;
     traffic_data := VDict []; sim_data := VDict []; echo_data := VDict [];
     last_update := 0;
     poly_data_by_node := []; polyline_data_by_node := [];
     last_siminfo_emit := 0; last_acdata_emit := 0; last_echo_emit := 0;
     siminfo_interval := 1 # 10; acdata_interval := 1 # 10;
     connected_clients := 1;
     tracked_nodes :=
       [(Text.hex sample_node1,
         {| node_id := sample_node1; node_id_str := Text.hex sample_node1;
            node_num := 1; server_id := Client.server_id sample_client;
            status := "connected"; time := "12:00:00" |})];
     tracked_servers := [Client.server_id sample_client];
     current_bbox := VNone; aircraft_counter := 0;
     cmddict := cmddict (new_proxy 0);
     server_ip := "localhost" |}.










(** The entries a submitted command line puts on the queue. *)
Definition queued_entries (cmdline : string) : list string :=
  if string_eqb (Text.strip cmdline) EmptyString then []
  else map Text.strip (Text.split_on ";" (Text.strip cmdline)).

Fixpoint has_char (ch : ascii) (s : string) : bool :=
  match s with
  | EmptyString => false
  | String ch' rest => Ascii.eqb ch' ch || has_char ch rest
  end.

(** The text of the local help. *)
Definition help_text (argstring : string) : string :=
  if string_eqb argstring EmptyString
  then "BlueSky Web Client: Enter commands to control simulation"%string
  else ("Help for " ++ argstring ++ ": Command forwarded to server")%string.

Definition local_echo (args : list string) (now : Q) : pyval :=
  VDict [("text"%string, VStr (help_text (Text.join " " args)));
         ("flags"%string, VInt 0);
         ("timestamp"%string, VFloat now)].

(** Where a command is forwarded to: the active node, or else the default
    server address. *)
Definition forward_target (c : Client.client) : bytes :=
  match Client.act_id c with
  | Some ((_ :: _) as act) => act
  | _ => Client.server_id c
  end.

Definition stack_header (c : Client.client) : bytes :=
  Wire.ljust (forward_target c) Wire.IDLEN Wire.wildcard
  ++ list_byte_of_string "STACK" ++ Client.node_id c.

(** What the drain does with one entry, in the words of the description:
    nothing for a blank entry, a local echo (pushed when there are
    consumers) for the local commands, the entry itself sent on for every
    other one. *)
Definition entry_effects (consumers : bool) (c : Client.client) (now : Q)
    (cmdline : string) : list effect :=
  match Text.split (Text.strip cmdline) with
  | [] => []
  | first :: args =>
      if is_local (Text.upper first) then
        if consumers then [Pushed (Emit "echo" (local_echo args now))]
        else []
      else [OnWire (Client.SendMultipart (stack_header c) (VStr cmdline))]
  end.

(** The echo record kept after an entry: the help text for a local
    command, and else the record kept before it. *)
Definition entry_echo (now : Q) (cached : pyval) (cmdline : string) : pyval :=
  match Text.split (Text.strip cmdline) with
  | [] => cached
  | first :: args =>
      if is_local (Text.upper first) then local_echo args now else cached
  end.

(** Whether the first word of an entry names a local command. *)
Definition first_word_local (cmdline : string) : bool :=
  match Text.split (Text.strip cmdline) with
  | first :: _ => is_local (Text.upper first)
  | [] => false
  end.

Definition same_route (c c' : Client.client) : Prop :=
  Client.running c' = Client.running c
  /\ Client.sock_send (Client.socks c') = Client.sock_send (Client.socks c)
  /\ Client.act_id c' = Client.act_id c
  /\ Client.server_id c' = Client.server_id c
  /\ Client.node_id c' = Client.node_id c.

Definition sample_queue_proxy : proxy :=
  set_bluesky_client
    (Some (Client.stack_commands [";"%string] None sample_client))
    sample_proxy.

(** A proxy that no consumer watches, with a HELP command queued. *)
Definition sample_silent_proxy : proxy :=
  set_bluesky_client
    (Some (Client.stack_commands ["HELP"%string] None sample_client))
    (new_proxy 0).

Definition sample_command_proxy : proxy :=
  set_bluesky_client
    (Some (Client.stack_commands
             ["help ; CRE KL204 B744 52 4 90 FL100 250;;  ?  pos"%string]
             None sample_client))
    sample_proxy.

(** The event that tells the consumers the server is gone. *)
Definition disconnect_notice (now : Q) (p : proxy) : push :=
  Emit "connection_status"
    (VDict [("connected"%string, VBool false);
            ("server_ip"%string, VStr (server_ip p));
            ("timestamp"%string, VFloat now)]).






Definition failing_update (p : proxy) : update_outcome := UpdateRaised p [].


(** ** The poll loop *)

(** [n] poll ticks in a row, with the events they push. *)
Fixpoint ticks (n : nat) (update : proxy -> update_outcome)
    (fault : Client.close_fault) (now : Q) (p : proxy) : proxy * list push :=
  match n with
  | O => (p, [])
  | S k =>
      let (p1, e1) := network_timer_callback update fault now p in
      let (p2, e2) := ticks k update fault now p1 in
      (p2, e1 ++ e2)
  end.

(** The proxy after [k] polls in a row have failed. *)
Definition after_failures (k : Z) (p : proxy) : proxy :=
  set_network_timer true
    (set_connection_failures (connection_failures p + k) p).

(** The event that tells the consumers the server is there. *)
Definition connect_notice (now : Q) (p : proxy) : push :=
  Emit "connection_status"
    (VDict [("connected"%string, VBool true);
            ("server_ip"%string, VStr (server_ip p));
            ("timestamp"%string, VFloat now)]).

(** A poll that finds nothing to read. *)
Definition quiet_update (p : proxy) : update_outcome := Updated p [].


(** ** Shapes *)

(** A flat array of coordinates: latitude and longitude in turn. *)
Definition flat_coordinates (points : list (pyval * pyval)) : list pyval :=
  flat_map (fun point => [fst point; snd point]) points.

(** A shape as it is kept, without the serialisation step. *)
Definition kept_shape (entry : string * pyval) : string * pyval :=
  (fst entry, kept_form (fst entry) (snd entry)).

Definition goes_to (which : store) (entry : string * pyval) : bool :=
  match kind_of (snd entry), which with
  | Polygons, Polygons | Polylines, Polylines => true
  | _, _ => false
  end.

(** *** What a shape message can reach *)

(** What a step of the shape handler leaves alone when it works for
    [sender]: everything but the time of the last update and the shapes
    stored for the sender. *)
Definition untouched (sender : string) (p p' : proxy) : Prop :=
  bluesky_client p' = bluesky_client p
  /\ running p' = running p
  /\ was_connected p' = was_connected p
  /\ socketio p' = socketio p
  /\ tracked_nodes p' = tracked_nodes p
  /\ tracked_servers p' = tracked_servers p
  /\ forall which k, k <> sender ->
       dict_get k (store_of which p') = dict_get k (store_of which p).

(** A step that keeps to its sender and pushes nothing. *)
Definition local_step (sender : string) (A : Type) (m : step A) : Prop :=
  forall p, untouched sender p (fst (fst (m p))) /\ snd (fst (m p)) = [].

(** What the handler may push in the end: nothing, or the sender's stored
    polygons and polylines when the sender is the active node. *)
Definition shapes_pushed (sender : string) (p p' : proxy) (events : list push)
  : Prop :=
  events = []
  \/ (_get_safe_active_node p = Some sender
      /\ socketio p = true
      /\ events
         = [Emit "poly" (stored_or_empty Polygons sender p');
            Emit "polyline" (stored_or_empty Polylines sender p')]).

(** Whether the shapes of a payload are keyed by strings: where the
    payload holds its shapes as a sequence of pairs and not as a dict, no
    pair has a key that is not a string. *)
Definition pairs_string_keyed (polys : pyval) : bool :=
  match polys with
  | VDict _ => true
  | _ =>
      match update_elements polys with
      | Some items =>
          forallb (fun element =>
                     match update_item_of element with
                     | OtherKeyed => false
                     | _ => true
                     end) items
      | None => true
      end
  end.

Definition string_keyed (data : pyval) : bool :=
  match make_json_serializable data with
  | VDict d =>
      match dict_get "polys" d with
      | Some polys => pairs_string_keyed polys
      | None => true
      end
  | _ => true
  end.

(** A payload that holds its shapes as a sequence of pairs. *)
Definition sample_pairs_payload : pyval :=
  VDict [("polys"%string,
          VList [VList [VStr "AREA1"; VDict [("shape"%string, VStr "POLY")]];
                 VList [VStr "AREA2"; VDict [("shape"%string, VStr "POLY")]]])].

End ProxySpec.

Module ManagersSpec.

Import WireSpec SignalsSpec ClientSpec ProxySpec Wire Proxy NodeManager DataManager CommandProcessor Identity Events.

(** ** Tracked servers and nodes *)

(** The server [_on_node_added] files a node under: the server of the
    node's group when the client knows it, and else the ungrouped one. *)
Definition server_of (node_id : bytes) (c : Client.client) : bytes :=
  if Client.mem_bytes (removelast node_id ++ [x80]%byte) (Client.servers c)
  then removelast node_id ++ [x80]%byte
  else ["0"%byte].

(** The entry [_on_node_added] makes for a node. *)
Definition entry_of (node_id : bytes) (c : Client.client) : node_record :=
  new_node_record node_id (Z.max (-1) (Client.last_byte_val node_id - 128))
    (server_of node_id c).

(** The page of a proxy that holds nothing. *)
Definition empty_page (server_ip : string) (last_update timestamp : Q)
  : current_data :=
  {| cd_traffic_data := VDict []; cd_sim_data := VDict [];
     cd_echo_data := VDict []; cd_poly_data := VDict [];
     cd_polyline_data := VDict []; cd_cmddict := [];
     cd_connected := false; cd_server_ip := server_ip;
     cd_last_update := last_update; cd_nodes := []; cd_servers := [];
     cd_active_node := None; cd_total_nodes := 0;
     cd_timestamp := timestamp |}.

(** ** Names for display *)

(** A byte that is a printable ASCII character. *)
Definition printable_byte (x : byte) : bool :=
  (32 <=? Byte.to_N x)%N && (Byte.to_N x <=? 126)%N.

Definition ascii_byte (x : byte) : bool := (Byte.to_N x <? 128)%N.

(** A decoder that knows ASCII only. *)
Definition ascii_only (data : bytes) : option (list N) := decode_ascii data.

(** ** A simulation reset *)

(** A store without the entry of a node. *)
Definition without (node_id : string) (d : list (string * pyval))
  : list (string * pyval) :=
  if dict_mem node_id d then dict_del node_id d else d.

(** What the consumers are sent on a reset. *)
Definition reset_events (now : Q) : list push :=
  [Emit "poly" empty_shape_data;
   Emit "polyline" empty_shape_data;
   Emit "reset"
     (VDict [("reason"%string, VStr "BlueSky simulation reset");
             ("timestamp"%string, VFloat now)])].

(** ** Asking for more nodes *)


End ManagersSpec.

(** * Theorems *)

Module WireFacts.

Import WireSpec Wire.

Lemma chr_charmap_some n : 0 <= n < 256 -> exists b, chr_charmap n = Some [b] /\ byte_val b = n.
Proof.
  intros H. unfold chr_charmap.
  replace ((0 <=? n) && (n <? 256)) with true by (symmetry; apply andb_true_iff; split; [apply Z.leb_le|apply Z.ltb_lt]; lia).
  destruct (Byte.of_N (Z.to_N n)) as [b|] eqn:E.
  - exists b. split; [reflexivity|]. unfold byte_val. apply Byte.to_of_N in E. rewrite E. lia.
  - exfalso. pose proof (Byte.to_of_N_option_map (Z.to_N n)) as M. rewrite E in M. simpl in M.
    destruct (N.leb_spec (Z.to_N n) 255); [discriminate | lia].
Qed.

Lemma seq_roundtrip i : -1 <= i <= 127 -> exists b, seqidx2id i = Some b /\ seqid2idx (SeqBytes b) = Some i.
Proof.
  intros H. unfold seqidx2id. destruct (@chr_charmap_some (128 + i)) as [b [E V]]; [lia|].
  exists [b]. split; [exact E|]. simpl. rewrite V. f_equal. lia.
Qed.

Lemma asbytestr_valid g : valid_group g -> exists b, asbytestr g = Some b.
Proof.
  destruct g; simpl; intros H; eauto.
  destruct (@chr_charmap_some n H) as [b [E _]]. eauto.
Qed.

Lemma genid_length entropy g seqidx id :
  genid entropy g seqidx = Some id -> length id = IDLEN.
Proof.
  unfold genid. destruct (asbytestr g) as [gb|]; [|discriminate].
  destruct (Nat.leb_spec IDLEN (length gb)).
  - intros E. assert (id = firstn IDLEN gb) as -> by congruence.
    rewrite length_firstn. lia.
  - destruct (seqidx2id seqidx) as [s|] eqn:Es; [|discriminate].
    intros E.
    assert (length s = 1%nat) as Ls.
    { unfold seqidx2id, chr_charmap in Es.
      destruct ((0 <=? 128 + seqidx) && (128 + seqidx <? 256)); [|discriminate].
      destruct (Byte.of_N _); [|discriminate]. injection Es as <-. reflexivity. }
    destruct (Nat.ltb_spec (length gb) (IDLEN - 1));
      match type of E with Some ?x = _ => assert (id = x) as -> by congruence end;
      rewrite length_app, Ls.
    + rewrite length_app. unfold replace_wildcard, urandom.
      rewrite !length_map, length_seq. unfold IDLEN in *. lia.
    + unfold IDLEN in *. lia.
Qed.

Lemma genid_total entropy g seqidx :
  valid_group g -> -128 <= seqidx <= 127 ->
  exists id, genid entropy g seqidx = Some id.
Proof.
  intros Hg Hs. destruct (@asbytestr_valid g Hg) as [gb Eg].
  destruct (@chr_charmap_some (128 + seqidx)) as [b [Eb _]]; [lia|].
  unfold genid. rewrite Eg. unfold seqidx2id. rewrite Eb.
  destruct (IDLEN <=? length gb)%nat; eauto.
Qed.

(** C4. Identities. For every sequence index from -1 to 127 (the indices
    [seqid2idx] can give back), [seqidx2id] yields one byte and
    [seqid2idx], given that byte as a bytes object or as the integer got
    by indexing, returns the index. For every group tag that can be
    encoded (an integer below 256, any string, any bytes) and every
    sequence index that fits a byte, [genid] returns an identity of
    exactly [IDLEN] bytes, and [IDLEN] is 5. *)
Theorem identity_round_trip_and_length :
  (forall i, -1 <= i <= 127 ->
     exists b,
       seqidx2id i = Some [b]
       /\ seqid2idx (SeqBytes [b]) = Some i
       /\ seqid2idx (SeqInt (byte_val b)) = Some i)
  /\ (forall entropy g seqidx,
         valid_group g -> -128 <= seqidx <= 127 ->
         exists id, genid entropy g seqidx = Some id /\ length id = IDLEN)
  /\ IDLEN = 5%nat.
Proof.
  split; [|split; [|reflexivity]].
  - intros i H. unfold seqidx2id.
    destruct (@chr_charmap_some (128 + i)) as [b [E V]]; [lia|].
    exists b. split; [exact E|]. cbn [seqid2idx]. rewrite V.
    split; f_equal; lia.
  - intros entropy g seqidx Hg Hs.
    destruct (@genid_total entropy g seqidx Hg Hs) as [id E].
    exists id. split; [exact E|]. eapply genid_length. exact E.
Qed.

Lemma identity_round_trip_and_length_witness :
  (exists b,
      seqidx2id 0 = Some [b]
      /\ seqid2idx (SeqBytes [b]) = Some 0
      /\ seqid2idx (SeqInt (byte_val b)) = Some 0)
  /\ exists id,
       genid (fun _ => "*"%byte) (PInt GROUPID_CLIENT) 1 = Some id
       /\ length id = IDLEN.
Proof.
  split.
  - apply (proj1 identity_round_trip_and_length 0). lia.
  - apply (proj1 (proj2 identity_round_trip_and_length)
             (fun _ => "*"%byte) (PInt GROUPID_CLIENT) 1).
    + unfold valid_group, GROUPID_CLIENT. lia.
    + lia.
Defined.

End WireFacts.

Module SignalsFacts.

Import WireSpec SignalsSpec WireFacts.

Section DispatchFacts.

Variables (W Cb Args : Type).

Variable call : Cb -> Args -> W -> Signals.outcome W.

Variable log_warning : Cb -> W -> W.

Lemma guarded_call_returns cb args w :
  Signals.guarded_call call log_warning cb args w
  = Signals.Returned
      (Signals.world_of (Signals.guarded_call call log_warning cb args w)).
Proof.
  unfold Signals.guarded_call. destruct (call cb args w); reflexivity.
Qed.

Lemma for_each_runs_all snapshot : forall args w,
  Signals.for_each call log_warning snapshot args w
  = (Signals.Returned (Signals.run_all call log_warning snapshot args w),
     snapshot).
Proof.
  induction snapshot as [|cb rest IH]; intros args w; simpl.
  - reflexivity.
  - rewrite guarded_call_returns. rewrite IH. reflexivity.
Qed.

Variable subscribers : W -> list Cb.

Hypothesis callbacks_keep_list : forall cb args w,
  subscribers (Signals.world_of (Signals.guarded_call call log_warning cb args w))
  = subscribers w.

Lemma subscriber_loop_runs_all rest : forall done fuel args w,
  subscribers w = done ++ rest ->
  (length rest < fuel)%nat ->
  Signals.subscriber_loop call log_warning subscribers fuel (length done) args w
  = Some (Signals.Returned (Signals.run_all call log_warning rest args w), rest).
Proof.
  induction rest as [|cb rest IH]; intros done fuel args w Hl Hf;
    (destruct fuel as [|fuel]; [simpl in Hf; lia|]); simpl.
  - rewrite Hl, app_nil_r.
    replace (nth_error done (length done)) with (@None Cb)
      by (symmetry; apply nth_error_None; lia).
    reflexivity.
  - rewrite Hl. rewrite nth_error_app2 by lia. rewrite Nat.sub_diag. simpl.
    rewrite guarded_call_returns.
    specialize (IH (done ++ [cb]) fuel args
                  (Signals.world_of (Signals.guarded_call call log_warning cb args w))).
    rewrite length_app in IH. simpl in IH. rewrite Nat.add_1_r in IH.
    rewrite IH.
    + reflexivity.
    + rewrite callbacks_keep_list, Hl, <- app_assoc. reflexivity.
    + simpl in Hf. lia.
Qed.

End DispatchFacts.

(** C10. Exceptions of callbacks. An emission of a signal and a dispatch
    to the subscribers of a topic both return (no exception of a callback
    leaves them), and every registered callback is entered, in
    registration order, whatever the callbacks before it did: the state
    at the end is the one of running them all one after the other, each
    guarded. For the subscribers the loop runs over the stored list, so
    this is stated for callbacks that leave that list as it is. *)
Theorem emit_contains_callback_failures :
  forall (W Cb Args : Type) (call : Cb -> Args -> W -> Signals.outcome W)
         (log_warning : Cb -> W -> W),
    (forall (callbacks : W -> list Cb) args w,
        Signals.signal_emit call log_warning callbacks args w
        = (Signals.Returned
             (Signals.run_all call log_warning (callbacks w) args w),
           callbacks w))
    /\
    (forall (subscribers : W -> list Cb) fuel args w,
        (forall cb a w',
            subscribers
              (Signals.world_of (Signals.guarded_call call log_warning cb a w'))
            = subscribers w') ->
        (length (subscribers w) < fuel)%nat ->
        Signals.subscriber_emit call log_warning subscribers fuel args w
        = Some (Signals.Returned
                  (Signals.run_all call log_warning (subscribers w) args w),
                subscribers w)).
Proof.
  intros W Cb Args call log_warning. split.
  - intros callbacks args w. unfold Signals.signal_emit.
    apply for_each_runs_all.
  - intros subscribers fuel args w Hkeep Hfuel.
    unfold Signals.subscriber_emit.
    apply (@subscriber_loop_runs_all _ _ _ call log_warning subscribers Hkeep
             (subscribers w) [] fuel args w); [reflexivity | exact Hfuel].
Qed.

Lemma emit_contains_callback_failures_witness :
  Signals.subscriber_emit demo_call (fun _ w => w) (fun _ => [1; 2; 3]%nat) 4 tt []
  = Some (Signals.Returned [1; 2; 3]%nat, [1; 2; 3]%nat).
Proof.
  apply (proj2 (emit_contains_callback_failures demo_call (fun _ w => w))
           (fun _ => [1; 2; 3]%nat) 4%nat tt []).
  - intros; reflexivity.
  - simpl; lia.
Defined.

End SignalsFacts.

Module ClientFacts.

Import WireSpec SignalsSpec ClientSpec WireFacts SignalsFacts Wire Client.

Lemma key_of_set_key opt topic from_group to_group c :
  key_of (set_key opt topic from_group to_group c)
  = subscribe_key topic from_group to_group.
Proof.
  unfold set_key, key_of.
  destruct (subscribe_key topic from_group to_group); reflexivity.
Qed.

Lemma subscribe_key_shape topic from_group to_group key :
  subscribe_key topic from_group to_group = Some key ->
  exists bfrom_group,
    asbytestr from_group = Some bfrom_group
    /\ key = ljust (asbytestr_addr to_group) IDLEN wildcard
             ++ list_byte_of_string topic ++ bfrom_group.
Proof.
  unfold subscribe_key. simpl.
  destruct (asbytestr from_group) as [bf|]; [|discriminate].
  intros [= <-]. exists bf. split; reflexivity.
Qed.

Lemma subscribe_resolves topic from_group to_group actonly c :
  key_of (_subscribe topic from_group to_group actonly c)
  = if sock_recv (socks c) then
      match resolved_source from_group actonly c with
      | Some src => subscribe_key topic src to_group
      | None => None
      end
    else None.
Proof.
  unfold _subscribe, resolved_source.
  destruct (sock_recv (socks c)); cbn [negb]; [|reflexivity].
  destruct (is_default from_group); [|apply key_of_set_key].
  destruct actonly; [|apply key_of_set_key].
  cbn [act_id set_acttopics].
  destruct (act_id c); [apply key_of_set_key | reflexivity].
Qed.

Lemma unsubscribe_resolves topic from_group to_group c :
  key_of (_unsubscribe topic from_group to_group c)
  = if sock_recv (socks c) then
      match resolved_source from_group (registry_mem topic (acttopics c)) c with
      | Some src => subscribe_key topic src to_group
      | None => None
      end
    else None.
Proof.
  unfold _unsubscribe, resolved_source.
  destruct (sock_recv (socks c)); cbn [negb]; [|reflexivity].
  destruct (is_default from_group); [|apply key_of_set_key].
  destruct (registry_mem topic (acttopics c)); [|apply key_of_set_key].
  cbn [act_id set_acttopics].
  destruct (act_id c); [apply key_of_set_key | reflexivity].
Qed.

Lemma built_key_shape topic src to_group key :
  subscribe_key topic src to_group = Some key <->
  exists bsrc,
    asbytestr src = Some bsrc
    /\ key = ljust (asbytestr_addr to_group) IDLEN wildcard
             ++ list_byte_of_string topic ++ bsrc.
Proof.
  split.
  - apply subscribe_key_shape.
  - intros (bsrc & Hb & ->). unfold subscribe_key. simpl. rewrite Hb.
    reflexivity.
Qed.

Lemma resolved_key_shape topic to_group (ready : bool) (resolved : option pyid)
    key :
  (if ready then
     match resolved with
     | Some src => subscribe_key topic src to_group
     | None => None
     end
   else None) = Some key <->
  ready = true
  /\ exists src bsrc,
       resolved = Some src
       /\ asbytestr src = Some bsrc
       /\ key = ljust (asbytestr_addr to_group) IDLEN wildcard
                ++ list_byte_of_string topic ++ bsrc.
Proof.
  split.
  - destruct ready; [|discriminate].
    destruct resolved as [src|]; [|discriminate].
    intros H. apply built_key_shape in H. destruct H as (bsrc & Hb & Hk).
    split; [reflexivity|]. exists src, bsrc. auto.
  - intros (-> & src & bsrc & -> & Hb & Hk).
    apply built_key_shape. exists bsrc. auto.
Qed.

(** C5, amended. On one client state, for one topic, source and
    destination: [_subscribe] hands a key to the socket exactly when there
    is a receiving socket and the source resolves, and the key is the
    destination padded to [IDLEN] with the wildcard, then the topic, then
    the bytes of the resolved source; the default source resolves to the
    active node when the call is active-only and to the simulation group
    when it is not. [_unsubscribe] does the same, with the membership of
    the topic in the registry of active-only topics in the place of the
    active-only flag. So the two keys are the same when the source is not
    the default one, or when the active-only flag of the subscription
    says what the registry says of the topic. *)
Theorem subscribe_unsubscribe_same_key :
  forall (c : client) (topic : string) (from_group : pyid) (to_group : addr)
         (actonly : bool),
    (forall key,
        key_of (_subscribe topic from_group to_group actonly c) = Some key
        <-> sock_recv (socks c) = true
            /\ exists src bsrc,
                 resolved_source from_group actonly c = Some src
                 /\ asbytestr src = Some bsrc
                 /\ key = ljust (asbytestr_addr to_group) IDLEN wildcard
                          ++ list_byte_of_string topic ++ bsrc)
    /\ (forall key,
          key_of (_unsubscribe topic from_group to_group c) = Some key
          <-> sock_recv (socks c) = true
              /\ exists src bsrc,
                   resolved_source from_group
                     (registry_mem topic (acttopics c)) c = Some src
                   /\ asbytestr src = Some bsrc
                   /\ key = ljust (asbytestr_addr to_group) IDLEN wildcard
                            ++ list_byte_of_string topic ++ bsrc)
    /\ (is_default from_group = false
        \/ actonly = registry_mem topic (acttopics c) ->
        key_of (_subscribe topic from_group to_group actonly c)
        = key_of (_unsubscribe topic from_group to_group c)).
Proof.
  intros c topic from_group to_group actonly.
  rewrite subscribe_resolves, unsubscribe_resolves.
  split; [|split].
  - intros key. apply resolved_key_shape.
  - intros key. apply resolved_key_shape.
  - intros H. destruct (sock_recv (socks c)); [|reflexivity].
    destruct H as [H | H].
    + unfold resolved_source. rewrite H. reflexivity.
    + rewrite H. reflexivity.
Qed.

Lemma subscribe_key_node topic node to_group :
  subscribe_key topic (PBytes node) to_group
  = Some (node_key topic node to_group).
Proof. reflexivity. Qed.

Lemma subscribe_from_node topic node to_group actonly c :
  _subscribe topic (PBytes node) to_group actonly c
  = (c, if sock_recv (socks c)
        then [SetSockOpt SUBSCRIBE (node_key topic node to_group)] else []).
Proof.
  unfold _subscribe. destruct (sock_recv (socks c)); reflexivity.
Qed.

Lemma unsubscribe_from_node topic node to_group c :
  _unsubscribe topic (PBytes node) to_group c
  = (c, if sock_recv (socks c)
        then [SetSockOpt UNSUBSCRIBE (node_key topic node to_group)] else []).
Proof.
  unfold _unsubscribe. destruct (sock_recv (socks c)); reflexivity.
Qed.

Lemma resubscribe_calls newact binding c :
  sock_recv (socks c) = true ->
  act_id c <> Some [] ->
  resubscribe newact binding c = (c, resubscription (act_id c) newact binding).
Proof.
  intros Hs Ha. unfold resubscribe, resubscription.
  destruct binding as [topic g]. cbn [fst snd].
  destruct (act_id c) as [[|x old]|] eqn:E;
    [exfalso; apply Ha; reflexivity| |];
    rewrite ?unsubscribe_from_node, subscribe_from_node, Hs; reflexivity.
Qed.

Lemma resubscribe_all_calls newact pairs : forall c,
  sock_recv (socks c) = true ->
  act_id c <> Some [] ->
  resubscribe_all newact pairs c
  = (c, flat_map (resubscription (act_id c) newact) pairs).
Proof.
  induction pairs as [|b rest IH]; intros c Hs Ha; simpl.
  - reflexivity.
  - rewrite (@resubscribe_calls newact b c Hs Ha). rewrite (IH c Hs Ha).
    reflexivity.
Qed.

Lemma run_all_external sig arg cbs : forall (c : client) (tr : list event),
  Signals.run_all (call_external sig) (fun _ (w : world) => w) cbs arg (c, tr)
  = (c, tr ++ map (fun n => Invoked sig n arg) cbs).
Proof.
  induction cbs as [|n rest IH]; intros c tr; simpl.
  - rewrite app_nil_r. reflexivity.
  - unfold Signals.run_all in *. simpl. unfold record. simpl.
    rewrite IH. rewrite <- app_assoc. reflexivity.
Qed.

Lemma emit_external_calls sig callbacks arg c :
  emit_external sig callbacks arg c
  = (c, map (fun n => Invoked sig n arg) (callbacks c)).
Proof.
  unfold emit_external, Signals.signal_emit.
  rewrite for_each_runs_all. cbn [fst Signals.world_of].
  rewrite run_all_external. reflexivity.
Qed.

Lemma actnode_accepted x newact c :
  In (x :: newact) (nodes c) ->
  sock_recv (socks c) = true ->
  act_id c <> Some [] ->
  actnode (Some (x :: newact)) c
  = let c1 := auto_select_dropped c in
    if same_id (x :: newact) (act_id c) then (c1, [], act_id c)
    else
      (set_act_id (Some (x :: newact)) c1,
       flat_map (resubscription (act_id c) (x :: newact))
         (registry_pairs (acttopics c))
       ++ map (fun n => Invoked SigActnodeChanged n (x :: newact))
            (actnode_changed (sigs c)),
       Some (x :: newact)).
Proof.
  intros Hin Hs Hne. unfold actnode, mem_bytes.
  destruct (in_dec bytes_eq_dec (x :: newact) (nodes c)) as [_|n];
    [|contradiction].
  cbn [negb]. fold (auto_select_dropped c).
  assert (act_id (auto_select_dropped c) = act_id c) as Ha.
  { unfold auto_select_dropped. destruct (act_id c) eqn:E; cbn; congruence. }
  assert (socks (auto_select_dropped c) = socks c) as Hk.
  { unfold auto_select_dropped. destruct (act_id c) eqn:E; cbn; congruence. }
  assert (acttopics (auto_select_dropped c) = acttopics c) as Ht.
  { unfold auto_select_dropped. destruct (act_id c) eqn:E; cbn; congruence. }
  assert (actnode_changed (sigs (auto_select_dropped c))
          = actnode_changed (sigs c)) as Hc.
  { unfold auto_select_dropped. destruct (act_id c) eqn:E; cbn; congruence. }
  rewrite Ha. cbv zeta.
  destruct (same_id (x :: newact) (act_id c)); cbn [negb].
  - reflexivity.
  - rewrite resubscribe_all_calls by (rewrite ?Hk, ?Ha; assumption).
    rewrite emit_external_calls. cbn [act_id set_act_id sigs].
    rewrite Ha, Ht, Hc. reflexivity.
Qed.

Lemma string_eqb_true x y : string_eqb x y = true <-> x = y.
Proof. unfold string_eqb. destruct (string_dec x y); split; congruence. Qed.

Lemma string_eqb_refl x : string_eqb x x = true.
Proof. apply string_eqb_true. reflexivity. Qed.

Lemma string_eqb_false x y : string_eqb x y = false <-> x <> y.
Proof. unfold string_eqb. destruct (string_dec x y); split; congruence. Qed.

Lemma registry_mem_In topic reg :
  registry_mem topic reg = true <-> In topic (map fst reg).
Proof.
  induction reg as [|[t gs] rest IH]; simpl.
  - split; [discriminate | contradiction].
  - rewrite orb_true_iff, IH, string_eqb_true. split; intros [H|H]; auto.
Qed.

Lemma registry_add_keys topic g reg :
  map fst (registry_add topic g reg)
  = if registry_mem topic reg then map fst reg else map fst reg ++ [topic].
Proof.
  induction reg as [|[t gs] rest IH]; simpl.
  - reflexivity.
  - destruct (string_eqb topic t) eqn:E; simpl.
    + reflexivity.
    + rewrite IH. destruct (registry_mem topic rest); reflexivity.
Qed.

Lemma set_add_addr_NoDup g gs : NoDup gs -> NoDup (set_add_addr g gs).
Proof.
  intros H. unfold set_add_addr, mem_addr.
  destruct (in_dec addr_eq_dec g gs) as [i|n]; [exact H|].
  apply NoDup_app; [exact H | constructor; [intros []|constructor] |].
  intros a Ha [<-|[]]. contradiction.
Qed.

Lemma discard_addr_NoDup g gs : NoDup gs -> NoDup (discard_addr g gs).
Proof. intros H. unfold discard_addr. apply NoDup_filter. exact H. Qed.

Lemma registry_add_sets topic g reg :
  Forall (fun tg => NoDup (snd tg)) reg ->
  Forall (fun tg => NoDup (snd tg)) (registry_add topic g reg).
Proof.
  induction reg as [|[t gs] rest IH]; simpl; intros H.
  - constructor; [|constructor]. simpl. constructor; [intros []|constructor].
  - inversion H as [|? ? H1 H2]; subst.
    destruct (string_eqb topic t); constructor; auto.
    simpl in *. apply set_add_addr_NoDup. exact H1.
Qed.

Lemma registry_add_wf topic g reg :
  registry_wf reg -> registry_wf (registry_add topic g reg).
Proof.
  intros [Hk Hs]. split.
  - rewrite registry_add_keys.
    destruct (registry_mem topic reg) eqn:E; [exact Hk|].
    apply NoDup_app; [exact Hk | constructor; [intros []|constructor] |].
    intros a Ha [<-|[]].
    apply registry_mem_In in Ha. congruence.
  - apply registry_add_sets. exact Hs.
Qed.

Lemma registry_discard_keys topic g reg :
  map fst (registry_discard topic g reg) = map fst reg.
Proof.
  induction reg as [|[t gs] rest IH]; simpl; [reflexivity|].
  destruct (string_eqb topic t); simpl; [reflexivity|]. rewrite IH. reflexivity.
Qed.

Lemma registry_discard_wf topic g reg :
  registry_wf reg -> registry_wf (registry_discard topic g reg).
Proof.
  intros [Hk Hs]. split.
  - rewrite registry_discard_keys. exact Hk.
  - clear Hk. induction reg as [|[t gs] rest IH]; simpl; [constructor|].
    inversion Hs as [|? ? H1 H2]; subst.
    destruct (string_eqb topic t); constructor; auto.
    simpl in *. apply discard_addr_NoDup. exact H1.
Qed.

Lemma registry_pairs_NoDup reg :
  registry_wf reg -> NoDup (registry_pairs reg).
Proof.
  unfold registry_pairs. intros [Hk Hs].
  induction reg as [|[t gs] rest IH]; simpl.
  - constructor.
  - inversion Hk as [|? ? Hn Hk']; subst.
    inversion Hs as [|? ? H1 H2]; subst. simpl in *.
    apply NoDup_app.
    + apply Finite.Injective_map_NoDup; [|exact H1].
      intros a b [= ->]. reflexivity.
    + apply IH; assumption.
    + intros [t' g'] Ha Hb. apply in_map_iff in Ha as [g [Ea _]].
      apply in_flat_map in Hb as [[t2 gs2] [Hin Hm]].
      apply in_map_iff in Hm as [g2 [Eb _]]. simpl in Eb.
      assert (t2 = t) as -> by congruence.
      apply Hn. apply in_map_iff. exists (t, gs2). split; [reflexivity|exact Hin].
Qed.

Lemma registry_pairs_bound reg topic to_group :
  In (topic, to_group) (registry_pairs reg) <-> bound reg topic to_group.
Proof.
  unfold registry_pairs, bound. rewrite in_flat_map. split.
  - intros ([t gs] & Hin & Hm). apply in_map_iff in Hm as (g & E & Hg).
    cbn [fst snd] in *. injection E as <- <-. exists gs. auto.
  - intros (gs & Hin & Hg). exists (topic, gs). split; [exact Hin|].
    apply in_map_iff. exists to_group. auto.
Qed.

Lemma registry_add_bound topic to_group reg t g :
  bound (registry_add topic to_group reg) t g
  <-> bound reg t g \/ (t = topic /\ g = to_group).
Proof.
  unfold bound. induction reg as [|[t0 gs0] rest IH]; cbn [registry_add].
  - split.
    + intros (gs & [E|[]] & Hg). injection E as <- <-.
      destruct Hg as [<-|[]]. right. auto.
    + intros [(gs & [] & _)|[-> ->]]. exists [to_group].
      split; left; reflexivity.
  - destruct (string_eqb topic t0) eqn:E.
    + apply string_eqb_true in E. subst t0. split.
      * intros (gs & [Eq|Hin] & Hg).
        -- injection Eq as <- <-. unfold set_add_addr, mem_addr in Hg.
           destruct (in_dec addr_eq_dec to_group gs0).
           ++ left. exists gs0. split; [left; reflexivity | exact Hg].
           ++ apply in_app_or in Hg as [Hg|[<-|[]]].
              ** left. exists gs0. split; [left; reflexivity | exact Hg].
              ** right. auto.
        -- left. exists gs. split; [right; exact Hin | exact Hg].
      * intros [(gs & [Eq|Hin] & Hg)|[-> ->]].
        -- injection Eq as <- <-. exists (set_add_addr to_group gs0).
           split; [left; reflexivity|]. unfold set_add_addr, mem_addr.
           destruct (in_dec addr_eq_dec to_group gs0); [exact Hg|].
           apply in_or_app. left. exact Hg.
        -- exists gs. split; [right; exact Hin | exact Hg].
        -- exists (set_add_addr to_group gs0).
           split; [left; reflexivity|]. unfold set_add_addr, mem_addr.
           destruct (in_dec addr_eq_dec to_group gs0) as [i|n]; [exact i|].
           apply in_or_app. right. left. reflexivity.
    + split.
      * intros (gs & [Eq|Hin] & Hg).
        -- injection Eq as <- <-. left. exists gs0.
           split; [left; reflexivity | exact Hg].
        -- assert (H : exists gs, In (t, gs) (registry_add topic to_group rest)
                                  /\ In g gs) by (exists gs; auto).
           apply IH in H. destruct H as [(gs' & Hin' & Hg')|H]; [|right; exact H].
           left. exists gs'. split; [right; exact Hin' | exact Hg'].
      * intros [(gs & [Eq|Hin] & Hg)|H].
        -- exists gs. split; [left; exact Eq | exact Hg].
        -- assert (H : exists gs, In (t, gs) (registry_add topic to_group rest)
                                  /\ In g gs).
           { apply IH. left. exists gs. auto. }
           destruct H as (gs' & Hin' & Hg'). exists gs'.
           split; [right; exact Hin' | exact Hg'].
        -- assert (H' : exists gs, In (t, gs) (registry_add topic to_group rest)
                                   /\ In g gs).
           { apply IH. right. exact H. }
           destruct H' as (gs' & Hin' & Hg'). exists gs'.
           split; [right; exact Hin' | exact Hg'].
Qed.

Ltac split_inv :=
  unfold client_inv; split; [|split; [|split; [|split]]].

(** ** Signal lists *)

Lemma signal_disconnect_incl cb l s :
  In s (signal_disconnect cb l) -> In s l.
Proof.
  induction l as [|x rest IH]; simpl; [auto|].
  destruct (slot_eq_dec cb x); simpl; intuition.
Qed.

Lemma signal_disconnect_NoDup cb l :
  NoDup l -> NoDup (signal_disconnect cb l).
Proof.
  induction 1 as [|x rest Hn Hd IH]; simpl; [constructor|].
  destruct (slot_eq_dec cb x); [exact Hd|].
  constructor; [|exact IH]. intros Hin. apply Hn.
  eapply signal_disconnect_incl; eassumption.
Qed.

Lemma signal_disconnect_removes cb l :
  NoDup l -> ~ In cb (signal_disconnect cb l).
Proof.
  induction 1 as [|x rest Hn Hd IH]; simpl; [auto|].
  destruct (slot_eq_dec cb x) as [->|Hne]; [exact Hn|].
  intros [E|Hin]; [congruence | contradiction].
Qed.

Lemma signal_connect_NoDup cb l : NoDup l -> NoDup (signal_connect cb l).
Proof.
  intros H. unfold signal_connect.
  destruct (in_dec slot_eq_dec cb l); [exact H|].
  apply NoDup_app; [exact H | constructor; [intros []|constructor] |].
  intros a Ha [<-|[]]; contradiction.
Qed.

(** ** The state each method leaves *)

Lemma set_key_state opt topic from_group to_group c :
  fst (set_key opt topic from_group to_group c) = c.
Proof.
  unfold set_key. destruct (subscribe_key topic from_group to_group);
    reflexivity.
Qed.

Lemma subscribe_state topic from_group to_group actonly c :
  fst (_subscribe topic from_group to_group actonly c) = c
  \/ fst (_subscribe topic from_group to_group actonly c)
     = set_acttopics (registry_add topic to_group (acttopics c)) c.
Proof.
  unfold _subscribe.
  destruct (sock_recv (socks c)); cbn [negb]; [|left; reflexivity].
  destruct (is_default from_group); [|left; apply set_key_state].
  destruct actonly; [|left; apply set_key_state].
  right. destruct (act_id _); [apply set_key_state | reflexivity].
Qed.

Lemma unsubscribe_state topic from_group to_group c :
  fst (_unsubscribe topic from_group to_group c) = c
  \/ fst (_unsubscribe topic from_group to_group c)
     = set_acttopics (registry_discard topic to_group (acttopics c)) c.
Proof.
  unfold _unsubscribe.
  destruct (sock_recv (socks c)); cbn [negb]; [|left; reflexivity].
  destruct (is_default from_group); [|left; apply set_key_state].
  destruct (registry_mem topic (acttopics c)); [|left; apply set_key_state].
  right. destruct (act_id _); [apply set_key_state | reflexivity].
Qed.

Lemma send_state topic data to_group c :
  fst (fst (send topic data to_group c)) = c.
Proof.
  unfold send. destruct (negb (running c) || negb (sock_send (socks c)));
    reflexivity.
Qed.

Lemma resubscribe_all_state newact pairs : forall c,
  fst (resubscribe_all newact pairs c) = c.
Proof.
  induction pairs as [|[t g] rest IH]; intros c; simpl; [reflexivity|].
  destruct (act_id c) as [[|x old]|];
    rewrite ?unsubscribe_from_node, subscribe_from_node;
    specialize (IH c); destruct (resubscribe_all newact rest c);
    simpl in *; exact IH.
Qed.

Lemma actnode_state newact c :
  fst (fst (actnode newact c)) = c
  \/ fst (fst (actnode newact c)) = auto_select_dropped c
  \/ exists x id,
      fst (fst (actnode newact c))
      = set_act_id (Some (x :: id)) (auto_select_dropped c).
Proof.
  unfold actnode. destruct newact as [[|x id]|]; try (left; reflexivity).
  destruct (negb (mem_bytes (x :: id) (nodes c))); [left; reflexivity|].
  fold (auto_select_dropped c).
  destruct (negb (same_id (x :: id) (act_id (auto_select_dropped c))));
    [|right; left; reflexivity].
  right; right. exists x, id.
  pose proof (resubscribe_all_state (x :: id)
                (registry_pairs (acttopics (auto_select_dropped c)))
                (auto_select_dropped c)) as Hr.
  destruct (resubscribe_all _ _ _) as [c2 e2]. simpl in Hr. subst c2.
  rewrite emit_external_calls. reflexivity.
Qed.

(** ** Invariant: primitive changes *)

Lemma inv_auto_select_dropped c :
  client_inv c -> client_inv (auto_select_dropped c).
Proof.
  intros H. unfold auto_select_dropped.
  destruct (act_id c) eqn:E; [exact H|].
  destruct H as (H1 & H2 & H3 & H4 & H5).
  split_inv; cbn; try assumption; try congruence.
  apply signal_disconnect_NoDup. exact H1.
Qed.

Lemma inv_set_act_id c x id :
  client_inv c -> client_inv (set_act_id (Some (x :: id)) c).
Proof.
  intros (H1 & H2 & H3 & H4 & H5). split_inv; cbn; try assumption.
  discriminate.
Qed.

Lemma inv_set_acttopics c reg :
  registry_wf reg -> client_inv c -> client_inv (set_acttopics reg c).
Proof.
  intros Hr (H1 & H2 & H3 & H4 & H5). split_inv; cbn; assumption.
Qed.

Lemma inv_actnode newact c :
  client_inv c -> client_inv (fst (fst (actnode newact c))).
Proof.
  intros H. destruct (actnode_state newact c) as [E|[E|(x & id & E)]];
    rewrite E; auto using inv_auto_select_dropped, inv_set_act_id.
Qed.

Lemma inv_subscribe topic from_group to_group actonly c :
  client_inv c ->
  client_inv (fst (_subscribe topic from_group to_group actonly c)).
Proof.
  intros H. destruct (subscribe_state topic from_group to_group actonly c)
    as [E|E]; rewrite E; [exact H|].
  apply inv_set_acttopics; [|exact H]. apply registry_add_wf. apply H.
Qed.

Lemma inv_unsubscribe topic from_group to_group c :
  client_inv c -> client_inv (fst (_unsubscribe topic from_group to_group c)).
Proof.
  intros H. destruct (unsubscribe_state topic from_group to_group c)
    as [E|E]; rewrite E; [exact H|].
  apply inv_set_acttopics; [|exact H]. apply registry_discard_wf. apply H.
Qed.

Lemma off_auto_select_dropped c :
  auto_select_off c -> auto_select_off (auto_select_dropped c).
Proof.
  unfold auto_select_off, auto_select_dropped. intros H.
  destruct (act_id c); [exact H|]. cbn. intros Hin. apply H.
  eapply signal_disconnect_incl; eassumption.
Qed.

Lemma off_actnode newact c :
  auto_select_off c -> auto_select_off (fst (fst (actnode newact c))).
Proof.
  intros H. destruct (actnode_state newact c) as [E|[E|(x & id & E)]];
    rewrite E; auto using off_auto_select_dropped.
  apply (off_auto_select_dropped H).
Qed.

(** ** Emission of [node_added] *)

Lemma call_slot_state (P : client -> Prop) :
  (forall newact c, P c -> P (fst (fst (actnode newact c)))) ->
  forall cb arg (w : world),
    P (fst w) ->
    P (fst (Signals.world_of
              (Signals.guarded_call call_slot (fun _ w => w) cb arg w))).
Proof.
  intros Hact cb arg [c tr] Hp. unfold Signals.guarded_call, call_slot.
  cbn [fst snd] in *. destruct cb as [| |n].
  - specialize (Hact (Some arg) c Hp).
    destruct (actnode (Some arg) c) as [[c' evs] r]. exact Hact.
  - unfold on_node_added_request_data.
    pose proof (send_state "REQUEST" (VList [VStr "POLY"; VStr "STACKCMDS"])
                  (AStr EmptyString) c) as E1.
    destruct (send "REQUEST" _ _ c) as [[c1 e1] r1]. cbn [fst] in E1. subst c1.
    pose proof (send_state "REQUEST" (VList [VStr "POLY"; VStr "STACKCMDS"])
                  (AStr EmptyString) c) as E2.
    destruct (send "REQUEST" _ _ c) as [[c2 e2] r2]. cbn [fst] in E2. subst c2.
    exact Hp.
  - exact Hp.
Qed.

Lemma run_all_slots_state (P : client -> Prop) :
  (forall newact c, P c -> P (fst (fst (actnode newact c)))) ->
  forall cbs arg (w : world),
    P (fst w) ->
    P (fst (Signals.run_all call_slot (fun _ w => w) cbs arg w)).
Proof.
  intros Hact cbs arg. induction cbs as [|cb rest IH]; intros w Hp.
  - exact Hp.
  - unfold Signals.run_all in *. simpl. apply IH.
    apply call_slot_state; assumption.
Qed.

Lemma emit_node_added_state (P : client -> Prop) arg c :
  (forall newact c, P c -> P (fst (fst (actnode newact c)))) ->
  P c -> P (fst (emit_node_added arg c)).
Proof.
  intros Hact Hp. unfold emit_node_added, Signals.signal_emit.
  rewrite for_each_runs_all. cbn [fst Signals.world_of].
  apply run_all_slots_state; assumption.
Qed.

Lemma process_subscription_state (P : client -> Prop) frame c :
  (forall newact c, P c -> P (fst (fst (actnode newact c)))) ->
  (forall v c, P c -> P (set_nodes v c)) ->
  (forall v c, P c -> P (set_servers v c)) ->
  P c -> P (fst (_process_subscription_message frame c)).
Proof.
  intros Hact Hn Hs Hp. unfold _process_subscription_message.
  repeat match goal with
         | |- context [match ?x with _ => _ end] =>
             first [is_var x; destruct x | destruct x eqn:?]
         end;
    cbn [fst]; rewrite ?emit_external_calls; cbn [fst];
    try assumption; try (apply Hn; assumption); try (apply Hs; assumption);
    apply emit_node_added_state; [exact Hact | apply Hn; assumption].
Qed.

Lemma running_actnode newact c :
  running (fst (fst (actnode newact c))) = running c.
Proof.
  destruct (actnode_state newact c) as [E|[E|(x & id & E)]]; rewrite E;
    try reflexivity; unfold auto_select_dropped; destruct (act_id c);
    reflexivity.
Qed.

Lemma subscribe_explicit_state topic from_group to_group actonly c :
  is_default from_group = false ->
  fst (_subscribe topic from_group to_group actonly c) = c.
Proof.
  intros H. unfold _subscribe. rewrite H.
  destruct (negb (sock_recv (socks c))); [reflexivity | apply set_key_state].
Qed.

Lemma inv_close fault c : client_inv c -> client_inv (close fault c).
Proof.
  intros (H1 & H2 & H3 & H4 & H5). split_inv; cbn;
    try assumption; try congruence. split; constructor.
Qed.

Lemma inv_set_socks s c :
  (running c = true -> sock_recv s = true) ->
  client_inv c -> client_inv (set_socks s c).
Proof.
  intros Hs (H1 & H2 & H3 & H4 & H5). split_inv; cbn; assumption.
Qed.

Lemma inv_connect r fault c :
  client_inv c -> client_inv (fst (fst (connect r fault c))).
Proof.
  intros H. unfold connect.
  destruct r; cbn [fst]; try (apply inv_close; apply inv_set_socks;
    [|exact H]; destruct H as (H1 & H2 & H3 & H4 & H5);
    cbn; auto).
  pose proof (@subscribe_explicit_state EmptyString (PStr EmptyString)
                (ABytes (node_id (set_socks (opened ConnectOk (socks c)) c)))
                false (set_socks (opened ConnectOk (socks c)) c) eq_refl) as E.
  destruct (_subscribe _ _ _ _ _) as [c2 e2]. cbn [fst] in *. subst c2.
  destruct H as (H1 & H2 & H3 & H4 & H5). split_inv; cbn; auto.
Qed.

Lemma process_data_state (P : client -> Prop) utf8_decode py_str header
    payload c :
  (forall k c, P c -> P (set_ctx k c)) ->
  P c ->
  P (fst (_process_data_message utf8_decode py_str header payload c)).
Proof.
  intros Hk Hp. unfold _process_data_message, shared_state.
  repeat match goal with
         | |- context [match ?x with _ => _ end] =>
             first [is_var x; destruct x | destruct x eqn:?]
         end;
    cbn [fst]; try assumption; apply Hk; assumption.
Qed.

Lemma inv_set_ctx k c : client_inv c -> client_inv (set_ctx k c).
Proof. intros (H1 & H2 & H3 & H4 & H5). split_inv; cbn; assumption. Qed.

Lemma inv_set_stack k c : client_inv c -> client_inv (set_stack k c).
Proof. intros (H1 & H2 & H3 & H4 & H5). split_inv; cbn; assumption. Qed.

Lemma inv_connect_signal sig n c :
  client_inv c -> client_inv (set_sigs (connect_signal sig n (sigs c)) c).
Proof.
  intros (H1 & H2 & H3 & H4 & H5).
  destruct sig; split_inv; cbn; try assumption.
  apply signal_connect_NoDup. exact H1.
Qed.

Lemma inv_run_op o c : client_inv c -> client_inv (fst (run_op o c)).
Proof.
  intros H. destruct o; cbn [run_op].
  - apply inv_connect. exact H.
  - apply inv_close. exact H.
  - destruct (running c && connected c && poller (socks c)) eqn:G;
      [|exact H].
    apply andb_prop in G as [G _]. apply andb_prop in G as [G _].
    apply (@process_subscription_state
             (fun c => client_inv c /\ running c = true) frame c).
    + intros newact c' [Hi Hr]. split; [apply inv_actnode; exact Hi|].
      rewrite running_actnode. exact Hr.
    + intros v c' [(H1 & H2 & H3 & H4 & H5) Hr]. split; [|exact Hr].
      split_inv; cbn; auto.
    + intros v c' [(H1 & H2 & H3 & H4 & H5) Hr]. split; [|exact Hr].
      split_inv; cbn; auto.
    + split; assumption.
  - destruct (running c && connected c && poller (socks c)); [|exact H].
    apply process_data_state; [|exact H].
    intros k c' H'. apply inv_set_ctx. exact H'.
  - unfold subscribe. apply inv_subscribe.
    destruct H as (H1 & H2 & H3 & H4 & H5). split_inv; cbn; assumption.
  - apply inv_subscribe. exact H.
  - apply inv_unsubscribe. exact H.
  - apply inv_actnode. exact H.
  - rewrite send_state. exact H.
  - unfold stack_commands. apply inv_set_stack. exact H.
  - apply inv_set_stack. exact H.
  - apply inv_connect_signal. exact H.
  - destruct H as (H1 & H2 & H3 & H4 & H5). split_inv; cbn; try assumption.
    discriminate.
Qed.

Lemma off_subscribe topic from_group to_group actonly c :
  auto_select_off c ->
  auto_select_off (fst (_subscribe topic from_group to_group actonly c)).
Proof.
  intros H. destruct (subscribe_state topic from_group to_group actonly c)
    as [E|E]; rewrite E; exact H.
Qed.

Lemma off_unsubscribe topic from_group to_group c :
  auto_select_off c ->
  auto_select_off (fst (_unsubscribe topic from_group to_group c)).
Proof.
  intros H. destruct (unsubscribe_state topic from_group to_group c)
    as [E|E]; rewrite E; exact H.
Qed.

Lemma off_run_op o c :
  auto_select_off c -> auto_select_off (fst (run_op o c)).
Proof.
  intros H. destruct o; cbn [run_op].
  - unfold connect. destruct r; exact H.
  - exact H.
  - destruct (running c && connected c && poller (socks c)); [|exact H].
    apply process_subscription_state; auto using off_actnode.
  - destruct (running c && connected c && poller (socks c)); [|exact H].
    apply process_data_state; [|exact H]. intros k c' H'. exact H'.
  - unfold subscribe. apply off_subscribe. exact H.
  - apply off_subscribe. exact H.
  - apply off_unsubscribe. exact H.
  - apply off_actnode. exact H.
  - rewrite send_state. exact H.
  - exact H.
  - exact H.
  - destruct sig; try exact H.
    unfold auto_select_off in *. cbn. unfold signal_connect.
    destruct (in_dec slot_eq_dec (SlotExternal n) (node_added (sigs c)));
      [exact H|].
    intros Hin. apply in_app_or in Hin as [Hin|[Hin|[]]];
      [contradiction | discriminate].
  - exact H.
Qed.

Lemma inv_run_ops os : forall c,
  client_inv c -> client_inv (fst (run_ops os c)).
Proof.
  induction os as [|o rest IH]; intros c H; simpl; [exact H|].
  pose proof (inv_run_op o H) as H1. destruct (run_op o c) as [c1 e1].
  specialize (IH c1 H1). destruct (run_ops rest c1) as [c2 e2]. exact IH.
Qed.

Lemma off_run_ops os : forall c,
  auto_select_off c -> auto_select_off (fst (run_ops os c)).
Proof.
  induction os as [|o rest IH]; intros c H; simpl; [exact H|].
  pose proof (off_run_op o H) as H1. destruct (run_op o c) as [c1 e1].
  specialize (IH c1 H1). destruct (run_ops rest c1) as [c2 e2]. exact IH.
Qed.

Lemma inv_new_client entropy group c :
  new_client entropy group = Some c -> client_inv c.
Proof.
  unfold new_client.
  destruct (genid entropy group 1); [|discriminate].
  destruct (asbytestr group); [|discriminate].
  destruct (seqidx2id 0); [|discriminate].
  intros [= <-]. split_inv; cbn; try congruence.
  - repeat constructor; simpl; intuition discriminate.
  - split; constructor.
Qed.

Lemma reachable_inv c : reachable c -> client_inv c.
Proof.
  intros (entropy & group & c0 & os & Hn & <-).
  apply inv_run_ops. eapply inv_new_client. exact Hn.
Qed.

Lemma same_id_false id o : o <> Some id -> same_id id o = false.
Proof.
  intros H. destruct o as [y|]; simpl; [|reflexivity].
  unfold bytes_eqb. destruct (bytes_eq_dec id y); [congruence|reflexivity].
Qed.

Lemma actnode_rejects id c :
  ~ In id (nodes c) -> fst (actnode (Some id) c) = (c, []).
Proof.
  intros H. unfold actnode. destruct id as [|x id]; [reflexivity|].
  unfold mem_bytes. destruct (in_dec bytes_eq_dec (x :: id) (nodes c));
    [contradiction | reflexivity].
Qed.

(** C1. Selecting the active node on a client that can be reached from
    a fresh one. An identity that is not a known node is refused and
    nothing changes. For a known node: if no active node was set, the
    automatic selection of the first node found is off from then on,
    whatever happens later; and if the node differs from the active one,
    then the pairs of a topic and an addressee bound in the active-only
    registry are gone through, each pair once: for each one
    unsubscription from the old node, when there is one, and one
    subscription to the new node are sent, in that order, and after all of
    them the callbacks of the active-node-changed signal run, and the new
    node is the active one at the end. *)
Theorem active_node_selection :
  forall c : client,
    reachable c ->
    (forall id : bytes,
        ~ In id (nodes c) -> fst (actnode (Some id) c) = (c, []))
    /\
    (forall id : bytes,
        In id (nodes c) -> id <> [] ->
        (act_id c = None ->
         forall os : list op,
           auto_select_off
             (fst (run_ops os (fst (fst (actnode (Some id) c))))))
        /\
        (act_id c <> Some id ->
         exists pairs : list (string * addr),
           NoDup pairs
           /\ (forall topic to_group,
                  In (topic, to_group) pairs
                  <-> bound (acttopics c) topic to_group)
           /\ actnode (Some id) c
              = (set_act_id (Some id) (auto_select_dropped c),
                 flat_map (resubscription (act_id c) id) pairs
                 ++ map (fun n => Invoked SigActnodeChanged n id)
                      (actnode_changed (sigs c)),
                 Some id))).
Proof.
  intros c Hreach. pose proof (reachable_inv Hreach) as Hinv.
  destruct Hinv as (Hnd & Hrun & Hsock & Hreg & Hact).
  split; [intros id; apply actnode_rejects|].
  intros id Hin Hne. destruct id as [|x id]; [congruence|].
  assert (sock_recv (socks c) = true) as Hs.
  { apply Hsock, Hrun. intros E. rewrite E in Hin. exact Hin. }
  pose proof (actnode_accepted x id c Hin Hs Hact) as Hacc. cbv zeta in Hacc.
  unfold bytes in *.
  split.
  - intros Hnone os. apply off_run_ops. rewrite Hacc.
    rewrite same_id_false by congruence. cbn [fst].
    unfold auto_select_off, auto_select_dropped. rewrite Hnone. cbn.
    apply signal_disconnect_removes. exact Hnd.
  - intros Hdiff. exists (registry_pairs (acttopics c)).
    split; [apply registry_pairs_NoDup; exact Hreg|].
    split; [intros topic to_group; apply registry_pairs_bound|].
    rewrite Hacc. rewrite same_id_false by exact Hdiff. reflexivity.
Qed.

Lemma sample_client_reachable : reachable sample_client.
Proof.
  exists sample_entropy, (PInt GROUPID_CLIENT), sample_start, sample_ops.
  split; vm_compute; reflexivity.
Qed.

Lemma sample_busy_client_reachable : reachable sample_busy_client.
Proof.
  exists sample_entropy, (PInt GROUPID_CLIENT), sample_start, sample_busy_ops.
  split; vm_compute; reflexivity.
Qed.

Lemma active_node_selection_witness :
  ctx_sender_id (ctx sample_busy_client) = Some sample_node1
  /\ act_id sample_busy_client = Some sample_node1
  /\ exists pairs : list (string * addr),
       NoDup pairs
       /\ (forall topic to_group,
              In (topic, to_group) pairs
              <-> bound [("ACDATA"%string, [AStr EmptyString]);
                         ("ROUTEDATA"%string, [AStr EmptyString])]
                    topic to_group)
       /\ snd (fst (actnode (Some sample_node2) sample_busy_client))
          = flat_map (resubscription (Some sample_node1) sample_node2) pairs
            ++ [Invoked SigActnodeChanged 5 sample_node2].
Proof.
  split; [reflexivity|]. split; [reflexivity|].
  destruct (active_node_selection sample_busy_client_reachable) as [_ H].
  destruct (H sample_node2) as [_ H2].
  - vm_compute. right. left. reflexivity.
  - discriminate.
  - destruct H2 as (pairs & Hnd & Hb & E); [vm_compute; discriminate|].
    exists pairs. split; [exact Hnd|]. split; [exact Hb|].
    rewrite E. reflexivity.
Defined.

Lemma echo_dispatch utf8_decode py_str header data c :
  (IDLEN * 2 <= length header)%nat ->
  utf8_decode (header_topic header) = Some "ECHO"%string ->
  _process_data_message utf8_decode py_str header (Some data) c
  = (c, [Dispatched "ECHO" (echo_args py_str data (header_sender header)) []]).
Proof.
  intros Hl Ht. unfold _process_data_message.
  destruct (Nat.ltb_spec (length header) (IDLEN * 2)); [lia|].
  fold (header_topic header). rewrite Ht. reflexivity.
Qed.

(** C7, amended. For a data frame on the ECHO topic the callback is
    dispatched once, with these positional arguments: the elements of the
    payload as they are for a sequence of three or more elements (so more
    than three arguments for a longer sequence), the two elements and the
    sender of the frame for a sequence of two, the element, 0 and the
    sender for a sequence of one, the empty text, 0 and the sender for an
    empty sequence; text, flags and sender of a mapping, with the empty
    text, 0 and the sender of the frame for what is missing; and for any
    other payload its string form, 0 and the sender. The arguments are a
    triple exactly when the payload is not a sequence of more than three
    elements. *)
Theorem echo_payload_normalised :
  forall (utf8_decode : bytes -> option string) (py_str : pyval -> string)
         (header : bytes) (data : pyval) (c : client),
    (IDLEN * 2 <= length header)%nat ->
    utf8_decode (header_topic header) = Some "ECHO"%string ->
    let sender := VBytes (header_sender header) in
    exists args,
      _process_data_message utf8_decode py_str header (Some data) c
      = (c, [Dispatched "ECHO" args []])
      /\ match data with
         | VList [] => args = [VStr EmptyString; VInt 0; sender]
         | VList [text] => args = [text; VInt 0; sender]
         | VList [text; flags] => args = [text; flags; sender]
         | VList l => args = l
         | VDict d =>
             args = [match dict_get "text" d with
                     | Some v => v | None => VStr EmptyString end;
                     match dict_get "flags" d with
                     | Some v => v | None => VInt 0 end;
                     match dict_get "sender_id" d with
                     | Some v => v | None => sender end]
         | _ => args = [VStr (py_str data); VInt 0; sender]
         end
      /\ (length args = 3%nat
          <-> match data with
              | VList l => (length l <= 3)%nat
              | _ => True
              end).
Proof.
  intros utf8_decode py_str header data c Hl Ht sender.
  exists (echo_args py_str data (header_sender header)).
  split; [apply echo_dispatch; assumption|].
  split.
  - destruct data as [| | | | | |l|d]; try reflexivity.
    destruct l as [|a [|b [|x l]]]; reflexivity.
  - destruct data as [| | | | | |l|d]; simpl; try tauto.
    destruct l as [|a [|b [|x [|y l]]]]; simpl; split; intros; try reflexivity;
      try lia; try discriminate.
Qed.

Lemma echo_payload_normalised_witness :
  exists args,
    _process_data_message ascii_decode sample_str sample_header
      (Some (VList [VStr "ok"])) sample_start
    = (sample_start, [Dispatched "ECHO" args []])
    /\ args = [VStr "ok"; VInt 0; VBytes (header_sender sample_header)].
Proof.
  destruct (@echo_payload_normalised ascii_decode sample_str sample_header
              (VList [VStr "ok"]) sample_start)
    as (args & E & Hargs & _).
  - vm_compute. lia.
  - reflexivity.
  - exists args. split; [exact E | exact Hargs].
Defined.

(** C7, as stated: the callback always receives exactly a triple. A
    sequence of four elements is dispatched as four arguments. *)
Lemma echo_long_sequence_counterexample :
  ~ (forall (utf8_decode : bytes -> option string)
            (py_str : pyval -> string) (header : bytes) (data : pyval)
            (c : client),
        (IDLEN * 2 <= length header)%nat ->
        utf8_decode (header_topic header) = Some "ECHO"%string ->
        exists text flags sender,
          _process_data_message utf8_decode py_str header (Some data) c
          = (c, [Dispatched "ECHO" [text; flags; sender] []])).
Proof.
  intros H.
  destruct (H ascii_decode sample_str sample_header
              (VList [VStr "ok"; VInt 0; VBytes sample_node1; VInt 7])
              sample_start)
    as (text & flags & sender & E).
  - vm_compute. lia.
  - reflexivity.
  - vm_compute in E. discriminate E.
Qed.

(** C5, as stated: on one client state the keys of the two operations
    agree. For a topic already bound to the active node, a subscription
    that is not active-only takes the simulation group for the default
    source, and the unsubscription takes the active node. *)
Lemma subscribe_key_counterexample :
  ~ (forall (c : client) (topic : string) (from_group : pyid)
            (to_group : addr) (actonly : bool),
        key_of (_subscribe topic from_group to_group actonly c)
        = key_of (_unsubscribe topic from_group to_group c)).
Proof.
  intros H.
  specialize (H sample_client "ACDATA"%string (PInt GROUPID_DEFAULT)
                (AStr EmptyString) false).
  vm_compute in H. discriminate H.
Qed.

Lemma subscribe_unsubscribe_same_key_witness :
  key_of (_subscribe "ACDATA" (PInt GROUPID_DEFAULT) (AStr EmptyString) true
            sample_client)
  = key_of (_unsubscribe "ACDATA" (PInt GROUPID_DEFAULT) (AStr EmptyString)
              sample_client)
  /\ key_of (_subscribe "ACDATA" (PInt GROUPID_DEFAULT) (AStr EmptyString)
               true sample_client)
     = Some (repeat wildcard IDLEN ++ list_byte_of_string "ACDATA"
             ++ sample_node1).
Proof.
  destruct (@subscribe_unsubscribe_same_key sample_client
              "ACDATA"%string (PInt GROUPID_DEFAULT) (AStr EmptyString)
              true) as (Hs & _ & He).
  split; [exact (He (or_intror eq_refl))|].
  apply Hs. split; [reflexivity|].
  exists (PBytes sample_node1), sample_node1. repeat split.
Defined.

Lemma signal_connect_known cb l : In cb l -> signal_connect cb l = l.
Proof.
  intros H. unfold signal_connect.
  destruct (in_dec slot_eq_dec cb l); [reflexivity | contradiction].
Qed.

Lemma signal_connect_new cb l : ~ In cb l -> signal_connect cb l = l ++ [cb].
Proof.
  intros H. unfold signal_connect.
  destruct (in_dec slot_eq_dec cb l); [contradiction | reflexivity].
Qed.

Lemma signal_disconnect_absent cb l :
  ~ In cb l -> signal_disconnect cb l = l.
Proof.
  induction l as [|x rest IH]; intros Hn; simpl; [reflexivity|].
  destruct (slot_eq_dec cb x) as [->|Hne];
    [exfalso; apply Hn; left; reflexivity|].
  rewrite IH; [reflexivity|]. intros H. apply Hn. right. exact H.
Qed.

Lemma signal_disconnect_last cb l :
  ~ In cb l -> signal_disconnect cb (l ++ [cb]) = l.
Proof.
  induction l as [|x rest IH]; intros Hn; simpl.
  - destruct (slot_eq_dec cb cb); [reflexivity | congruence].
  - destruct (slot_eq_dec cb x) as [->|Hne];
      [exfalso; apply Hn; left; reflexivity|].
    rewrite IH; [reflexivity|]. intros H. apply Hn. right. exact H.
Qed.

Lemma signal_disconnect_others cb other l :
  other <> cb -> (In other (signal_disconnect cb l) <-> In other l).
Proof.
  intros Hne. induction l as [|x rest IH]; simpl; [tauto|].
  destruct (slot_eq_dec cb x) as [->|Hx]; simpl; intuition congruence.
Qed.

(** X1. [BlueSkySignal.connect] and [disconnect]. Connecting a callback
    registers it, once: connecting again changes nothing and a list
    without repetitions stays so. Disconnecting a callback of such a list
    removes it; disconnecting one that is not registered changes nothing,
    and disconnecting after connecting a new callback gives the list back.
    The other callbacks are never touched. *)
Theorem signal_registrations (cb : slot) (l : list slot) :
  In cb (signal_connect cb l)
  /\ signal_connect cb (signal_connect cb l) = signal_connect cb l
  /\ (NoDup l ->
      NoDup (signal_connect cb l) /\ ~ In cb (signal_disconnect cb l))
  /\ (~ In cb l ->
      signal_disconnect cb l = l
      /\ signal_disconnect cb (signal_connect cb l) = l)
  /\ (forall other, other <> cb ->
        (In other (signal_connect cb l) <-> In other l)
        /\ (In other (signal_disconnect cb l) <-> In other l)).
Proof.
  assert (Hin : In cb (signal_connect cb l)).
  { destruct (in_dec slot_eq_dec cb l) as [H|H].
    - rewrite signal_connect_known; assumption.
    - rewrite signal_connect_new by exact H.
      apply in_or_app. right. left. reflexivity. }
  split; [exact Hin|]. split; [apply signal_connect_known; exact Hin|].
  split; [|split].
  - intros Hnd. split; [apply signal_connect_NoDup; exact Hnd|].
    apply signal_disconnect_removes. exact Hnd.
  - intros Hn. split; [apply signal_disconnect_absent; exact Hn|].
    rewrite signal_connect_new by exact Hn.
    apply signal_disconnect_last. exact Hn.
  - intros other Hne. split; [|apply signal_disconnect_others; exact Hne].
    destruct (in_dec slot_eq_dec cb l) as [H|H].
    + rewrite signal_connect_known by exact H. tauto.
    + rewrite signal_connect_new by exact H. rewrite in_app_iff. simpl.
      intuition congruence.
Qed.

(** ** Identities *)

Lemma replace_wildcard_free b :
  Forall (fun x => x <> wildcard) (replace_wildcard b).
Proof.
  unfold replace_wildcard. induction b as [|x rest IH]; simpl;
    constructor; [|exact IH].
  destruct (Byte.eqb x wildcard) eqn:E.
  - discriminate.
  - apply Byte.eqb_false. exact E.
Qed.

Lemma last_byte_val_app b x : last_byte_val (b ++ [x]) = byte_val x.
Proof. unfold last_byte_val. rewrite rev_app_distr. reflexivity. Qed.

(** X2. [genid] for a group tag shorter than an identity. The identity
    starts with the group bytes, the bytes drawn to fill it up to the last
    position never hold the wildcard, and the last byte is the sequence
    byte: [seqid2idx] of it gives the sequence index back (for the indices
    from -1 to 127). *)
Theorem genid_layout (entropy : nat -> byte) (g : pyid) (seqidx : Z)
    (group_bytes id : bytes) :
  asbytestr g = Some group_bytes ->
  (length group_bytes < IDLEN)%nat ->
  -1 <= seqidx <= 127 ->
  genid entropy g seqidx = Some id ->
  firstn (length group_bytes) id = group_bytes
  /\ Forall (fun x => x <> wildcard)
       (skipn (length group_bytes) (removelast id))
  /\ seqid2idx (SeqInt (last_byte_val id)) = Some seqidx.
Proof.
  intros Hg Hlen Hs. unfold genid. rewrite Hg.
  destruct (Nat.leb_spec IDLEN (length group_bytes)) as [H|_]; [lia|].
  unfold seqidx2id.
  destruct (@chr_charmap_some (128 + seqidx)) as [b [Eb Vb]]; [lia|].
  rewrite Eb. intros E.
  destruct (Nat.ltb_spec (length group_bytes) (IDLEN - 1)) as [Hshort|Hfull];
    match type of E with Some ?x = _ => assert (id = x) as -> by congruence end.
  - rewrite <- app_assoc.
    rewrite firstn_app, firstn_all, Nat.sub_diag. cbn [firstn].
    rewrite app_nil_r. split; [reflexivity|].
    rewrite app_assoc, removelast_last, last_byte_val_app.
    rewrite skipn_app, skipn_all, Nat.sub_diag. cbn [skipn app].
    split; [apply replace_wildcard_free|].
    cbn [seqid2idx]. rewrite Vb. f_equal. lia.
  - rewrite firstn_app, firstn_all, Nat.sub_diag. cbn [firstn].
    rewrite app_nil_r. split; [reflexivity|].
    rewrite removelast_last, last_byte_val_app, skipn_all.
    split; [constructor|].
    cbn [seqid2idx]. rewrite Vb. f_equal. lia.
Qed.

Lemma genid_layout_witness :
  firstn 1 ["C"; "_"; "_"; "_"; x81]%byte = ["C"]%byte
  /\ Forall (fun x => x <> wildcard)
       (skipn 1 (removelast ["C"; "_"; "_"; "_"; x81]%byte))
  /\ seqid2idx (SeqInt (last_byte_val ["C"; "_"; "_"; "_"; x81]%byte))
     = Some 1.
Proof.
  apply (@genid_layout (fun _ => "*"%byte) (PInt GROUPID_CLIENT) 1
           ["C"]%byte ["C"; "_"; "_"; "_"; x81]%byte).
  - reflexivity.
  - unfold IDLEN. simpl. lia.
  - lia.
  - vm_compute. reflexivity.
Defined.

(** ** Life cycle *)

Lemma release_nothing fault : release fault no_sockets = no_sockets.
Proof. destruct fault; reflexivity. Qed.

(** X4. [close]. Whatever goes wrong while the sockets are released, the
    client ends not running and not connected, knows no node and no server,
    has no active node and no active-only binding, and keeps its identity,
    its signals and its subscribers. From then on it sends nothing, hands no
    control frame on and refuses every node as active node. When nothing
    went wrong no socket is left, and closing again changes nothing. *)
Theorem close_leaves_client_idle (fault : close_fault) (c : client) :
  let c' := close fault c in
  running c' = false /\ connected c' = false
  /\ nodes c' = [] /\ servers c' = [] /\ acttopics c' = []
  /\ act_id c' = None
  /\ node_id c' = node_id c /\ sigs c' = sigs c
  /\ subscribers c' = subscribers c
  /\ (forall topic data to_group,
        send topic data to_group c' = (c', [], false))
  /\ (forall frame, run_op (OpControlFrame frame) c' = (c', []))
  /\ (forall newact, snd (actnode (Some newact) c') = None)
  /\ (fault = CloseClean -> socks c' = no_sockets)
  /\ (forall again, close again (close CloseClean c) = close CloseClean c).
Proof.
  cbv zeta. repeat (split; [reflexivity|]).
  split; [|split].
  - intros [|x newact]; reflexivity.
  - intros ->. reflexivity.
  - intros again. unfold close. cbn. rewrite release_nothing. reflexivity.
Qed.

(** X3. [connect]. It returns true exactly when every step succeeded.
    Then the client is running and connected with all four resources, and
    the one thing sent is the subscription to its own identity: the
    identity padded to [IDLEN] with the wildcard, with empty topic and
    source. When a step failed the client was closed: it is not running,
    and nothing was sent. *)
Theorem connect_outcome (r : connect_result) (fault : close_fault)
    (c : client) :
  let res := connect r fault c in
  (snd res = true <-> r = ConnectOk)
  /\ (r = ConnectOk ->
      running (fst (fst res)) = true /\ connected (fst (fst res)) = true
      /\ socks (fst (fst res))
         = {| zmq_context := true; sock_recv := true; sock_send := true;
              poller := true |}
      /\ snd (fst res)
         = [SetSockOpt SUBSCRIBE (ljust (node_id c) IDLEN wildcard)])
  /\ (r <> ConnectOk ->
      fst (fst res) = close fault (set_socks (opened r (socks c)) c)
      /\ running (fst (fst res)) = false
      /\ snd (fst res) = []).
Proof.
  cbv zeta. split; [|split].
  - destruct r; cbn; split; intros H; try reflexivity; discriminate.
  - intros ->. cbn. rewrite app_nil_r. repeat split.
  - destruct r; intros H; try congruence; repeat split.
Qed.

Lemma process_subscription_announced frame c :
  _process_subscription_message frame c
  = match announced frame with
    | Some (NodeUp sender_id) =>
        if mem_bytes sender_id (nodes c) then (c, [])
        else
          let c1 := set_nodes (nodes c ++ [sender_id]) c in
          if bytes_eqb sender_id (node_id c) then (c1, [])
          else emit_node_added sender_id c1
    | Some (ServerUp sender_id) =>
        if mem_bytes sender_id (servers c) then (c, [])
        else
          (set_servers (servers c ++ [sender_id]) c,
           map (fun n => Invoked SigServerAdded n sender_id)
             (server_added (sigs c)))
    | Some (NodeDown sender_id) =>
        if mem_bytes sender_id (nodes c) then
          (set_nodes (discard_bytes sender_id (nodes c)) c,
           map (fun n => Invoked SigNodeRemoved n sender_id)
             (node_removed (sigs c)))
        else (c, [])
    | Some (ServerDown sender_id) =>
        if mem_bytes sender_id (servers c) then
          (set_servers (discard_bytes sender_id (servers c)) c,
           map (fun n => Invoked SigServerRemoved n sender_id)
             (server_removed (sigs c)))
        else (c, [])
    | None => (c, [])
    end.
Proof.
  unfold _process_subscription_message, announced.
  destruct frame as [|kind sender_id]; [reflexivity|].
  cbn [length]. change (S (length sender_id) =? IDLEN + 1)%nat
    with (length sender_id =? 4 + 1)%nat.
  change (length sender_id =? IDLEN)%nat with (length sender_id =? 5)%nat.
  change (4 + 1)%nat with 5%nat.
  destruct (length sender_id =? 5)%nat; cbn [negb andb]; [|reflexivity].
  cbn [seqid2idx]. unfold sim_group.
  destruct sender_id as [|group rest]; [reflexivity|].
  destruct ((byte_val group =? GROUPID_SIM)
            || (byte_val group =? GROUPID_NOGROUP)); [|reflexivity].
  set (v := last_byte_val (group :: rest)).
  assert (Hpos : (0 <? Z.max (-1) (v - 128)) = (128 <? v)).
  { destruct (Z.ltb_spec 128 v), (Z.ltb_spec 0 (Z.max (-1) (v - 128)));
      try reflexivity; lia. }
  assert (Hzero : (128 <? v) = false ->
                  (Z.max (-1) (v - 128) =? 0) = (v =? 128)).
  { intros H. apply Z.ltb_ge in H.
    destruct (Z.eqb_spec v 128), (Z.eqb_spec (Z.max (-1) (v - 128)) 0);
      try reflexivity; lia. }
  rewrite Hpos.
  destruct (byte_val kind =? MSG_SUBSCRIBE).
  - destruct (128 <? v) eqn:E.
    + unfold set_add_bytes.
      destruct (mem_bytes (group :: rest) (nodes c)); cbn [negb];
        [reflexivity|].
      cbn [node_id set_nodes]. destruct (bytes_eqb (group :: rest) (node_id c));
        reflexivity.
    + rewrite (Hzero eq_refl). destruct (v =? 128); [|reflexivity].
      unfold set_add_bytes.
      destruct (mem_bytes (group :: rest) (servers c)); cbn [negb];
        [reflexivity|].
      rewrite emit_external_calls. reflexivity.
  - destruct (byte_val kind =? MSG_UNSUBSCRIBE); [|reflexivity].
    destruct (128 <? v) eqn:E.
    + destruct (mem_bytes (group :: rest) (nodes c)); [|reflexivity].
      rewrite emit_external_calls. reflexivity.
    + rewrite (Hzero eq_refl). destruct (v =? 128); [|reflexivity].
      destruct (mem_bytes (group :: rest) (servers c)); [|reflexivity].
      rewrite emit_external_calls. reflexivity.
Qed.

Lemma mem_bytes_In x l : mem_bytes x l = true <-> In x l.
Proof.
  unfold mem_bytes. destruct (in_dec bytes_eq_dec x l); split; intros H;
    try assumption; try reflexivity; try discriminate; contradiction.
Qed.

Lemma mem_bytes_not_In x l : mem_bytes x l = false <-> ~ In x l.
Proof.
  unfold mem_bytes. destruct (in_dec bytes_eq_dec x l); split; intros H;
    try assumption; try reflexivity; try discriminate; contradiction.
Qed.

Lemma bytes_eqb_eq x y : bytes_eqb x y = true <-> x = y.
Proof.
  unfold bytes_eqb. destruct (bytes_eq_dec x y); split; intros H;
    try assumption; try reflexivity; try discriminate; contradiction.
Qed.

Lemma discard_bytes_In x y l :
  In y (discard_bytes x l) <-> In y l /\ y <> x.
Proof.
  unfold discard_bytes. rewrite filter_In. split; intros [H1 H2];
    (split; [exact H1|]).
  - intros ->. rewrite (proj2 (bytes_eqb_eq x x) eq_refl) in H2.
    discriminate.
  - destruct (bytes_eqb x y) eqn:E; [|reflexivity].
    apply bytes_eqb_eq in E. congruence.
Qed.

Lemma discard_bytes_NoDup x l : NoDup l -> NoDup (discard_bytes x l).
Proof. apply NoDup_filter. Qed.

Lemma discard_bytes_last x l :
  ~ In x l -> discard_bytes x (l ++ [x]) = l.
Proof.
  intros Hn. unfold discard_bytes. rewrite filter_app. cbn [filter].
  rewrite (proj2 (bytes_eqb_eq x x) eq_refl). cbn [negb].
  rewrite app_nil_r. apply forallb_filter_id. apply forallb_forall.
  intros y Hy. destruct (bytes_eqb x y) eqn:E; [|reflexivity].
  apply bytes_eqb_eq in E. congruence.
Qed.

Lemma actnode_known_sets newact c :
  nodes (fst (fst (actnode newact c))) = nodes c
  /\ servers (fst (fst (actnode newact c))) = servers c
  /\ node_id (fst (fst (actnode newact c))) = node_id c.
Proof.
  destruct (actnode_state newact c) as [E|[E|(x & id & E)]]; rewrite E;
    unfold auto_select_dropped; destruct (act_id c); repeat split.
Qed.

Lemma emit_node_added_known_sets arg c :
  nodes (fst (emit_node_added arg c)) = nodes c
  /\ servers (fst (emit_node_added arg c)) = servers c
  /\ node_id (fst (emit_node_added arg c)) = node_id c.
Proof.
  apply (@emit_node_added_state
           (fun c' => nodes c' = nodes c /\ servers c' = servers c
                      /\ node_id c' = node_id c)).
  - intros newact c' (H1 & H2 & H3).
    destruct (actnode_known_sets newact c') as (A1 & A2 & A3).
    repeat split; congruence.
  - repeat split.
Qed.

Lemma announced_identity frame :
  match announced frame with
  | Some (NodeUp s) | Some (NodeDown s) => node_identity s
  | Some (ServerUp s) | Some (ServerDown s) => server_identity s
  | None => True
  end.
Proof.
  unfold announced, node_identity, server_identity.
  destruct frame as [|kind s]; [exact I|].
  destruct (Nat.eqb_spec (length s) IDLEN) as [Hl|]; cbn [andb]; [|exact I].
  destruct (sim_group s) eqn:Hg; [|exact I].
  destruct (byte_val kind =? MSG_SUBSCRIBE);
    [|destruct (byte_val kind =? MSG_UNSUBSCRIBE); [|exact I]];
    (destruct (Z.ltb_spec 128 (last_byte_val s));
     [repeat split; assumption|];
     destruct (Z.eqb_spec (last_byte_val s) 128); [|exact I];
     repeat split; assumption).
Qed.

(** X5. Control frames, taken twice and taken back. Handling the same
    frame a second time right away changes nothing and calls nothing: a
    node or server announced twice is added once, one withdrawn twice is
    removed once. A frame that announces nothing (wrong length, other
    group, other kind) is ignored. The withdrawal of a node removes it
    from the known nodes but leaves the active node as it was, also when
    that is the node withdrawn. *)
Theorem control_frames_settle (frame : bytes) (c : client) :
  let c1 := fst (_process_subscription_message frame c) in
  _process_subscription_message frame c1 = (c1, [])
  /\ (announced frame = None ->
      _process_subscription_message frame c = (c, []))
  /\ (forall sender_id,
        announced frame = Some (NodeDown sender_id) ->
        ~ In sender_id (nodes c1) /\ act_id c1 = act_id c).
Proof.
  cbv zeta. rewrite !process_subscription_announced.
  pose proof (announced_identity frame) as Hid.
  destruct (announced frame) as [[s|s|s|s]|].
  - split; [|split; [discriminate|discriminate]].
    destruct (mem_bytes s (nodes c)) eqn:E; cbn [fst];
      [rewrite E; reflexivity|].
    cbv zeta.
    assert (Hin : mem_bytes s (nodes c ++ [s]) = true)
      by (apply mem_bytes_In, in_or_app; right; left; reflexivity).
    destruct (bytes_eqb s (node_id c)); cbn [fst].
    + cbn [nodes set_nodes]. rewrite Hin. reflexivity.
    + destruct (emit_node_added_known_sets s
                  (set_nodes (nodes c ++ [s]) c)) as (A1 & _ & _).
      rewrite A1. cbn [nodes set_nodes]. rewrite Hin. reflexivity.
  - split; [|split; [discriminate|discriminate]].
    destruct (mem_bytes s (servers c)) eqn:E; cbn [fst];
      [rewrite E; reflexivity|].
    cbn [servers set_servers].
    rewrite (proj2 (mem_bytes_In s (servers c ++ [s])));
      [reflexivity | apply in_or_app; right; left; reflexivity].
  - assert (Hout : ~ In s (discard_bytes s (nodes c)))
      by (rewrite discard_bytes_In; tauto).
    split; [|split; [discriminate|]].
    + destruct (mem_bytes s (nodes c)) eqn:E; cbn [fst];
        [|rewrite E; reflexivity].
      cbn [nodes set_nodes].
      rewrite (proj2 (mem_bytes_not_In s _) Hout). reflexivity.
    + intros sender_id [= <-].
      destruct (mem_bytes s (nodes c)) eqn:E; cbn [fst].
      * split; [exact Hout | reflexivity].
      * split; [apply mem_bytes_not_In; exact E | reflexivity].
  - split; [|split; [discriminate|discriminate]].
    assert (Hout : ~ In s (discard_bytes s (servers c)))
      by (rewrite discard_bytes_In; tauto).
    destruct (mem_bytes s (servers c)) eqn:E; cbn [fst];
      [|rewrite E; reflexivity].
    cbn [servers set_servers].
    rewrite (proj2 (mem_bytes_not_In s _) Hout). reflexivity.
  - split; [reflexivity|]. split; [reflexivity | discriminate].
Qed.

(** ** What every reachable client satisfies *)

Lemma process_subscription_known_sets frame c :
  known_sets_ok c ->
  known_sets_ok (fst (_process_subscription_message frame c)).
Proof.
  intros (Hn & Hs & Fn & Fs). rewrite process_subscription_announced.
  pose proof (announced_identity frame) as Hid.
  unfold known_sets_ok.
  destruct (announced frame) as [[s|s|s|s]|]; cbn [fst].
  - destruct (mem_bytes s (nodes c)) eqn:E; cbn [fst]; [tauto|].
    apply mem_bytes_not_In in E. cbv zeta.
    assert (H : known_sets_ok (set_nodes (nodes c ++ [s]) c)).
    { unfold known_sets_ok. cbn [nodes servers set_nodes].
      split; [|split; [exact Hs|split; [|exact Fs]]].
      - apply NoDup_app; [exact Hn | constructor; [intros [] | constructor] |].
        intros a Ha [<-|[]]. contradiction.
      - apply Forall_app.
        split; [exact Fn | constructor; [exact Hid | constructor]]. }
    destruct (bytes_eqb s (node_id c)); cbn [fst]; [exact H|].
    destruct (emit_node_added_known_sets s (set_nodes (nodes c ++ [s]) c))
      as (A1 & A2 & _).
    rewrite A1, A2. exact H.
  - destruct (mem_bytes s (servers c)) eqn:E; cbn [fst]; [tauto|].
    apply mem_bytes_not_In in E. cbn [nodes servers set_servers].
    split; [exact Hn|]. split; [|split; [exact Fn|]].
    + apply NoDup_app; [exact Hs | constructor; [intros [] | constructor] |].
      intros a Ha [<-|[]]. contradiction.
    + apply Forall_app.
      split; [exact Fs | constructor; [exact Hid | constructor]].
  - destruct (mem_bytes s (nodes c)); cbn [fst nodes servers set_nodes];
      [|tauto].
    split; [apply discard_bytes_NoDup; exact Hn|]. split; [exact Hs|].
    split; [|exact Fs]. apply Forall_forall. intros y Hy.
    apply discard_bytes_In in Hy. rewrite Forall_forall in Fn.
    apply Fn. tauto.
  - destruct (mem_bytes s (servers c)); cbn [fst nodes servers set_servers];
      [|tauto].
    split; [exact Hn|]. split; [apply discard_bytes_NoDup; exact Hs|].
    split; [exact Fn|]. apply Forall_forall. intros y Hy.
    apply discard_bytes_In in Hy. rewrite Forall_forall in Fs.
    apply Fs. tauto.
  - tauto.
Qed.

Lemma known_sets_same c c' :
  nodes c' = nodes c -> servers c' = servers c ->
  known_sets_ok c -> known_sets_ok c'.
Proof. unfold known_sets_ok. intros -> ->. tauto. Qed.

Lemma known_sets_none c :
  nodes c = [] -> servers c = [] -> known_sets_ok c.
Proof.
  unfold known_sets_ok. intros -> ->. repeat split; constructor.
Qed.

Lemma run_op_known_sets o c :
  known_sets_ok c -> known_sets_ok (fst (run_op o c)).
Proof.
  intros H. destruct o; cbn [run_op].
  - unfold connect. destruct r; cbn [fst];
      try (apply known_sets_none; reflexivity).
    rewrite (surjective_pairing (_subscribe _ _ _ _ _)). cbn [fst].
    rewrite subscribe_explicit_state by reflexivity.
    eapply known_sets_same; [| |exact H]; reflexivity.
  - apply known_sets_none; reflexivity.
  - destruct (running c && connected c && poller (socks c)); [|exact H].
    apply process_subscription_known_sets. exact H.
  - destruct (running c && connected c && poller (socks c)); [|exact H].
    apply process_data_state; [|exact H]. intros k c' H'.
    eapply known_sets_same; [| |exact H']; reflexivity.
  - unfold subscribe.
    destruct (subscribe_state topic (PInt GROUPID_DEFAULT) (AStr EmptyString)
                actonly
                (set_subscribers (subscribers_add topic callback
                                    (subscribers c)) c)) as [E|E];
      rewrite E; (eapply known_sets_same; [| |exact H]; reflexivity).
  - destruct (subscribe_state topic from_group to_group actonly c) as [E|E];
      rewrite E; (eapply known_sets_same; [| |exact H]; reflexivity).
  - destruct (unsubscribe_state topic from_group to_group c) as [E|E];
      rewrite E; (eapply known_sets_same; [| |exact H]; reflexivity).
  - destruct (actnode_known_sets newact c) as (A1 & A2 & _).
    eapply known_sets_same; [exact A1 | exact A2 | exact H].
  - rewrite send_state. exact H.
  - exact H.
  - exact H.
  - exact H.
  - exact H.
Qed.

Lemma run_op_node_id o c : node_id (fst (run_op o c)) = node_id c
                           /\ server_id (fst (run_op o c)) = server_id c.
Proof.
  assert (Hact : forall newact c',
             node_id (fst (fst (actnode newact c'))) = node_id c'
             /\ server_id (fst (fst (actnode newact c'))) = server_id c').
  { intros newact c'.
    destruct (actnode_state newact c') as [E|[E|(x & id & E)]]; rewrite E;
      unfold auto_select_dropped; destruct (act_id c'); split; reflexivity. }
  destruct o; cbn [run_op].
  - unfold connect. destruct r; cbn [fst]; split; reflexivity.
  - split; reflexivity.
  - destruct (running c && connected c && poller (socks c));
      [|split; reflexivity].
    apply (@process_subscription_state
             (fun c' => node_id c' = node_id c
                        /\ server_id c' = server_id c)).
    + intros newact c' [H1 H2]. destruct (Hact newact c') as [A1 A2].
      split; congruence.
    + intros v c' H. exact H.
    + intros v c' H. exact H.
    + split; reflexivity.
  - destruct (running c && connected c && poller (socks c));
      [|split; reflexivity].
    apply (@process_data_state
             (fun c' => node_id c' = node_id c
                        /\ server_id c' = server_id c)).
    + intros k c' H. exact H.
    + split; reflexivity.
  - unfold subscribe.
    destruct (subscribe_state topic (PInt GROUPID_DEFAULT) (AStr EmptyString)
                actonly
                (set_subscribers (subscribers_add topic callback
                                    (subscribers c)) c)) as [E|E];
      rewrite E; split; reflexivity.
  - destruct (subscribe_state topic from_group to_group actonly c) as [E|E];
      rewrite E; split; reflexivity.
  - destruct (unsubscribe_state topic from_group to_group c) as [E|E];
      rewrite E; split; reflexivity.
  - apply Hact.
  - rewrite send_state. split; reflexivity.
  - split; reflexivity.
  - split; reflexivity.
  - split; reflexivity.
  - split; reflexivity.
Qed.

Lemma run_ops_node_id os : forall c,
  node_id (fst (run_ops os c)) = node_id c
  /\ server_id (fst (run_ops os c)) = server_id c.
Proof.
  induction os as [|o rest IH]; intros c; [split; reflexivity|].
  cbn [run_ops]. destruct (run_op_node_id o c) as [A1 A2].
  destruct (run_op o c) as [c1 e1]. cbn [fst] in A1, A2.
  destruct (IH c1) as [B1 B2]. destruct (run_ops rest c1) as [c2 e2].
  cbn [fst] in *. split; congruence.
Qed.

Lemma new_client_identities entropy group c0 :
  new_client entropy group = Some c0 -> identities_ok c0.
Proof.
  unfold new_client. intros Hnew.
  destruct (genid entropy group 1) as [id|] eqn:Eg; [|discriminate].
  destruct (asbytestr group); [|discriminate].
  change (seqidx2id 0) with (Some [x80]%byte) in Hnew.
  injection Hnew as <-. unfold identities_ok. cbn [node_id server_id].
  split; [eapply genid_length; exact Eg|]. split; [reflexivity|].
  apply known_sets_none; reflexivity.
Qed.

Lemma run_ops_identities os : forall c,
  identities_ok c -> identities_ok (fst (run_ops os c)).
Proof.
  induction os as [|o rest IH]; intros c H; [exact H|].
  cbn [run_ops]. destruct (run_op o c) as [c1 e1] eqn:E1.
  specialize (IH c1). destruct (run_ops rest c1) as [c2 e2]. cbn [fst] in *.
  apply IH. destruct H as (L & S & K).
  destruct (run_op_node_id o c) as [A1 A2].
  pose proof (run_op_known_sets o K) as K1.
  rewrite E1 in A1, A2, K1. cbn [fst] in A1, A2, K1.
  unfold identities_ok. rewrite A1, A2. auto.
Qed.

(** X6. Every client that can be reached from a fresh one. Its identity
    has [IDLEN] bytes and never changes, whatever happens to the client
    later, and its server address is the identity with the sequence byte
    of index 0 in the last place, and does not change either. The nodes it
    knows are distinct identities of [IDLEN] bytes of a simulation group
    with a positive sequence index, the servers it knows distinct such
    identities with index 0. *)
Theorem reachable_client_identities (c : client) :
  reachable c ->
  length (node_id c) = IDLEN
  /\ server_id c = removelast (node_id c) ++ [x80]%byte
  /\ known_sets_ok c
  /\ forall os : list op,
       node_id (fst (run_ops os c)) = node_id c
       /\ server_id (fst (run_ops os c)) = server_id c.
Proof.
  intros (entropy & group & c0 & os & Hnew & <-).
  destruct (run_ops_identities os (new_client_identities _ _ Hnew))
    as (L & S & K).
  split; [exact L|]. split; [exact S|]. split; [exact K|].
  intros os'. apply run_ops_node_id.
Qed.

Lemma reachable_client_identities_witness :
  length (node_id sample_busy_client) = IDLEN
  /\ server_id sample_busy_client
     = removelast (node_id sample_busy_client) ++ [x80]%byte
  /\ known_sets_ok sample_busy_client
  /\ forall os : list op,
       node_id (fst (run_ops os sample_busy_client))
       = node_id sample_busy_client
       /\ server_id (fst (run_ops os sample_busy_client))
          = server_id sample_busy_client.
Proof.
  exact (reachable_client_identities sample_busy_client_reachable).
Defined.

(** ** A frame from one client to another *)





(** ** Active-only bindings *)

Lemma discard_addr_absent g gs :
  ~ In g gs -> discard_addr g gs = gs.
Proof.
  intros H. unfold discard_addr. induction gs as [|x gs IH]; [reflexivity|].
  cbn [filter]. destruct (addr_eq_dec g x) as [->|_].
  - exfalso. apply H. left. reflexivity.
  - f_equal. apply IH. intros Hin. apply H. right. exact Hin.
Qed.

Lemma discard_addr_added g gs :
  ~ In g gs -> discard_addr g (set_add_addr g gs) = gs.
Proof.
  intros H. unfold set_add_addr, mem_addr.
  destruct (in_dec addr_eq_dec g gs) as [Hin|_]; [contradiction|].
  unfold discard_addr. rewrite filter_app. cbn [filter].
  destruct (addr_eq_dec g g) as [_|Hne]; [|contradiction].
  rewrite app_nil_r. apply discard_addr_absent. exact H.
Qed.

Lemma registry_add_mem t g reg :
  registry_mem t (registry_add t g reg) = true.
Proof.
  induction reg as [|[t0 gs] reg IH]; cbn [registry_add registry_mem].
  - rewrite string_eqb_refl. reflexivity.
  - destruct (string_eqb t t0) eqn:E; cbn [registry_mem]; rewrite E.
    + reflexivity.
    + exact IH.
Qed.

Lemma registry_add_In t g reg :
  In (t, g) (registry_pairs (registry_add t g reg)).
Proof.
  unfold registry_pairs.
  induction reg as [|[t0 gs] reg IH]; cbn [registry_add flat_map fst snd map].
  - left. reflexivity.
  - destruct (string_eqb t t0) eqn:E; cbn [flat_map fst snd];
      apply in_or_app.
    + apply string_eqb_true in E. subst t0. left.
      apply in_map. unfold set_add_addr, mem_addr.
      destruct (in_dec addr_eq_dec g gs) as [Hin|_]; [exact Hin|].
      apply in_or_app. right. left. reflexivity.
    + right. exact IH.
Qed.

Lemma registry_add_discard t g reg :
  ~ In (t, g) (registry_pairs reg) ->
  registry_pairs (registry_discard t g (registry_add t g reg))
  = registry_pairs reg.
Proof.
  unfold registry_pairs.
  induction reg as [|[t0 gs] reg IH]; intros H;
    cbn [registry_add registry_discard flat_map fst snd map].
  - rewrite string_eqb_refl. cbn [flat_map fst snd map].
    unfold discard_addr. cbn [filter].
    destruct (addr_eq_dec g g) as [_|Hne]; [reflexivity | contradiction].
  - cbn [flat_map fst snd] in H.
    destruct (string_eqb t t0) eqn:E; cbn [registry_discard]; rewrite E;
      cbn [flat_map fst snd].
    + apply string_eqb_true in E. subst t0.
      rewrite discard_addr_added; [reflexivity|].
      intros Hin. apply H. apply in_or_app. left.
      apply (in_map (fun g0 => (t, g0))). exact Hin.
    + f_equal. apply IH. intros Hin. apply H. apply in_or_app. right.
      exact Hin.
Qed.

Lemma registry_add_again t g reg :
  registry_add t g (registry_add t g reg) = registry_add t g reg.
Proof.
  induction reg as [|[t0 gs] reg IH]; cbn [registry_add].
  - rewrite string_eqb_refl. unfold set_add_addr, mem_addr.
    destruct (in_dec addr_eq_dec g [g]) as [_|Hn]; [reflexivity|].
    exfalso. apply Hn. left. reflexivity.
  - destruct (string_eqb t t0) eqn:E; cbn [registry_add]; rewrite E.
    + f_equal. f_equal. unfold set_add_addr at 1, mem_addr.
      destruct (in_dec addr_eq_dec g (set_add_addr g gs)) as [_|Hn];
        [reflexivity|].
      exfalso. apply Hn. unfold set_add_addr, mem_addr.
      destruct (in_dec addr_eq_dec g gs) as [Hin|_]; [exact Hin|].
      apply in_or_app. right. left. reflexivity.
    + f_equal. exact IH.
Qed.

(** X8. Bindings to the active node. With a receive socket, a default-source
    active-only [_subscribe] records the binding of the topic to the
    addressee and a default-source [_unsubscribe] takes it out again, so that
    the bindings [actnode] re-subscribes are those from before; recording
    the same binding twice leaves it once. Without an active node neither
    call touches the socket; with one, the two calls set and clear one and
    the same key, the padded addressee, then the topic, then the identity of
    the active node. *)
Theorem active_only_binding_round_trip
    (c : client) (topic : string) (to_group : addr) :
  sock_recv (socks c) = true ->
  ~ In (topic, to_group) (registry_pairs (acttopics c)) ->
  let sub := _subscribe topic (PInt GROUPID_DEFAULT) to_group true c in
  let unsub := _unsubscribe topic (PInt GROUPID_DEFAULT) to_group (fst sub) in
  In (topic, to_group) (registry_pairs (acttopics (fst sub)))
  /\ acttopics
       (fst (_subscribe topic (PInt GROUPID_DEFAULT) to_group true (fst sub)))
     = acttopics (fst sub)
  /\ registry_pairs (acttopics (fst unsub)) = registry_pairs (acttopics c)
  /\ act_id (fst unsub) = act_id c
  /\ match act_id c with
     | None => snd sub = [] /\ snd unsub = []
     | Some act =>
         let key := ljust (asbytestr_addr to_group) IDLEN wildcard
                    ++ list_byte_of_string topic ++ act in
         snd sub = [SetSockOpt SUBSCRIBE key]
         /\ snd unsub = [SetSockOpt UNSUBSCRIBE key]
     end.
Proof.
  intros Hs Hnew. destruct c as [nid gid sid act co ru so no se tops si su st cx].
  cbn [socks acttopics act_id] in *.
  unfold _subscribe, _unsubscribe, set_key, subscribe_key.
  cbn [socks acttopics act_id set_acttopics is_default asbytestr fst snd
       GROUPID_DEFAULT Z.eqb negb].
  rewrite Hs. cbn [negb].
  destruct act as [a|];
    cbn [socks acttopics act_id set_acttopics is_default asbytestr fst snd
         negb];
    rewrite ?Hs; cbn [negb];
    rewrite ?registry_add_mem;
    cbn [socks acttopics act_id set_acttopics fst snd].
  - split; [apply registry_add_In|].
    split; [apply registry_add_again|].
    split; [apply registry_add_discard; exact Hnew|].
    split; [reflexivity|]. split; reflexivity.
  - split; [apply registry_add_In|].
    split; [apply registry_add_again|].
    split; [apply registry_add_discard; exact Hnew|].
    split; [reflexivity|]. split; reflexivity.
Qed.

Lemma active_only_binding_round_trip_witness :
  let sub :=
    _subscribe "ACDATA" (PInt GROUPID_DEFAULT) (ABytes sample_node1) true
      sample_client in
  let unsub :=
    _unsubscribe "ACDATA" (PInt GROUPID_DEFAULT) (ABytes sample_node1)
      (fst sub) in
  In ("ACDATA"%string, ABytes sample_node1)
     (registry_pairs (acttopics (fst sub)))
  /\ registry_pairs (acttopics (fst unsub))
     = registry_pairs (acttopics sample_client).
Proof.
  destruct (@active_only_binding_round_trip sample_client "ACDATA"
              (ABytes sample_node1)) as (H1 & _ & H3 & _).
  - reflexivity.
  - vm_compute. intros [H|[H|[]]]; discriminate H.
  - split; [exact H1 | exact H3].
Defined.

Lemma subscribers_add_same topic cb subs :
  dict_get topic (subscribers_add topic cb subs)
  = Some (match dict_get topic subs with
          | Some cbs => cbs
          | None => []
          end ++ [cb]).
Proof.
  induction subs as [|[t cbs] rest IH]; cbn [subscribers_add dict_get].
  - rewrite string_eqb_refl. reflexivity.
  - destruct (string_eqb topic t) eqn:E; cbn [dict_get]; rewrite E.
    + reflexivity.
    + exact IH.
Qed.

Lemma subscribers_add_other topic other cb subs :
  other <> topic ->
  dict_get other (subscribers_add topic cb subs) = dict_get other subs.
Proof.
  intros Hne. induction subs as [|[t cbs] rest IH];
    cbn [subscribers_add dict_get].
  - rewrite (proj2 (string_eqb_false other topic) Hne). reflexivity.
  - destruct (string_eqb topic t) eqn:E; cbn [dict_get].
    + apply string_eqb_true in E. subst t.
      rewrite (proj2 (string_eqb_false other topic) Hne). reflexivity.
    + destruct (string_eqb other t); [reflexivity | exact IH].
Qed.

(** X9. [subscribe]. The callback is appended to the callbacks of its
    topic every time, also when it is registered there already, and no
    other topic is touched. What reaches the network depends on the
    receive socket. Without one (before [connect], after [close]) nothing
    is sent and an active-only binding is not recorded either, so that a
    later change of active node does not subscribe for it. With one, a
    plain subscription sets the key made of five wildcards, the topic and
    the simulation group byte, and an active-only subscription records the
    binding of the topic to the empty addressee. *)
Theorem subscribe_reaches_the_network
    (topic : string) (callback : nat) (actonly : bool) (c : client) :
  let r := subscribe topic callback actonly c in
  callbacks_of topic (fst r) = callbacks_of topic c ++ [callback]
  /\ (forall other, other <> topic ->
        callbacks_of other (fst r) = callbacks_of other c)
  /\ (sock_recv (socks c) = false ->
      snd r = [] /\ acttopics (fst r) = acttopics c)
  /\ (sock_recv (socks c) = true ->
      if actonly
      then In (topic, AStr EmptyString) (registry_pairs (acttopics (fst r)))
      else snd r
           = [SetSockOpt SUBSCRIBE
                (repeat wildcard IDLEN ++ list_byte_of_string topic
                 ++ ["S"%byte])]
           /\ acttopics (fst r) = acttopics c).
Proof.
  cbv zeta. unfold subscribe, callbacks_of.
  set (c1 := set_subscribers
               (subscribers_add topic callback (subscribers c)) c).
  assert (Hsubs : forall q,
            subscribers (fst (_subscribe topic (PInt GROUPID_DEFAULT)
                                (AStr EmptyString) actonly q))
            = subscribers q).
  { intros q. unfold _subscribe, set_key.
    destruct (sock_recv (socks q)); [|reflexivity]. cbn [negb is_default].
    change (GROUPID_DEFAULT =? GROUPID_DEFAULT) with true. cbv beta iota.
    destruct actonly.
    - cbn [act_id set_acttopics]. destruct (act_id q) as [a|];
        [|reflexivity].
      destruct (subscribe_key topic (PBytes a) (AStr EmptyString));
        reflexivity.
    - destruct (subscribe_key topic (PInt GROUPID_SIM) (AStr EmptyString));
        reflexivity. }
  rewrite Hsubs.
  change (subscribers c1)
    with (subscribers_add topic callback (subscribers c)).
  split; [|split; [|split]].
  - rewrite subscribers_add_same. reflexivity.
  - intros other Hne. rewrite subscribers_add_other by exact Hne.
    reflexivity.
  - intros Hs. unfold _subscribe.
    change (sock_recv (socks c1)) with (sock_recv (socks c)).
    rewrite Hs. split; reflexivity.
  - intros Hs. unfold _subscribe.
    change (sock_recv (socks c1)) with (sock_recv (socks c)).
    rewrite Hs. cbn [negb is_default].
    change (GROUPID_DEFAULT =? GROUPID_DEFAULT) with true. cbv beta iota.
    destruct actonly.
    + cbn [act_id set_acttopics].
      change (acttopics c1) with (acttopics c).
      change (act_id c1) with (act_id c).
      destruct (act_id c) as [a|]; unfold set_key;
        try destruct (subscribe_key topic (PBytes a) (AStr EmptyString));
        cbn [fst acttopics set_acttopics]; apply registry_add_In.
    + split; reflexivity.
Qed.

Lemma request_data_run arg c :
  running c = true -> sock_send (socks c) = true ->
  on_node_added_request_data arg c = (c, [state_request c; state_request c]).
Proof.
  intros Hr Hs. unfold on_node_added_request_data, send.
  rewrite Hr, Hs. cbn [negb orb asbytestr]. cbv beta iota zeta.
  rewrite Hr, Hs. reflexivity.
Qed.

Lemma emit_node_added_request_only s c :
  node_added (sigs c) = [SlotRequestData] ->
  running c = true -> sock_send (socks c) = true ->
  emit_node_added s c = (c, [state_request c; state_request c]).
Proof.
  intros Hn Hr Hs. unfold emit_node_added, Signals.signal_emit.
  cbn [fst]. rewrite Hn.
  cbn [Signals.for_each]. unfold Signals.guarded_call.
  cbn [call_slot fst snd].
  rewrite (@request_data_run s c Hr Hs). reflexivity.
Qed.

Lemma emit_node_added_first x s c :
  node_added (sigs c) = [SlotActnode; SlotRequestData] ->
  act_id c = None ->
  In (x :: s) (nodes c) ->
  running c = true -> sock_send (socks c) = true ->
  sock_recv (socks c) = true ->
  let c' :=
    set_act_id (Some (x :: s))
      (set_sigs (set_node_added [SlotRequestData] (sigs c)) c) in
  emit_node_added (x :: s) c
  = (c',
     (flat_map (resubscription None (x :: s)) (registry_pairs (acttopics c))
      ++ map (fun n => Invoked SigActnodeChanged n (x :: s))
           (actnode_changed (sigs c)))
     ++ [state_request c; state_request c]).
Proof.
  intros Hn Ha Hin Hr Hs Hrecv. cbv zeta.
  unfold emit_node_added, Signals.signal_emit.
  cbn [fst]. rewrite Hn.
  cbn [Signals.for_each]. unfold Signals.guarded_call at 1.
  cbn [call_slot fst snd].
  assert (Hok : act_id c <> Some []) by (rewrite Ha; discriminate).
  pose proof (@actnode_accepted x s c Hin Hrecv Hok) as Hacc.
  cbv zeta in Hacc. unfold bytes in *. rewrite Hacc. clear Hacc.
  rewrite Ha. cbn [same_id].
  unfold auto_select_dropped. rewrite Ha, Hn.
  cbn [signal_disconnect]. destruct (slot_eq_dec SlotActnode SlotActnode)
    as [_|Hne]; [|contradiction].
  cbv beta iota. unfold Signals.guarded_call. cbn [call_slot fst snd app].
  rewrite request_data_run; [reflexivity | exact Hr | exact Hs].
Qed.

(** X27. The first node found. A client that can be reached from a fresh
    one, running with both sockets, with no active node and the two
    callbacks it starts with on its node-added signal, takes a frame that
    announces a node it does not know, other than itself: the node becomes
    known and is made the active node at once. The pairs of a topic and an
    addressee bound in the active-only registry are gone through, each
    pair once, with one subscription to the new node for each; then the
    active-node-changed callbacks run, and then the shared state is
    requested, twice. The automatic selection is off from then on: the
    next node announced becomes known and the state is requested, but the
    active node stays the first one. *)
Theorem first_node_found_becomes_active
    (frame : bytes) (s : bytes) (c : client) :
  reachable c ->
  announced frame = Some (NodeUp s) ->
  ~ In s (nodes c) -> s <> node_id c ->
  node_added (sigs c) = [SlotActnode; SlotRequestData] ->
  act_id c = None ->
  running c = true -> sock_send (socks c) = true ->
  sock_recv (socks c) = true ->
  let r := _process_subscription_message frame c in
  nodes (fst r) = nodes c ++ [s]
  /\ act_id (fst r) = Some s
  /\ node_added (sigs (fst r)) = [SlotRequestData]
  /\ (exists pairs : list (string * addr),
        NoDup pairs
        /\ (forall topic to_group,
               In (topic, to_group) pairs
               <-> bound (acttopics c) topic to_group)
        /\ snd r
           = (flat_map
                (fun binding =>
                   [SetSockOpt SUBSCRIBE
                      (node_key (fst binding) s (snd binding))])
                pairs
              ++ map (fun n => Invoked SigActnodeChanged n s)
                   (actnode_changed (sigs c)))
             ++ [state_request c; state_request c])
  /\ forall frame2 s2,
       announced frame2 = Some (NodeUp s2) ->
       ~ In s2 (nodes (fst r)) -> s2 <> node_id c ->
       let r2 := _process_subscription_message frame2 (fst r) in
       nodes (fst r2) = nodes c ++ [s; s2]
       /\ act_id (fst r2) = Some s
       /\ snd r2 = [state_request c; state_request c].
Proof.
  intros Hreach Hann Hnew Hself Hn Ha Hr Hs Hrecv. cbv zeta.
  pose proof (reachable_inv Hreach) as (_ & _ & _ & Hreg & _).
  rewrite process_subscription_announced, Hann.
  rewrite (proj2 (mem_bytes_not_In s (nodes c)) Hnew). cbv zeta.
  assert (Hneq : bytes_eqb s (node_id c) = false).
  { destruct (bytes_eqb s (node_id c)) eqn:E; [|reflexivity].
    apply bytes_eqb_eq in E. contradiction. }
  rewrite Hneq.
  pose proof (announced_identity frame) as Hid. rewrite Hann in Hid.
  destruct Hid as (Hlen & _).
  destruct s as [|x s]; [discriminate Hlen|].
  pose (c1 := set_nodes (nodes c ++ [x :: s]) c).
  assert (Hin : In (x :: s) (nodes c1))
    by (apply in_or_app; right; left; reflexivity).
  pose proof (@emit_node_added_first x s c1 Hn Ha Hin Hr Hs Hrecv) as Hfirst.
  cbv zeta in Hfirst. unfold bytes in *. fold c1. rewrite Hfirst.
  clear Hfirst. cbn [fst snd].
  split; [reflexivity|]. split; [reflexivity|]. split; [reflexivity|].
  split.
  { exists (registry_pairs (acttopics c)).
    split; [apply registry_pairs_NoDup; exact Hreg|].
    split; [intros topic to_group; apply registry_pairs_bound|].
    reflexivity. }
  intros frame2 s2 Hann2 Hnew2 Hself2. cbv zeta.
  pose (c2 := set_act_id (Some (x :: s))
                (set_sigs (set_node_added [SlotRequestData] (sigs c1)) c1)).
  fold c2 in Hnew2 |- *.
  rewrite process_subscription_announced, Hann2.
  rewrite (proj2 (mem_bytes_not_In s2 (nodes c2)) Hnew2). cbv zeta.
  assert (Hneq2 : bytes_eqb s2 (node_id c2) = false).
  { destruct (bytes_eqb s2 (node_id c2)) eqn:E; [|reflexivity].
    apply bytes_eqb_eq in E. contradiction. }
  rewrite Hneq2.
  pose proof (@emit_node_added_request_only s2
                (set_nodes (nodes c2 ++ [s2]) c2) eq_refl Hr Hs) as Hnext.
  unfold bytes in *. rewrite Hnext. clear Hnext.
  cbn [fst snd]. split; [|split; reflexivity].
  change (nodes (set_nodes (nodes c2 ++ [s2]) c2)) with (nodes c2 ++ [s2]).
  change (nodes c2) with (nodes c ++ [x :: s]).
  rewrite <- app_assoc. reflexivity.
Qed.

Lemma sample_listening_reachable : reachable sample_listening.
Proof.
  exists sample_entropy, (PInt GROUPID_CLIENT), sample_start,
    sample_listening_ops.
  split; vm_compute; reflexivity.
Qed.

Lemma first_node_found_becomes_active_witness :
  act_id (fst (_process_subscription_message (x01 :: sample_node1)
                 sample_listening)) = Some sample_node1
  /\ (exists pairs : list (string * addr),
        NoDup pairs
        /\ (forall topic to_group,
               In (topic, to_group) pairs
               <-> bound [("ACDATA"%string, [AStr EmptyString]);
                          ("ROUTEDATA"%string, [AStr EmptyString])]
                     topic to_group)
        /\ snd (_process_subscription_message (x01 :: sample_node1)
                  sample_listening)
           = (flat_map
                (fun binding =>
                   [SetSockOpt SUBSCRIBE
                      (node_key (fst binding) sample_node1 (snd binding))])
                pairs
              ++ [])
             ++ [state_request sample_listening;
                 state_request sample_listening])
  /\ act_id
       (fst (_process_subscription_message (x01 :: sample_node2)
               (fst (_process_subscription_message (x01 :: sample_node1)
                       sample_listening)))) = Some sample_node1.
Proof.
  destruct (@first_node_found_becomes_active (x01 :: sample_node1)
              sample_node1 sample_listening)
    as (_ & H2 & _ & H4 & H5).
  - exact sample_listening_reachable.
  - reflexivity.
  - intros H. exact H.
  - discriminate.
  - reflexivity.
  - reflexivity.
  - reflexivity.
  - reflexivity.
  - reflexivity.
  - split; [exact H2|]. split; [exact H4|].
    destruct (H5 (x01 :: sample_node2) sample_node2) as (_ & H6 & _).
    + reflexivity.
    + vm_compute. intros [H|[]]. discriminate H.
    + discriminate.
    + exact H6.
Defined.

End ClientFacts.

Module ProxyFacts.

Import WireSpec SignalsSpec ClientSpec ProxySpec WireFacts SignalsFacts ClientFacts Proxy.

Ltac refute := let H := fresh in intro H; cbn in H; discriminate H.

(** C9. [_get_safe_active_node] returns an identifier exactly when the
    proxy is running, was connected, tracks at least one node and has a
    client whose active node is set and, written in hex, is a key of the
    tracked nodes; the identifier returned is that hex string. In every
    other state no identifier is returned. *)
Theorem safe_active_node_characterised : forall (p : proxy) (s : string),
  _get_safe_active_node p = Some s
  <->
  (running p = true /\ was_connected p = true
   /\ (0 < length (tracked_nodes p))%nat
   /\ exists c a,
        bluesky_client p = Some c /\ Client.act_id c = Some a /\ a <> []
        /\ s = Text.hex a /\ dict_mem s (tracked_nodes p) = true).
Proof.
  intros p s. unfold _get_safe_active_node. split.
  - destruct (bluesky_client p) as [c|]; [|refute].
    destruct (running p); cbn [negb orb]; [|refute].
    destruct (was_connected p); cbn [negb orb]; [|refute].
    destruct (Nat.eqb_spec (length (tracked_nodes p)) 0); [refute|].
    destruct (Client.act_id c) as [[|x a]|] eqn:Ea;
      try (refute).
    destruct (dict_mem (Text.hex (x :: a)) (tracked_nodes p)) eqn:Em;
      [|refute].
    intros [= <-]. repeat split; try lia.
    exists c, (x :: a). repeat split; try assumption; discriminate.
  - intros (Hr & Hw & Hn & c & a & Hc & Ha & Hne & Hs & Hm).
    rewrite Hc, Hr, Hw. cbn [negb orb].
    destruct (Nat.eqb_spec (length (tracked_nodes p)) 0); [lia|].
    rewrite Ha. destruct a as [|x a]; [contradiction|].
    rewrite <- Hs, Hm. reflexivity.
Qed.

(** ** Dictionaries *)

Section DictFacts.

Variable V : Type.

Implicit Types (d : list (string * V)) (k : string) (v : V).

Lemma dict_mem_get k d :
  dict_mem k d = match dict_get k d with Some _ => true | None => false end.
Proof.
  induction d as [|[k' v'] rest IH]; simpl; [reflexivity|].
  destruct (string_eqb k k'); simpl; [reflexivity | exact IH].
Qed.

Lemma dict_mem_In k d : dict_mem k d = true <-> In k (dict_keys d).
Proof.
  induction d as [|[k' v'] rest IH]; simpl.
  - split; [discriminate | contradiction].
  - rewrite orb_true_iff, IH, string_eqb_true. split; intros [H|H]; auto.
Qed.

Lemma dict_get_set_same k v d : dict_get k (dict_set k v d) = Some v.
Proof.
  induction d as [|[k' v'] rest IH]; simpl.
  - rewrite string_eqb_refl. reflexivity.
  - destruct (string_eqb k k') eqn:E; simpl; rewrite E; [reflexivity|exact IH].
Qed.

Lemma dict_set_keys k v d :
  dict_keys (dict_set k v d)
  = if dict_mem k d then dict_keys d else dict_keys d ++ [k].
Proof.
  induction d as [|[k' v'] rest IH]; simpl; [reflexivity|].
  destruct (string_eqb k k') eqn:E; simpl; [reflexivity|].
  unfold dict_keys in *. rewrite IH. destruct (dict_mem k rest); reflexivity.
Qed.

Lemma dict_set_new k v d : dict_mem k d = false -> dict_set k v d = d ++ [(k, v)].
Proof.
  induction d as [|[k' v'] rest IH]; simpl; [reflexivity|].
  destruct (string_eqb k k'); simpl; [discriminate|].
  intros H. rewrite IH by exact H. reflexivity.
Qed.

Lemma dict_set_NoDup k v d :
  NoDup (dict_keys d) -> NoDup (dict_keys (dict_set k v d)).
Proof.
  intros H. rewrite dict_set_keys. destruct (dict_mem k d) eqn:E; [exact H|].
  apply NoDup_app; [exact H | constructor; [intros []|constructor] |].
  intros a Ha [<-|[]]. apply dict_mem_In in Ha. congruence.
Qed.

Lemma dict_update_NoDup other : forall d,
  NoDup (dict_keys d) -> NoDup (dict_keys (dict_update d other)).
Proof.
  unfold dict_update.
  induction other as [|[k v] rest IH]; intros d H; simpl; [exact H|].
  apply IH. apply dict_set_NoDup. exact H.
Qed.



End DictFacts.






(** *** The stores under the steps of the shape handler *)














Lemma separate_one_kind acc name info :
  separate_one acc (name, info)
  = match kind_of info with
    | Polygons => (dict_set name (kept_form name info) (fst acc), snd acc)
    | Polylines => (fst acc, dict_set name (kept_form name info) (snd acc))
    end.
Proof.
  destruct acc as [pg pl]. unfold separate_one, kind_of, kept_form.
  destruct info as [| | | | | | |d]; try reflexivity.
  destruct (dict_get "shape" d) as [[]|]; try reflexivity.
  destruct (string_eqb s "LINE"); [reflexivity|].
  destruct (string_eqb s "POLYALT"); reflexivity.
Qed.


Lemma last_five_length (A : Type) (l : list A) :
  length (last_five l) = Nat.min 5 (length l).
Proof. unfold last_five. rewrite length_skipn. lia. Qed.












(** ** Splitting *)

Lemma split_on_join sep s :
  Text.join (String sep EmptyString) (Text.split_on sep s) = s.
Proof.
  induction s as [|ch rest IH]; [reflexivity|].
  cbn [Text.split_on].
  destruct (Text.split_on sep rest) as [|w ws] eqn:E.
  { destruct rest; cbn in E; [discriminate|].
    destruct (Ascii.eqb a sep); [discriminate|].
    destruct (Text.split_on sep rest); discriminate. }
  destruct (Ascii.eqb_spec ch sep) as [->|Hne].
  - change (Text.join (String sep EmptyString) (EmptyString :: w :: ws))
      with (String sep (Text.join (String sep EmptyString) (w :: ws))).
    rewrite IH. reflexivity.
  - destruct ws as [|w' ws'].
    + cbn in IH. subst rest. reflexivity.
    + change (Text.join (String sep EmptyString) (String ch w :: w' :: ws'))
        with (String ch (w ++ String sep EmptyString
                           ++ Text.join (String sep EmptyString) (w' :: ws'))).
      change (Text.join (String sep EmptyString) (w :: w' :: ws'))
        with (w ++ String sep EmptyString
                ++ Text.join (String sep EmptyString) (w' :: ws'))%string
        in IH.
      rewrite IH. reflexivity.
Qed.

Lemma split_on_pieces sep s :
  Forall (fun w => has_char sep w = false) (Text.split_on sep s).
Proof.
  induction s as [|ch rest IH]; [repeat constructor|].
  cbn [Text.split_on]. destruct (Ascii.eqb ch sep) eqn:E.
  - constructor; [reflexivity | exact IH].
  - destruct (Text.split_on sep rest) as [|w ws].
    + repeat constructor. cbn. rewrite E. reflexivity.
    + inversion IH; subst. constructor; [|assumption].
      cbn. rewrite E. assumption.
Qed.

(** ** One entry *)

Lemma same_route_refl c : same_route c c.
Proof. repeat split. Qed.

Lemma same_route_headers c c' :
  same_route c c' -> stack_header c' = stack_header c.
Proof.
  intros (_ & _ & Ha & Hs & Hn). unfold stack_header, forward_target.
  rewrite Ha, Hs, Hn. reflexivity.
Qed.

Lemma or_empty_bytes target :
  Wire.asbytestr_addr (Client.or_empty (ABytes target)) = target.
Proof. destruct target; reflexivity. Qed.

Lemma forward_command_run cmdline now p c :
  bluesky_client p = Some c ->
  Client.running c = true ->
  Client.sock_send (Client.socks c) = true ->
  _forward_command cmdline now p
  = (set_bluesky_client (Some c) p,
     [OnWire (Client.SendMultipart (stack_header c) (VStr cmdline))]).
Proof.
  intros Hc Hr Hs. unfold _forward_command. rewrite Hc.
  unfold Client.send. rewrite Hr, Hs. cbn [negb orb Wire.asbytestr map].
  rewrite or_empty_bytes. reflexivity.
Qed.

Lemma help_text_not_empty argstring :
  string_eqb (help_text argstring) EmptyString = false.
Proof. unfold help_text. destruct (string_eqb argstring EmptyString); reflexivity. Qed.

Lemma process_command_run cmdline now p c :
  bluesky_client p = Some c ->
  Client.running c = true ->
  Client.sock_send (Client.socks c) = true ->
  snd (process_command cmdline now p)
  = entry_effects (has_consumers p) c now cmdline
  /\ bluesky_client (fst (process_command cmdline now p)) = Some c
  /\ has_consumers (fst (process_command cmdline now p)) = has_consumers p
  /\ echo_data (fst (process_command cmdline now p))
     = entry_echo now (echo_data p) cmdline.
Proof.
  intros Hc Hr Hs. unfold process_command, entry_effects, entry_echo.
  destruct (Text.split (Text.strip cmdline)) as [|first args].
  - repeat split. exact Hc.
  - destruct (is_local (Text.upper first)) eqn:El.
    + unfold _execute_local_command. unfold is_local in El. rewrite El.
      fold (help_text (Text.join " " args)).
      assert (Hh : (if string_eqb (Text.join " " args) EmptyString
                    then (true, "BlueSky Web Client: Enter commands to control simulation"%string)
                    else (true, ("Help for " ++ Text.join " " args ++ ": Command forwarded to server")%string))
                   = (true, help_text (Text.join " " args))).
      { unfold help_text.
        destruct (string_eqb (Text.join " " args) EmptyString); reflexivity. }
      rewrite Hh. rewrite help_text_not_empty.
      unfold _echo_response, has_consumers, local_echo. cbn.
      destruct (socketio p && (0 <? connected_clients p)); repeat split;
        exact Hc.
    + rewrite (forward_command_run cmdline now p Hc Hr Hs). repeat split.
Qed.

(** ** The drain *)

Lemma entry_effects_route consumers c c' now cmdline :
  same_route c c' ->
  entry_effects consumers c' now cmdline
  = entry_effects consumers c now cmdline.
Proof.
  intros H. unfold entry_effects. rewrite (same_route_headers H).
  reflexivity.
Qed.

Lemma pop_command_run cmdline sender_id rest p c :
  bluesky_client p = Some c ->
  exists c',
    bluesky_client (pop_command cmdline sender_id rest p) = Some c'
    /\ same_route c c'
    /\ Client.cmdstack (Client.stack c') = rest
    /\ has_consumers (pop_command cmdline sender_id rest p)
       = has_consumers p
    /\ echo_data (pop_command cmdline sender_id rest p) = echo_data p.
Proof.
  intros Hc. unfold pop_command. rewrite Hc. eexists.
  split; [reflexivity|]. repeat split.
Qed.

Lemma drain_run now : forall queue p c,
  bluesky_client p = Some c ->
  Client.running c = true ->
  Client.sock_send (Client.socks c) = true ->
  snd (drain queue now p)
  = flat_map (fun entry => entry_effects (has_consumers p) c now (fst entry))
      queue
  /\ echo_data (fst (drain queue now p))
     = fold_left (entry_echo now) (map fst queue) (echo_data p)
  /\ exists c',
       bluesky_client (fst (drain queue now p)) = Some c'
       /\ same_route c c'
       /\ Client.cmdstack (Client.stack c') = [].
Proof.
  induction queue as [|[cmdline sender_id] rest IH]; intros p c Hc Hr Hs.
  - cbn [drain fst snd flat_map map fold_left]. split; [reflexivity|].
    destruct (pop_command_run EmptyString None [] p Hc)
      as (c' & H1 & H2 & H3 & _ & H5).
    split; [exact H5|]. exists c'. auto.
  - cbn [drain flat_map fst map fold_left].
    destruct (pop_command_run cmdline sender_id rest p Hc)
      as (c1 & H1 & R1 & _ & K1 & D1).
    set (p1 := pop_command cmdline sender_id rest p) in *.
    destruct R1 as (Rr & Rs & Ra & Rv & Rn).
    assert (Hr1 : Client.running c1 = true) by congruence.
    assert (Hs1 : Client.sock_send (Client.socks c1) = true) by congruence.
    destruct (process_command_run cmdline now p1 H1 Hr1 Hs1)
      as (E2 & H2 & K2 & D2).
    destruct (process_command cmdline now p1) as [p2 e2].
    cbn [fst snd] in E2, H2, K2, D2.
    destruct (IH p2 c1 H2 Hr1 Hs1) as (E3 & D3 & c3 & H3 & R3 & Q3).
    destruct (drain rest now p2) as [p3 e3]. cbn [fst snd] in *.
    assert (R1 : same_route c c1) by (repeat split; assumption).
    split; [|split].
    + rewrite E2, E3, K2, K1. f_equal.
      * apply entry_effects_route. exact R1.
      * apply flat_map_ext. intros entry.
        apply entry_effects_route. exact R1.
    + rewrite D3, D2, D1. reflexivity.
    + exists c3. split; [exact H3|]. split; [|exact Q3].
      destruct R3 as (A1 & A2 & A3 & A4 & A5).
      repeat split; congruence.
Qed.

(** C8, as stated: every entry whose first word is not a local command
    is forwarded, and every entry whose first word is one always emits an
    echo. Submitting a lone semicolon queues two blank entries, and the
    drain sends nothing; and with no consumer attached the drain of a HELP
    command pushes no echo. *)
Lemma command_drain_counterexample :
  ~ (forall now p c cmdline sender_id,
        bluesky_client p = Some c ->
        Client.running c = true ->
        Client.sock_send (Client.socks c) = true ->
        In (cmdline, sender_id) (Client.cmdstack (Client.stack c)) ->
        first_word_local cmdline = false ->
        exists header,
          In (OnWire (Client.SendMultipart header (VStr cmdline)))
             (snd (_process_stack_commands now p)))
  /\ ~ (forall now p c cmdline sender_id,
          bluesky_client p = Some c ->
          Client.running c = true ->
          Client.sock_send (Client.socks c) = true ->
          In (cmdline, sender_id) (Client.cmdstack (Client.stack c)) ->
          first_word_local cmdline = true ->
          exists record,
            In (Pushed (Emit "echo" record))
               (snd (_process_stack_commands now p))).
Proof.
  split.
  - intros H.
    destruct (H 0%Q sample_queue_proxy
                (Client.stack_commands [";"%string] None sample_client)
                EmptyString None eq_refl eq_refl eq_refl)
      as [header Hin].
    + left. reflexivity.
    + reflexivity.
    + vm_compute in Hin. exact Hin.
  - intros H.
    destruct (H 0%Q sample_silent_proxy
                (Client.stack_commands ["HELP"%string] None sample_client)
                "HELP"%string None eq_refl eq_refl eq_refl)
      as [record Hin].
    + left. reflexivity.
    + reflexivity.
    + vm_compute in Hin. exact Hin.
Qed.

(** C8, amended. Submitting a command line that is not blank strips it,
    splits it at the semicolons and queues the stripped pieces in order
    (the pieces hold no semicolon and, joined by semicolons, give the
    stripped line back); a blank line queues nothing. The drain of a
    running client that can send goes through the queue in order and
    leaves it empty: a blank entry is dropped, an entry whose uppercased
    first word is HELP or ? gives the local help text, cached as the echo
    record and pushed as an echo when consumers are attached, and every
    other entry is sent unchanged on the STACK topic to the active node, or
    to the default server address when there is no active node, with no
    echo and with the cached echo record left as it was. *)
Theorem command_stack_queue_and_drain :
  (forall sender_id cmdline s,
      Client.cmdstack (Client.stack_line sender_id cmdline s)
      = Client.cmdstack s
        ++ map (fun line => (line, sender_id)) (queued_entries cmdline))
  /\ (forall s,
         Text.join ";" (Text.split_on ";" s) = s
         /\ Forall (fun piece => has_char ";" piece = false)
              (Text.split_on ";" s))
  /\ (forall now p c,
         bluesky_client p = Some c ->
         Client.running c = true ->
         Client.sock_send (Client.socks c) = true ->
         let r := _process_stack_commands now p in
         snd r
         = flat_map
             (fun entry => entry_effects (has_consumers p) c now (fst entry))
             (Client.cmdstack (Client.stack c))
         /\ echo_data (fst r)
            = fold_left (entry_echo now)
                (map fst (Client.cmdstack (Client.stack c))) (echo_data p)
         /\ exists c',
              bluesky_client (fst r) = Some c'
              /\ Client.cmdstack (Client.stack c') = []
              /\ forward_target c' = forward_target c).
Proof.
  split; [|split].
  - intros sender_id cmdline s. unfold Client.stack_line, queued_entries.
    destruct (string_eqb (Text.strip cmdline) EmptyString).
    + cbn [map]. rewrite app_nil_r. reflexivity.
    + cbn [Client.cmdstack]. rewrite map_map. reflexivity.
  - intros s. split; [apply split_on_join | apply split_on_pieces].
  - intros now p c Hc Hr Hs r. subst r. unfold _process_stack_commands.
    rewrite Hc, Hr.
    destruct (@drain_run now (Client.cmdstack (Client.stack c)) p c
                Hc Hr Hs) as (E & D & c' & H1 & R & Q).
    split; [exact E|]. split; [exact D|].
    exists c'. split; [exact H1|]. split; [exact Q|].
    destruct R as (_ & _ & Ha & Hv & _). unfold forward_target.
    rewrite Ha, Hv. reflexivity.
Qed.

Lemma command_stack_queue_and_drain_witness :
  snd (_process_stack_commands 0%Q sample_command_proxy)
  = [Pushed (Emit "echo" (local_echo [] 0%Q));
     OnWire (Client.SendMultipart (stack_header sample_client)
               (VStr "CRE KL204 B744 52 4 90 FL100 250"));
     Pushed (Emit "echo" (local_echo ["pos"%string] 0%Q))]
  /\ echo_data (fst (_process_stack_commands 0%Q sample_command_proxy))
     = local_echo ["pos"%string] 0%Q.
Proof.
  destruct (proj2 (proj2 command_stack_queue_and_drain) 0%Q
              sample_command_proxy
              (Client.stack_commands
                 ["help ; CRE KL204 B744 52 4 90 FL100 250;;  ?  pos"%string]
                 None sample_client)
              eq_refl eq_refl eq_refl) as (E & D & _).
  split; [exact E | exact D].
Defined.


Lemma handle_disconnection_run reason fault now p c :
  bluesky_client p = Some c ->
  let r := _handle_disconnection reason fault now p in
  was_connected (fst r) = false
  /\ running (fst r) = false
  /\ allow_reconnection (fst r) = false
  /\ network_timer (fst r) = network_timer p
  /\ tracked_nodes (fst r) = []
  /\ tracked_servers (fst r) = []
  /\ traffic_data (fst r) = VDict []
  /\ sim_data (fst r) = VDict []
  /\ echo_data (fst r) = VDict []
  /\ poly_data_by_node (fst r) = []
  /\ polyline_data_by_node (fst r) = []
  /\ bluesky_client (fst r) = Some (Client.close fault c)
  /\ snd r
     = (if was_connected p && has_consumers p
        then [disconnect_notice now p] else [])
       ++ (if has_consumers p
           then _emit_cleared_data now p
                ++ [EmitNodeInfo [] [] None 0]
           else []).
Proof.
  intros Hc r. subst r. destruct p. cbn [bluesky_client] in Hc. subst.
  unfold has_consumers. cbn [socketio connected_clients was_connected].
  destruct was_connected0, socketio0, (0 <? connected_clients0) eqn:E;
    unfold _handle_disconnection, _emit_connection_status, _emit_node_info,
      _emit_cleared_data, has_consumers; cbn [was_connected];
    lazy -[Client.close Z.ltb]; rewrite ?E; lazy -[Client.close Z.ltb];
    repeat (split; [reflexivity|]); reflexivity.
Qed.

(** The fields a poll tick reads, under the assignments it makes before. *)
Lemma tick_reads_timer v p :
  running (set_network_timer v p) = running p
  /\ allow_reconnection (set_network_timer v p) = allow_reconnection p
  /\ bluesky_client (set_network_timer v p) = bluesky_client p.
Proof. repeat split. Qed.

Lemma tick_reads_failures (now : Q) v p :
  tracked_nodes (set_connection_failures v p) = tracked_nodes p
  /\ was_connected (set_connection_failures v p) = was_connected p
  /\ silent_too_long now (set_connection_failures v p)
     = silent_too_long now p
  /\ max_connection_failures (set_connection_failures v p)
     = max_connection_failures p
  /\ connection_failures (set_connection_failures v p) = v
  /\ bluesky_client (set_connection_failures v p) = bluesky_client p
  /\ has_consumers (set_connection_failures v p) = has_consumers p
  /\ server_ip (set_connection_failures v p) = server_ip p
  /\ network_timer (set_connection_failures v p) = network_timer p.
Proof. repeat split. Qed.

Lemma tick_reads_connected v p :
  was_connected (set_was_connected v p) = v
  /\ bluesky_client (set_was_connected v p) = bluesky_client p
  /\ has_consumers (set_was_connected v p) = has_consumers p
  /\ server_ip (set_was_connected v p) = server_ip p
  /\ network_timer (set_was_connected v p) = network_timer p.
Proof. repeat split. Qed.





(** ** After the connection was given up *)

Lemma handle_disconnection_flags reason fault now p :
  let r := _handle_disconnection reason fault now p in
  running (fst r) = false
  /\ allow_reconnection (fst r) = false
  /\ bluesky_client (fst r)
     = match bluesky_client p with
       | Some c => Some (Client.close fault c)
       | None => None
       end.
Proof.
  destruct p. unfold _handle_disconnection.
  destruct bluesky_client0 as [c|], was_connected0;
    cbn [was_connected]; lazy -[Client.close Z.ltb];
    repeat (split; [reflexivity|]); reflexivity.
Qed.

(** X10. Once [_handle_disconnection] has run, with a client or without, the
    proxy is deaf: SIMINFO, ACDATA, ECHO and POLY messages that still
    arrive change nothing and push nothing, there is no active node, the
    command stack is not processed and [send_command] refuses, and a poll
    tick that still fires polls nothing, pushes nothing and schedules no
    further tick. *)
Theorem disconnected_proxy_is_inert
    (tim2txt : Q -> string) (safe_decode : bytes -> string)
    (py_str : pyval -> string)
    (reason : string) (fault : Client.close_fault) (now : Q) (p : proxy) :
  let p' := fst (_handle_disconnection reason fault now p) in
  (forall info sender_id later,
      on_siminfo_received tim2txt info sender_id later p' = (p', []))
  /\ (forall data later, on_acdata_received data later p' = (p', []))
  /\ (forall text flags sender_id later,
         echo safe_decode py_str text flags sender_id later p' = (p', []))
  /\ (forall data later, on_poly_received data later p' = (p', []))
  /\ _get_safe_active_node p' = None
  /\ (forall later, _process_stack_commands later p' = (p', []))
  /\ (forall command later, send_command command later p' = (p', [], false))
  /\ (forall update fault' later,
         network_timer_callback update fault' later p'
         = (set_network_timer false p', [])).
Proof.
  destruct (handle_disconnection_flags reason fault now p) as (Hr & Ha & Hc).
  destruct (_handle_disconnection reason fault now p) as [p' e].
  cbn [fst] in *. cbv zeta.
  split; [|split; [|split; [|split; [|split; [|split; [|split]]]]]].
  - intros. unfold on_siminfo_received. rewrite Ha. reflexivity.
  - intros. unfold on_acdata_received. rewrite Ha. reflexivity.
  - intros. unfold echo. rewrite Ha. reflexivity.
  - intros. unfold on_poly_received. rewrite Ha. reflexivity.
  - unfold _get_safe_active_node. rewrite Hr.
    destruct (bluesky_client p'); reflexivity.
  - intros. unfold _process_stack_commands. rewrite Hc.
    destruct (bluesky_client p); reflexivity.
  - intros. unfold send_command. rewrite Hc.
    destruct (bluesky_client p); reflexivity.
  - intros. unfold network_timer_callback.
    destruct (tick_reads_timer false p') as (T1 & T2 & T3).
    rewrite T1, Hr. reflexivity.
Qed.

Lemma after_failures_reads k p :
  running (after_failures k p) = running p
  /\ allow_reconnection (after_failures k p) = allow_reconnection p
  /\ bluesky_client (after_failures k p) = bluesky_client p
  /\ connection_failures (after_failures k p) = connection_failures p + k
  /\ max_connection_failures (after_failures k p)
     = max_connection_failures p
  /\ was_connected (after_failures k p) = was_connected p
  /\ has_consumers (after_failures k p) = has_consumers p
  /\ server_ip (after_failures k p) = server_ip p
  /\ tracked_nodes (after_failures k p) = tracked_nodes p.
Proof. repeat split. Qed.

Lemma after_failures_again k j p :
  set_network_timer true
    (set_connection_failures j (set_network_timer false (after_failures k p)))
  = set_network_timer true (set_connection_failures j p).
Proof. destruct p. reflexivity. Qed.

Lemma failed_tick update fault now p c :
  (forall q, update q = UpdateRaised q []) ->
  running p = true -> allow_reconnection p = true ->
  bluesky_client p = Some c ->
  connection_failures p + 1 < max_connection_failures p ->
  network_timer_callback update fault now p = (after_failures 1 p, []).
Proof.
  intros Hu Hr Ha Hc Hlt. unfold network_timer_callback.
  destruct (tick_reads_timer false p) as (T1 & T2 & T3).
  rewrite T1, T2, T3, Hr, Ha, Hc, Hu. cbn [andb].
  destruct (tick_reads_failures now
              (connection_failures (set_network_timer false p) + 1)
              (set_network_timer false p))
    as (_ & _ & _ & F4 & F5 & _).
  rewrite F4, F5.
  replace (max_connection_failures (set_network_timer false p)
           <=? connection_failures (set_network_timer false p) + 1)
    with false
    by (symmetry; apply Z.leb_gt; exact Hlt).
  cbn [fst snd].
  replace (running (set_connection_failures
             (connection_failures (set_network_timer false p) + 1)
             (set_network_timer false p))) with true
    by (symmetry; exact Hr).
  replace (allow_reconnection (set_connection_failures
             (connection_failures (set_network_timer false p) + 1)
             (set_network_timer false p))) with true
    by (symmetry; exact Ha).
  cbn [andb]. destruct p. reflexivity.
Qed.

Lemma failed_ticks update fault now c : forall (k : nat) p,
  (forall q, update q = UpdateRaised q []) ->
  running p = true -> allow_reconnection p = true ->
  bluesky_client p = Some c ->
  connection_failures p + Z.of_nat k < max_connection_failures p ->
  (0 < k)%nat ->
  ticks k update fault now p = (after_failures (Z.of_nat k) p, []).
Proof.
  induction k as [|k IH]; intros p Hu Hr Ha Hc Hlt Hk; [lia|].
  cbn [ticks]. rewrite (@failed_tick update fault now p c) by (auto; lia).
  destruct k as [|k'].
  - reflexivity.
  - destruct (after_failures_reads 1 p) as (R1 & R2 & R3 & R4 & R5 & _).
    rewrite IH; [| exact Hu | rewrite R1; exact Hr | rewrite R2; exact Ha
                 | rewrite R3; exact Hc | rewrite R4, R5; lia | lia].
    f_equal. unfold after_failures at 1. rewrite R4.
    replace (connection_failures p + 1 + Z.of_nat (S k'))
      with (connection_failures p + Z.of_nat (S (S k'))) by lia.
    destruct p. reflexivity.
Qed.

(** X11. Polls that fail in a row, each raising before a handler has run.
    On a running proxy with a client, as long as the failures counted stay
    below the maximum, every poll that raises adds one to the count, pushes
    nothing and schedules the next tick, and changes nothing else. The poll that brings the count to the maximum
    gives the connection up: the proxy stops, the count is back at 0, no
    further tick is scheduled and the consumers are sent the cleared data,
    after the disconnect notice when the proxy was connected. *)
Theorem failed_polls_add_up
    (update : proxy -> update_outcome) (fault : Client.close_fault)
    (now : Q) (p : proxy) (c : Client.client) (k : nat) :
  (forall q, update q = UpdateRaised q []) ->
  running p = true -> allow_reconnection p = true ->
  bluesky_client p = Some c ->
  connection_failures p + Z.of_nat k + 1 = max_connection_failures p ->
  (forall j, (0 < j <= k)%nat ->
     ticks j update fault now p = (after_failures (Z.of_nat j) p, []))
  /\ let r := ticks (S k) update fault now p in
     running (fst r) = false
     /\ network_timer (fst r) = false
     /\ connection_failures (fst r) = 0
     /\ bluesky_client (fst r) = Some (Client.close fault c)
     /\ snd r
        = (if was_connected p && has_consumers p
           then [disconnect_notice now p] else [])
          ++ (if has_consumers p
              then _emit_cleared_data now p ++ [EmitNodeInfo [] [] None 0]
              else []).
Proof.
  intros Hu Hr Ha Hc Hmax. split.
  - intros j Hj. apply (@failed_ticks update fault now c); auto; lia.
  - assert (Hlast : forall q,
              running q = true -> allow_reconnection q = true ->
              bluesky_client q = Some c ->
              connection_failures q + 1 = max_connection_failures q ->
              network_timer_callback update fault now q
              = _handle_disconnection "Network error (max failures)" fault
                  now (set_connection_failures (connection_failures q + 1)
                         (set_network_timer false q))).
    { intros q Qr Qa Qc Qm. unfold network_timer_callback.
      destruct (tick_reads_timer false q) as (T1 & T2 & T3).
      rewrite T1, T2, T3, Qr, Qa, Qc, Hu. cbn [andb].
      destruct (tick_reads_failures now
                  (connection_failures (set_network_timer false q) + 1)
                  (set_network_timer false q))
        as (_ & _ & _ & F4 & F5 & _).
      rewrite F4, F5.
      replace (max_connection_failures (set_network_timer false q)
               <=? connection_failures (set_network_timer false q) + 1)
        with true
        by (symmetry; apply Z.leb_le;
            change (max_connection_failures q <= connection_failures q + 1);
            lia).
      destruct (_handle_disconnection _ fault now _) as [p3 e3].
      rewrite app_nil_l. reflexivity. }
    assert (Hfinal : forall q,
              running q = true -> allow_reconnection q = true ->
              bluesky_client q = Some c ->
              connection_failures q + 1 = max_connection_failures q ->
              let r := network_timer_callback update fault now q in
              running (fst r) = false
              /\ network_timer (fst r) = false
              /\ connection_failures (fst r) = 0
              /\ bluesky_client (fst r) = Some (Client.close fault c)
              /\ snd r
                 = (if was_connected q && has_consumers q
                    then [disconnect_notice now q] else [])
                   ++ (if has_consumers q
                       then _emit_cleared_data now q
                            ++ [EmitNodeInfo [] [] None 0]
                       else [])).
    { intros q Qr Qa Qc Qm. cbv zeta. rewrite (Hlast q Qr Qa Qc Qm).
      set (q1 := set_connection_failures (connection_failures q + 1)
                   (set_network_timer false q)).
      assert (Q1c : bluesky_client q1 = Some c) by exact Qc.
      destruct (@handle_disconnection_run "Network error (max failures)"
                  fault now q1 c Q1c)
        as (_ & A2 & _ & A4 & _ & _ & _ & _ & _ & _ & _ & A12 & A13).
      split; [exact A2|]. split; [exact A4|].
      split; [|split; [exact A12 | exact A13]].
      clear. destruct q. unfold _handle_disconnection.
      destruct was_connected0, bluesky_client0;
        lazy -[Client.close Z.ltb]; reflexivity. }
    cbv zeta. destruct k as [|k'].
    + cbn [ticks].
      destruct (network_timer_callback update fault now p) as [p1 e1] eqn:E.
      pose proof (Hfinal p Hr Ha Hc ltac:(lia)) as H. cbv zeta in H.
      rewrite E in H. cbn [fst snd] in *. rewrite app_nil_r. exact H.
    + change (ticks (S (S k')) update fault now p)
        with (let (p1, e1) := network_timer_callback update fault now p in
              let (p2, e2) := ticks (S k') update fault now p1 in
              (p2, e1 ++ e2)).
      rewrite (@failed_tick update fault now p c) by (auto; lia).
      destruct (after_failures_reads 1 p)
        as (R1 & R2 & R3 & R4 & R5 & R6 & R7 & R8 & R9).
      assert (Hsplit : forall n q,
                ticks (S n) update fault now q
                = (let (q1, e1) := ticks n update fault now q in
                   let (q2, e2) := network_timer_callback update fault now q1
                   in (q2, e1 ++ e2))).
      { induction n as [|n IHn]; intros q.
        - cbn [ticks].
          destruct (network_timer_callback update fault now q) as [a b].
          rewrite app_nil_r. reflexivity.
        - change (ticks (S (S n)) update fault now q)
            with (let (p1, e1) := network_timer_callback update fault now q in
                  let (p2, e2) := ticks (S n) update fault now p1 in
                  (p2, e1 ++ e2)).
          cbn [ticks] in IHn |- *.
          destruct (network_timer_callback update fault now q) as [a b].
          rewrite IHn.
          destruct (ticks n update fault now a) as [a1 b1].
          destruct (network_timer_callback update fault now a1) as [a2 b2].
          rewrite app_assoc. reflexivity. }
      rewrite Hsplit.
      destruct k' as [|k''].
      * cbn [ticks].
        pose proof (Hfinal (after_failures 1 p)) as H. cbv zeta in H.
        rewrite R1, R2, R3, R4, R5, R6, R7 in H.
        specialize (H Hr Ha Hc ltac:(lia)).
        destruct (network_timer_callback update fault now
                    (after_failures 1 p)) as [p2 e2].
        cbn [fst snd app] in *. exact H.
      * rewrite (@failed_ticks update fault now c (S k'') (after_failures 1 p))
          by (rewrite ?R1, ?R2, ?R3, ?R4, ?R5; auto; lia).
        destruct (after_failures_reads (Z.of_nat (S k'')) (after_failures 1 p))
          as (S1 & S2 & S3 & S4 & S5 & S6 & S7 & S8 & S9).
        pose proof (Hfinal (after_failures (Z.of_nat (S k''))
                              (after_failures 1 p))) as H.
        cbv zeta in H.
        rewrite S1, S2, S3, S4, S5, S6, S7, R1, R2, R3, R4, R5, R6, R7 in H.
        specialize (H Hr Ha Hc ltac:(lia)).
        destruct (network_timer_callback update fault now
                    (after_failures (Z.of_nat (S k''))
                       (after_failures 1 p))) as [p2 e2].
        cbn [fst snd app] in *. exact H.
Qed.

Lemma failed_polls_add_up_witness :
  ticks 2 failing_update Client.CloseClean 1%Q sample_proxy
  = (after_failures 2 sample_proxy, [])
  /\ running (fst (ticks 3 failing_update Client.CloseClean 1%Q sample_proxy))
     = false.
Proof.
  destruct (@failed_polls_add_up failing_update Client.CloseClean 1%Q
              sample_proxy
              (Client.set_ctx
                 {| Client.action := VNone;
                    Client.ctx_sender_id := Some sample_node1 |}
                 sample_client) 2)
    as (H1 & H2 & _).
  - intros q. reflexivity.
  - reflexivity.
  - reflexivity.
  - reflexivity.
  - reflexivity.
  - split; [apply H1; lia | exact H2].
Defined.

Lemma silent_reads_connected now v n p :
  silent_too_long now (set_was_connected v p) = silent_too_long now p
  /\ running (set_was_connected v p) = running p
  /\ allow_reconnection (set_was_connected v p) = allow_reconnection p
  /\ running (set_connection_failures n p) = running p
  /\ allow_reconnection (set_connection_failures n p) = allow_reconnection p.
Proof. repeat split. Qed.

(** X12. A poll that returns. On a running proxy with a client, when the
    poll returns, leaves the proxy running, and either something was
    received within the timeout or the proxy is not connected and tracks no
    node, the tick goes on: the failure count is 0 again and the next tick
    is scheduled. The proxy becomes connected exactly when it was not and
    now tracks a node; then, and only then, the tick adds a notice that the
    connection is up, for attached consumers. In particular a proxy that
    never saw a node polls on however long nothing is received. *)
Theorem returned_poll_keeps_polling
    (update : proxy -> update_outcome) (fault : Client.close_fault)
    (now : Q) (p : proxy) (c : Client.client)
    (p1 : proxy) (e1 : list push) :
  running p = true -> allow_reconnection p = true ->
  bluesky_client p = Some c ->
  update (set_network_timer false p) = Updated p1 e1 ->
  running p1 = true -> allow_reconnection p1 = true ->
  silent_too_long now p1 = false
  \/ (tracked_nodes p1 = [] /\ was_connected p1 = false) ->
  let r := network_timer_callback update fault now p in
  let found :=
    (0 <? length (tracked_nodes p1))%nat && negb (was_connected p1) in
  fst r
  = set_network_timer true
      (if found
       then set_was_connected true (set_connection_failures 0 p1)
       else set_connection_failures 0 p1)
  /\ snd r
     = e1 ++ (if found && has_consumers p1 then [connect_notice now p1]
              else []).
Proof.
  intros Hr Ha Hc Hu Hr1 Ha1 Hs. cbv zeta. unfold network_timer_callback.
  destruct (tick_reads_timer false p) as (T1 & T2 & T3).
  rewrite T1, T2, T3, Hr, Ha, Hc, Hu. cbn [andb].
  destruct (tick_reads_failures now 0 p1)
    as (F1 & F2 & F3 & _ & _ & _ & F7 & F8 & _).
  destruct (silent_reads_connected now true 0
              (set_connection_failures 0 p1))
    as (S1 & S2 & S3 & _ & _).
  destruct (silent_reads_connected now true 0 p1) as (_ & _ & _ & S4 & S5).
  destruct (tick_reads_connected true (set_connection_failures 0 p1))
    as (C1 & _ & C3 & C4 & _).
  rewrite ?F1, ?F2.
  destruct (0 <? length (tracked_nodes p1))%nat eqn:En;
    destruct (was_connected p1) eqn:Ew; cbn [andb negb].
  - rewrite ?F2, ?F3, ?Ew. cbn [andb].
    destruct Hs as [Hs | [Hn _]];
      [| rewrite Hn in En; discriminate En].
    rewrite ?Hs. cbn [fst snd]. rewrite ?S4, ?S5, ?Hr1, ?Ha1. cbn [andb].
    rewrite app_nil_r. split; reflexivity.
  - rewrite ?C1, ?S1, ?F3. cbn [andb].
    destruct Hs as [Hs | [Hn _]];
      [| rewrite Hn in En; discriminate En].
    rewrite ?Hs. cbn [fst snd]. rewrite ?S2, ?S3, ?S4, ?S5, ?Hr1, ?Ha1. cbn [andb].
    split; [reflexivity|]. f_equal.
    unfold _emit_connection_status, connect_notice.
    rewrite ?C3, ?C4, ?F7, ?F8. destruct (has_consumers p1); reflexivity.
  - rewrite ?F2, ?F3, ?Ew. cbn [andb].
    destruct Hs as [Hs | [_ Hw]]; [| discriminate Hw].
    rewrite ?Hs. cbn [fst snd]. rewrite ?S4, ?S5, ?Hr1, ?Ha1. cbn [andb].
    rewrite app_nil_r. split; reflexivity.
  - rewrite ?F2, ?Ew. cbn [andb fst snd]. rewrite ?S4, ?S5, ?Hr1, ?Ha1.
    cbn [andb]. rewrite app_nil_r. split; reflexivity.
Qed.

Lemma returned_poll_keeps_polling_witness :
  fst (network_timer_callback quiet_update Client.CloseClean 1%Q sample_proxy)
  = set_network_timer true (set_connection_failures 0
                              (set_network_timer false sample_proxy))
  /\ snd (network_timer_callback quiet_update Client.CloseClean 1%Q
            sample_proxy) = [].
Proof.
  destruct (@returned_poll_keeps_polling quiet_update Client.CloseClean 1%Q
              sample_proxy
              (Client.set_ctx
                 {| Client.action := VNone;
                    Client.ctx_sender_id := Some sample_node1 |}
                 sample_client)
              (set_network_timer false sample_proxy) [])
    as (H1 & H2).
  - reflexivity.
  - reflexivity.
  - reflexivity.
  - reflexivity.
  - reflexivity.
  - reflexivity.
  - left. vm_compute. reflexivity.
  - split; [exact H1 | exact H2].
Defined.

(** ** Simulation information and the tracked nodes *)

Section DictMore.

Variable V : Type.

Implicit Types (d : list (string * V)) (k : string) (v : V).

Lemma dict_get_set_other k k' v d :
  k <> k' -> dict_get k (dict_set k' v d) = dict_get k d.
Proof.
  intros Hne. induction d as [|[k0 v0] rest IH]; simpl.
  - destruct (string_eqb k k') eqn:E; [|reflexivity].
    apply string_eqb_true in E. contradiction.
  - destruct (string_eqb k' k0) eqn:E'; simpl.
    + apply string_eqb_true in E'. subst k0.
      destruct (string_eqb k k') eqn:E; [|reflexivity].
      apply string_eqb_true in E. contradiction.
    + destruct (string_eqb k k0); [reflexivity | exact IH].
Qed.

Lemma dict_get_mem k d v : dict_get k d = Some v -> dict_mem k d = true.
Proof. intros H. rewrite dict_mem_get, H. reflexivity. Qed.

Lemma dict_get_none_mem k d : dict_get k d = None -> dict_mem k d = false.
Proof. intros H. rewrite dict_mem_get, H. reflexivity. Qed.

End DictMore.




Lemma evens_flat points :
  evens (flat_coordinates points) = map fst points
  /\ odds (flat_coordinates points) = map snd points.
Proof.
  induction points as [|[a b] rest [IH1 IH2]]; [split; reflexivity|].
  cbn [flat_coordinates flat_map app fst snd evens odds map].
  fold (flat_coordinates rest). rewrite IH1. split; [reflexivity|].
  destruct rest as [|[a' b'] rest']; [reflexivity|].
  cbn [flat_coordinates flat_map app fst snd evens odds map] in *.
  fold (flat_coordinates rest') in *. f_equal. exact IH2.
Qed.

Lemma evens_length : forall l,
  (length (evens l) = Nat.div2 (S (length l)))%nat
  /\ (length (odds l) = Nat.div2 (length l))%nat.
Proof.
  fix IH 1. intros [|a [|b rest]]; [split; reflexivity | split; reflexivity|].
  destruct (IH rest) as [H1 H2]. split.
  - cbn [evens length]. rewrite H1. reflexivity.
  - cbn [odds evens length]. destruct rest as [|c rest']; [reflexivity|].
    cbn [odds] in H2. cbn [length]. rewrite H2. reflexivity.
Qed.

(** X14. Flat coordinates. [convert_coordinates], given a shape with a flat
    [coordinates] array of at least the minimal length and without both
    [lat] and [lon], enters the numbers at even positions as [lat], those
    at odd positions as [lon], and the name, and leaves every other key as
    it is: an array of (latitude, longitude) points gives the latitudes
    and the longitudes in order. A shape that has [lat] and [lon] already,
    or a shorter array, is left unchanged. An array of odd length gives one
    latitude more than longitudes. *)
Theorem coordinates_become_lat_lon
    (min_len : nat) (name : string) (info : list (string * pyval)) :
  (forall points,
      dict_get "coordinates" info = Some (VList (flat_coordinates points)) ->
      dict_mem "lat" info && dict_mem "lon" info = false ->
      (min_len <= 2 * length points)%nat ->
      let info' := convert_coordinates min_len name info in
      dict_get "lat" info' = Some (VList (map fst points))
      /\ dict_get "lon" info' = Some (VList (map snd points))
      /\ dict_get "name" info' = Some (VStr name)
      /\ forall k, ~ In k ["lat"; "lon"; "name"]%string ->
           dict_get k info' = dict_get k info)
  /\ (dict_mem "lat" info && dict_mem "lon" info = true ->
      convert_coordinates min_len name info = info)
  /\ (forall coords,
        dict_get "coordinates" info = Some (VList coords) ->
        (length coords < min_len)%nat ->
        convert_coordinates min_len name info = info)
  /\ (forall coords,
        Nat.Odd (length coords) ->
        length (evens coords) = S (length (odds coords))).
Proof.
  split; [|split; [|split]].
  - intros points Hc Hl Hlen. cbv zeta. unfold convert_coordinates.
    rewrite (dict_get_mem _ _ Hc), Hl, Hc. cbn [andb negb].
    assert (Hflat : length (flat_coordinates points) = (2 * length points)%nat).
    { clear. induction points as [|pt rest IH]; [reflexivity|].
      cbn [flat_coordinates flat_map length app]. fold (flat_coordinates rest).
      rewrite IH. lia. }
    rewrite Hflat. destruct (Nat.leb_spec min_len (2 * length points)); [|lia].
    destruct (evens_flat points) as [He Ho]. rewrite He, Ho.
    split; [|split; [|split]].
    + rewrite dict_get_set_other by discriminate.
      rewrite dict_get_set_other by discriminate.
      apply dict_get_set_same.
    + rewrite dict_get_set_other by discriminate. apply dict_get_set_same.
    + apply dict_get_set_same.
    + intros k Hk.
      rewrite !dict_get_set_other; [reflexivity | | |];
        intros ->; apply Hk; cbn; auto.
  - intros H. unfold convert_coordinates. rewrite H. cbn [negb].
    rewrite andb_false_r. reflexivity.
  - intros coords Hc Hlen. unfold convert_coordinates. rewrite Hc.
    destruct (dict_mem "coordinates" info
              && negb (dict_mem "lat" info && dict_mem "lon" info));
      [|reflexivity].
    destruct (Nat.leb_spec min_len (length coords)); [lia | reflexivity].
  - intros coords [m Hm]. destruct (evens_length coords) as [H1 H2].
    rewrite H1, H2, Hm. replace (S (2 * m + 1)) with (2 * (S m))%nat by lia.
    rewrite Nat.div2_double.
    replace (2 * m + 1)%nat with (S (2 * m)) by lia.
    rewrite Nat.div2_succ_double. reflexivity.
Qed.

Lemma goes_to_head which name info :
  goes_to which (name, info)
  = match kind_of info, which with
    | Polygons, Polygons | Polylines, Polylines => true
    | _, _ => false
    end.
Proof. reflexivity. Qed.

Lemma separate_fold : forall polys a b,
  NoDup (dict_keys polys) ->
  (forall k, In k (dict_keys polys) ->
     dict_mem k a = false /\ dict_mem k b = false) ->
  fold_left separate_one polys (a, b)
  = (a ++ map kept_shape (filter (goes_to Polygons) polys),
     b ++ map kept_shape (filter (goes_to Polylines) polys)).
Proof.
  induction polys as [|[name info] rest IH]; intros a b Hnd Hfresh.
  - cbn. rewrite !app_nil_r. reflexivity.
  - cbn [fold_left]. rewrite separate_one_kind. cbn [fst snd].
    cbn [dict_keys map fst] in Hnd, Hfresh.
    inversion Hnd as [|x l Hnot Hnd' ]; subst.
    destruct (Hfresh name (or_introl eq_refl)) as [Ha Hb].
    assert (Hrest : forall v k, In k (map fst rest) ->
              dict_mem k (a ++ [(name, v)]) = false
              /\ dict_mem k (b ++ [(name, v)]) = false
              /\ dict_mem k a = false /\ dict_mem k b = false).
    { intros v k Hk. destruct (Hfresh k (or_intror Hk)) as [Ka Kb].
      assert (Hne : k <> name) by (intros ->; contradiction).
      assert (Hmem : forall d, dict_mem k d = false ->
                dict_mem k (d ++ [(name, v)]) = false).
      { intros d Hd. destruct (dict_mem k (d ++ [(name, v)])) eqn:E;
          [|reflexivity].
        apply dict_mem_In in E. unfold dict_keys in E.
        rewrite map_app in E. apply in_app_or in E.
        destruct E as [E|[E|[]]].
        - apply dict_mem_In in E. congruence.
        - cbn in E. congruence. }
      auto. }
    cbn [filter]. rewrite !goes_to_head.
    destruct (kind_of info) eqn:Ek.
    + rewrite dict_set_new by exact Ha.
      rewrite IH; [| exact Hnd' |].
      * cbn [map]. rewrite <- app_assoc. reflexivity.
      * intros k Hk. destruct (Hrest (kept_form name info) k Hk)
          as (R1 & _ & _ & R4). split; assumption.
    + rewrite dict_set_new by exact Hb.
      rewrite IH; [| exact Hnd' |].
      * cbn [map]. rewrite <- app_assoc. reflexivity.
      * intros k Hk. destruct (Hrest (kept_form name info) k Hk)
          as (_ & R2 & R3 & _). split; assumption.
Qed.

(** X15. [_separate_poly_and_polyline_data]. The shapes of a message, a
    dict of distinct names, are split in two without loss: the polylines
    are the shapes whose [shape] is LINE, the polygons all others, each in
    the order of the message and in the form it is kept in. A part without
    shapes is the empty dict. Anything that is not a dict with a [polys]
    dict is taken for polygons as it is, with no polylines. *)
Theorem shapes_are_split_by_kind (poly_data : pyval) :
  (forall d polys,
      poly_data = VDict d ->
      dict_get "polys" d = Some (VDict polys) ->
      NoDup (dict_keys polys) ->
      _separate_poly_and_polyline_data poly_data
      = (wrap_polys (map kept_shape (filter (goes_to Polygons) polys)),
         wrap_polys (map kept_shape (filter (goes_to Polylines) polys)))
      /\ length (filter (goes_to Polygons) polys)
         + length (filter (goes_to Polylines) polys) = length polys)%nat
  /\ ((forall d polys,
         poly_data = VDict d -> dict_get "polys" d <> Some (VDict polys)) ->
      _separate_poly_and_polyline_data poly_data = (poly_data, VDict [])).
Proof.
  split.
  - intros d polys -> Hp Hnd. split.
    + unfold _separate_poly_and_polyline_data. rewrite Hp.
      rewrite separate_fold; [reflexivity | exact Hnd |].
      intros k _. split; reflexivity.
    + clear. induction polys as [|[name info] rest IH]; [reflexivity|].
      cbn [filter]. rewrite !goes_to_head.
      destruct (kind_of info); cbn [length]; lia.
  - intros H. unfold _separate_poly_and_polyline_data.
    destruct poly_data as [| | | | | | |d]; try reflexivity.
    destruct (dict_get "polys" d) as [v|] eqn:E; [|reflexivity].
    destruct v as [| | | | | | |polys]; try reflexivity.
    exfalso. exact (H d polys eq_refl E).
Qed.

Lemma untouched_refl sender p : untouched sender p p.
Proof. repeat split. Qed.

Lemma untouched_trans sender p q r :
  untouched sender p q -> untouched sender q r -> untouched sender p r.
Proof.
  intros (A1 & A2 & A3 & A4 & A5 & A6 & A7) (B1 & B2 & B3 & B4 & B5 & B6 & B7).
  repeat split; try congruence.
  intros which k Hk. rewrite B7, A7 by exact Hk. reflexivity.
Qed.

Lemma untouched_active sender p q :
  untouched sender p q -> _get_safe_active_node q = _get_safe_active_node p.
Proof.
  intros (A1 & A2 & A3 & _ & A5 & _). unfold _get_safe_active_node.
  rewrite A1, A2, A3, A5. reflexivity.
Qed.

Lemma store_of_set which which' v p :
  store_of which' (set_store which v p)
  = match which, which' with
    | Polygons, Polygons | Polylines, Polylines => v
    | _, _ => store_of which' p
    end.
Proof. destruct which, which'; reflexivity. Qed.

Lemma set_store_untouched which sender v p :
  untouched sender p
    (set_store which (dict_set sender v (store_of which p)) p).
Proof.
  unfold untouched.
  repeat (split; [destruct which; reflexivity|]).
  intros which' k Hk. rewrite store_of_set.
  destruct which, which'; try reflexivity;
    apply dict_get_set_other; exact Hk.
Qed.

Lemma set_stored_untouched which sender polys p :
  untouched sender p (set_stored_polys which sender polys p).
Proof.
  unfold set_stored_polys.
  destruct (dict_get sender (store_of which p)) as [[]|];
    try apply untouched_refl.
  apply set_store_untouched.
Qed.

Lemma local_ret sender (A : Type) (a : A) : local_step sender (ret a).
Proof. intros p. split; [apply untouched_refl | reflexivity]. Qed.

Lemma local_raise sender (A : Type) : local_step sender (@raise A).
Proof. intros p. split; [apply untouched_refl | reflexivity]. Qed.

Lemma local_checked sender (A : Type) (o : option A) :
  local_step sender (checked o).
Proof. destruct o; [apply local_ret | apply local_raise]. Qed.

Lemma local_reading sender (A : Type) (f : proxy -> A) :
  local_step sender (reading f).
Proof. intros p. split; [apply untouched_refl | reflexivity]. Qed.

Lemma local_modify sender (f : proxy -> proxy) :
  (forall p, untouched sender p (f p)) -> local_step sender (modify f).
Proof. intros H p. split; [apply H | reflexivity]. Qed.

Lemma local_bind sender (A B : Type) (m : step A) (k : A -> step B) :
  local_step sender m -> (forall a, local_step sender (k a)) ->
  local_step sender (bind m k).
Proof.
  intros Hm Hk p. unfold bind. specialize (Hm p).
  destruct (m p) as [[p1 e1] [a|]]; cbn [fst snd] in *.
  - specialize (Hk a p1). destruct (k a p1) as [[p2 e2] r2].
    cbn [fst snd] in *. destruct Hm as [M1 ->], Hk as [K1 ->].
    split; [eapply untouched_trans; eassumption | reflexivity].
  - exact Hm.
Qed.

Lemma local_stored sender which (A : Type)
    (k : list (string * pyval) -> step A) :
  (forall polys, local_step sender (k polys)) ->
  local_step sender
    (bind (fun p => checked (stored_polys which sender p) p) k).
Proof.
  intros Hk. apply local_bind; [|exact Hk].
  intros p. destruct (stored_polys which sender p);
    (split; [apply untouched_refl | reflexivity]).
Qed.

Lemma local_init which sender : local_step sender (init_store which sender).
Proof.
  apply local_modify. intros p.
  destruct (dict_mem sender (store_of which p));
    [apply untouched_refl | apply set_store_untouched].
Qed.

Lemma local_replace which sender separated :
  local_step sender (replace_shapes which sender separated).
Proof.
  apply local_bind; [apply local_checked|]. intros found.
  apply local_modify. intros p. apply set_store_untouched.
Qed.

Lemma local_merge which sender separated :
  local_step sender (merge_shapes which sender separated).
Proof.
  apply local_bind; [apply local_checked|].
  intros [found|]; [|apply local_ret].
  assert (Hseq : forall other,
             local_step sender
               (bind (fun p => checked (stored_polys which sender p) p)
                  (fun polys =>
                     bind (checked (update_elements other))
                       (fun items =>
                          let (polys', complete) :=
                            update_from_items items polys in
                          bind (modify (set_stored_polys which sender polys'))
                            (fun _ => if complete then ret tt else raise))))).
  { intros other. apply local_stored. intros polys.
    apply local_bind; [apply local_checked|]. intros items.
    destruct (update_from_items items polys) as [polys' complete].
    apply local_bind.
    - apply local_modify. intros p. apply set_stored_untouched.
    - intros _. destruct complete; [apply local_ret | apply local_raise]. }
  destruct found as [| | | | | | |d]; try apply Hseq.
  apply local_stored. intros polys. apply local_modify. intros p.
  apply set_stored_untouched.
Qed.

Lemma local_limit which sender : local_step sender (apply_limit which sender).
Proof.
  apply local_stored. intros polys. apply local_modify. intros p.
  apply set_stored_untouched.
Qed.

Lemma pushed_after_local sender (A B : Type) (m : step A) (k : A -> step B) :
  local_step sender m ->
  (forall a p,
     untouched sender p (fst (fst (k a p)))
     /\ shapes_pushed sender p (fst (fst (k a p))) (snd (fst (k a p)))) ->
  forall p,
    untouched sender p (fst (fst (bind m k p)))
    /\ shapes_pushed sender p (fst (fst (bind m k p)))
         (snd (fst (bind m k p))).
Proof.
  intros Hm Hk p. unfold bind. specialize (Hm p).
  destruct (m p) as [[p1 e1] [a|]]; cbn [fst snd] in *.
  - specialize (Hk a p1). destruct (k a p1) as [[p2 e2] r2].
    cbn [fst snd] in *. destruct Hm as [M1 ->], Hk as [K1 K2].
    split; [eapply untouched_trans; eassumption|].
    cbn [app]. destruct K2 as [->|(K3 & K4 & K5)]; [left; reflexivity|].
    right. rewrite <- (untouched_active M1).
    destruct M1 as (_ & _ & _ & M4 & _). rewrite <- M4.
    repeat split; assumption.
  - destruct Hm as [M1 ->]. split; [exact M1 | left; reflexivity].
Qed.

Lemma bind_reading (A B : Type) (f : proxy -> A) (k : A -> step B) p :
  bind (reading f) k p = k (f p) p.
Proof.
  unfold bind, reading. destruct (k (f p) p) as [[p2 e2] r2]. reflexivity.
Qed.

Lemma poly_body_local data p :
  match context_sender p with
  | Some sender =>
      untouched sender p (fst (fst (poly_body data p)))
      /\ shapes_pushed sender p (fst (fst (poly_body data p)))
           (snd (fst (poly_body data p)))
  | None => fst (poly_body data p) = (p, [])
  end.
Proof.
  unfold poly_body.
  destruct (_separate_poly_and_polyline_data (make_json_serializable data))
    as [polygons polylines].
  rewrite bind_reading.
  destruct (context_sender p) as [sender|]; [|reflexivity].
  cbv beta iota. revert p.
  apply pushed_after_local; [apply local_init|]. intros _.
  apply pushed_after_local; [apply local_init|]. intros _.
  apply pushed_after_local; [apply local_checked|]. intros action_type.
  apply pushed_after_local.
  { destruct (clears_first action_type);
      (apply local_bind; [|intros _]);
      first [apply local_replace | apply local_merge]. }
  intros _.
  apply pushed_after_local; [apply local_limit|]. intros _.
  apply pushed_after_local; [apply local_limit|]. intros _.
  intros p. unfold bind, reading.
  destruct (_get_safe_active_node p) as [active|] eqn:Ea;
    [| cbn; split; [apply untouched_refl | left; reflexivity]].
  destruct (string_eqb sender active) eqn:Es;
    [| cbn; split; [apply untouched_refl | left; reflexivity]].
  apply string_eqb_true in Es. subst active.
  unfold pushing. cbn [fst snd app].
  split; [apply untouched_refl|].
  destruct (socketio p) eqn:Eso; [right | left; reflexivity].
  repeat split; assumption.
Qed.

(** X16. What a POLY message can reach. For a payload whose shapes are
    keyed by strings (the dictionaries of the model hold no other key),
    held as a dict or as a sequence of pairs or as anything else, and
    whether or not handling it fails half way, [on_poly_received] changes
    nothing but the time of the last update and the shapes stored for the
    sender left in the client's context: the shapes of every other node,
    the client, the tracked nodes and the connection flags stay as they
    were. It pushes either nothing or the sender's stored polygons and
    polylines, and these only when the sender is the active node and an
    event channel is attached. Without a sender in the context nothing is
    stored. *)
Theorem poly_message_stays_with_sender (data : pyval) (now : Q) (p : proxy) :
  string_keyed data = true ->
  let r := on_poly_received data now p in
  bluesky_client (fst r) = bluesky_client p
  /\ tracked_nodes (fst r) = tracked_nodes p
  /\ running (fst r) = running p
  /\ was_connected (fst r) = was_connected p
  /\ (forall which k,
        context_sender p <> Some k ->
        dict_get k (store_of which (fst r)) = dict_get k (store_of which p))
  /\ (snd r = []
      \/ exists sender,
           context_sender p = Some sender
           /\ _get_safe_active_node p = Some sender
           /\ socketio p = true
           /\ snd r
              = [Emit "poly" (stored_or_empty Polygons sender (fst r));
                 Emit "polyline" (stored_or_empty Polylines sender (fst r))]).
Proof.
  intros _. cbv zeta. unfold on_poly_received.
  destruct (allow_reconnection p).
  2:{ cbn [negb fst snd]. repeat (split; [reflexivity|]).
      left; reflexivity. }
  cbn [negb]. unfold try_except.
  pose proof (poly_body_local data (set_last_successful_update now p)) as H.
  change (context_sender (set_last_successful_update now p))
    with (context_sender p) in H.
  destruct (context_sender p) as [sender|].
  - destruct H as [(U1 & U2 & U3 & U4 & U5 & U6 & U7) S].
    destruct (fst (poly_body data (set_last_successful_update now p)))
      as [p' e]. cbn [fst snd] in *.
    split; [exact U1|]. split; [exact U5|]. split; [exact U2|].
    split; [exact U3|]. split.
    + intros which k Hk. rewrite U7 by congruence.
      destruct which; reflexivity.
    + destruct S as [->|(S1 & S2 & S3)]; [left; reflexivity|].
      right. exists sender. repeat split; assumption.
  - rewrite H. cbn [fst snd]. repeat (split; [reflexivity|]).
    first [ left; reflexivity
          | split; [intros which k _; destruct which; reflexivity
                   | left; reflexivity] ].
Qed.

Lemma poly_message_stays_with_sender_witness :
  string_keyed sample_pairs_payload = true
  /\ snd (on_poly_received sample_pairs_payload 1 sample_proxy)
     = [Emit "poly"
          (stored_or_empty Polygons (Text.hex sample_node1)
             (fst (on_poly_received sample_pairs_payload 1 sample_proxy)));
        Emit "polyline"
          (stored_or_empty Polylines (Text.hex sample_node1)
             (fst (on_poly_received sample_pairs_payload 1 sample_proxy)))]
  /\ forall which k,
       k <> Text.hex sample_node1 ->
       dict_get k
         (store_of which
            (fst (on_poly_received sample_pairs_payload 1 sample_proxy)))
       = dict_get k (store_of which sample_proxy).
Proof.
  split; [reflexivity|].
  destruct (@poly_message_stays_with_sender sample_pairs_payload 1
              sample_proxy eq_refl) as (_ & _ & _ & _ & H5 & H6).
  split.
  - destruct H6 as [H6|(sender & Hs & _ & _ & H6)].
    + vm_compute in H6. discriminate H6.
    + assert (sender = Text.hex sample_node1) as ->
        by (vm_compute in Hs; injection Hs as <-; reflexivity).
      exact H6.
  - intros which k Hk. apply H5. intros E. apply Hk.
    vm_compute in E. injection E as <-. reflexivity.
Defined.

End ProxyFacts.

Module ManagersFacts.

Import WireSpec SignalsSpec ClientSpec ProxySpec ManagersSpec WireFacts SignalsFacts ClientFacts ProxyFacts Wire Proxy NodeManager DataManager CommandProcessor Identity Events.

(** X17. Tracked servers. A server is tracked once: adding it again changes
    nothing and pushes nothing, and a list without repetitions stays so.
    Removing a server that was just added, and was new, gives the list
    back; removing one that is not tracked changes nothing and pushes
    nothing. Adding announces the new list only while the proxy runs,
    removing announces it whether it runs or not; neither touches the
    tracked nodes. *)
Theorem tracked_servers_round_trip (server_id : bytes) (p : proxy) :
  let added := _on_server_added server_id p in
  In server_id (tracked_servers (fst added))
  /\ _on_server_added server_id (fst added) = (fst added, [])
  /\ (NoDup (tracked_servers p) -> NoDup (tracked_servers (fst added)))
  /\ tracked_nodes (fst added) = tracked_nodes p
  /\ (~ In server_id (tracked_servers p) ->
      tracked_servers (fst (_on_server_removed server_id (fst added)))
      = tracked_servers p
      /\ _on_server_removed server_id p = (p, [])
      /\ snd added
         = (if running p then _emit_node_info (fst added) else [])
      /\ snd (_on_server_removed server_id (fst added))
         = _emit_node_info (fst (_on_server_removed server_id (fst added)))).
Proof.
  cbv zeta. unfold _on_server_added.
  destruct (Client.mem_bytes server_id (tracked_servers p)) eqn:E;
    cbn [fst snd].
  - rewrite E. apply mem_bytes_In in E.
    split; [exact E|]. split; [reflexivity|]. split; [auto|].
    split; [reflexivity|]. intros Hn. contradiction.
  - apply mem_bytes_not_In in E.
    assert (Hin : Client.mem_bytes server_id (tracked_servers p ++ [server_id])
                  = true)
      by (apply mem_bytes_In, in_or_app; right; left; reflexivity).
    split; [apply in_or_app; right; left; reflexivity|].
    split.
    { change (tracked_servers
                (set_tracked_servers (tracked_servers p ++ [server_id]) p))
        with (tracked_servers p ++ [server_id]).
      rewrite Hin. reflexivity. }
    split.
    { intros Hnd.
      change (tracked_servers
                (set_tracked_servers (tracked_servers p ++ [server_id]) p))
        with (tracked_servers p ++ [server_id]).
      apply NoDup_app; [exact Hnd | constructor; [intros [] | constructor] |].
      intros a Ha [<-|[]]. contradiction. }
    split; [reflexivity|]. intros _.
    unfold _on_server_removed.
    change (tracked_servers
              (set_tracked_servers (tracked_servers p ++ [server_id]) p))
      with (tracked_servers p ++ [server_id]).
    rewrite Hin, (proj2 (mem_bytes_not_In server_id (tracked_servers p)) E).
    cbn [fst snd]. rewrite discard_bytes_last by exact E.
    repeat split.
Qed.

Lemma last_byte_app front x : last_byte (front ++ [x]) = Some x.
Proof. unfold last_byte. rewrite rev_app_distr. reflexivity. Qed.

Lemma last_byte_some node_id :
  node_id <> [] ->
  exists x, last_byte node_id = Some x
            /\ byte_val x = Client.last_byte_val node_id.
Proof.
  intros Hne. destruct (exists_last Hne) as (front & x & ->).
  exists x. rewrite last_byte_app. split; [reflexivity|].
  unfold Client.last_byte_val. rewrite rev_app_distr. reflexivity.
Qed.

(** The steps of [_on_node_added] for a node that is not tracked yet. *)
Lemma node_added_run node_id now p c :
  bluesky_client p = Some c ->
  dict_mem (Text.hex node_id) (tracked_nodes p) = false ->
  node_id <> [] ->
  let r1 := if Client.mem_bytes (server_of node_id c) (tracked_servers p)
            then (p, [])
            else _on_server_added (server_of node_id c) p in
  let p2 :=
    set_tracked_nodes
      (dict_set (Text.hex node_id) (entry_of node_id c)
         (tracked_nodes (fst r1))) (fst r1) in
  let r3 :=
    if negb (was_connected p2) && (0 <? length (tracked_nodes p2))%nat
    then (set_was_connected true p2,
          _emit_connection_status true now (set_was_connected true p2))
    else (p2, []) in
  _on_node_added node_id now p
  = (fst r3,
     snd r1 ++ snd r3
     ++ (if running (fst r3) then _emit_node_info (fst r3) else [])).
Proof.
  intros Hc Hn Hne.
  destruct (last_byte_some Hne) as (x & Hl & Hx).
  unfold entry_of. rewrite <- Hx. clear Hx.
  unfold _on_node_added, try_except, node_added_body.
  change (seqidx2id 0) with (Some [x80]%byte).
  cbv [bind reading checked ret raise modify pushing seqid2idx server_of].
  rewrite Hn, Hc, Hl.
  match goal with
  | |- context [Client.mem_bytes ?s (Client.servers c)] =>
      destruct (Client.mem_bytes s (Client.servers c))
  end;
  match goal with
  | |- context [Client.mem_bytes ?s (tracked_servers p)] =>
      destruct (Client.mem_bytes s (tracked_servers p))
  end;
  cbv beta iota zeta;
  try match goal with
  | |- context [_on_server_added ?s p] =>
      destruct (_on_server_added s p) as [p1 e1]; cbv beta iota zeta
  end;
  cbn [fst snd];
  match goal with
  | |- context [negb (was_connected ?q) && ?n] =>
      destruct (negb (was_connected q) && n)
  end;
  cbv beta iota zeta; cbn [fst snd app]; rewrite ?app_nil_r; reflexivity.
Qed.

Lemma dict_set_fresh_length (V : Type) k (v : V) d :
  dict_mem k d = false ->
  dict_set k v d = d ++ [(k, v)]
  /\ (0 <? length (dict_set k v d))%nat = true
  /\ dict_mem k (dict_set k v d) = true.
Proof.
  intros H. rewrite dict_set_new by exact H. split; [reflexivity|]. split.
  - rewrite length_app. cbn [length]. apply Nat.ltb_lt. lia.
  - apply dict_mem_In. unfold dict_keys. rewrite map_app.
    apply in_or_app. right. left. reflexivity.
Qed.

Lemma node_added_state
    (node_id : bytes) (now : Q) (p : proxy) (c : Client.client) :
  bluesky_client p = Some c ->
  dict_mem (Text.hex node_id) (tracked_nodes p) = false ->
  node_id <> [] ->
  let r := _on_node_added node_id now p in
  tracked_nodes (fst r)
  = tracked_nodes p ++ [(Text.hex node_id, entry_of node_id c)]
  /\ tracked_servers (fst r)
     = Client.set_add_bytes (server_of node_id c) (tracked_servers p)
  /\ was_connected (fst r) = true
  /\ running (fst r) = running p
  /\ bluesky_client (fst r) = Some c.
Proof.
  intros Hc Hn Hne. cbv zeta.
  rewrite (@node_added_run node_id now p c Hc Hn Hne). cbv zeta.
  destruct (@dict_set_fresh_length _ (Text.hex node_id) (entry_of node_id c)
              (tracked_nodes p) Hn) as (Hset & Hlen & Hmem).
  unfold Client.set_add_bytes, _on_server_added.
  destruct (Client.mem_bytes (server_of node_id c) (tracked_servers p)) eqn:Es;
    cbn [fst snd was_connected tracked_nodes tracked_servers running
         bluesky_client set_tracked_nodes set_tracked_servers
         set_was_connected];
    rewrite Hlen, andb_true_r;
    destruct (was_connected p) eqn:Ew;
    cbn [negb fst snd was_connected tracked_nodes tracked_servers running
         bluesky_client set_tracked_nodes set_tracked_servers
         set_was_connected app];
    rewrite ?Ew;
    (split; [exact Hset|]); (split; [reflexivity|]);
    (split; [reflexivity|]); (split; [reflexivity|]); exact Hc.
Qed.

(** X18. [_on_node_added] for a node that is not tracked yet, on a proxy
    with a client. The node is entered last in the table under the hex
    form of its identity, with the sequence index of its last byte as
    number, status init, and the server of its group when the client knows
    that server and the ungrouped server 0 otherwise; the server is tracked
    from then on. The proxy counts as connected afterwards. Without
    consumers nothing is pushed; with consumers the notice that the
    connection is up is pushed exactly when the proxy was not connected
    before, and while the proxy runs the last event is the node list as it
    is now. Announcing the same node again changes nothing and pushes
    nothing. *)
Theorem node_added_is_tracked
    (node_id : bytes) (now : Q) (p : proxy) (c : Client.client) :
  bluesky_client p = Some c ->
  dict_mem (Text.hex node_id) (tracked_nodes p) = false ->
  node_id <> [] ->
  let r := _on_node_added node_id now p in
  tracked_nodes (fst r)
  = tracked_nodes p ++ [(Text.hex node_id, entry_of node_id c)]
  /\ tracked_servers (fst r)
     = Client.set_add_bytes (server_of node_id c) (tracked_servers p)
  /\ was_connected (fst r) = true
  /\ running (fst r) = running p
  /\ bluesky_client (fst r) = Some c
  /\ (has_consumers p = false -> snd r = [])
  /\ (has_consumers p = true ->
      (In (connect_notice now p) (snd r) <-> was_connected p = false)
      /\ (running p = true ->
          exists before,
            snd r
            = before
              ++ [EmitNodeInfo (tracked_nodes (fst r))
                    (tracked_servers (fst r))
                    (_get_safe_active_node (fst r))
                    (length (tracked_nodes (fst r)))]))
  /\ _on_node_added node_id now (fst r) = (fst r, []).
Proof.
  intros Hc Hn Hne. cbv zeta.
  rewrite (@node_added_run node_id now p c Hc Hn Hne). cbv zeta.
  destruct (@dict_set_fresh_length _ (Text.hex node_id) (entry_of node_id c)
              (tracked_nodes p) Hn) as (Hset & Hlen & Hmem).
  assert (Hagain : forall q,
            dict_mem (Text.hex node_id) (tracked_nodes q) = true ->
            _on_node_added node_id now q = (q, [])).
  { intros q Hq. unfold _on_node_added, try_except, node_added_body.
    cbv [bind reading ret]. rewrite Hq. reflexivity. }
  unfold Client.set_add_bytes, _on_server_added.
  destruct (Client.mem_bytes (server_of node_id c) (tracked_servers p)) eqn:Es;
    cbn [fst snd was_connected tracked_nodes tracked_servers running
         bluesky_client set_tracked_nodes set_tracked_servers
         set_was_connected];
    rewrite Hlen, andb_true_r;
    destruct (was_connected p) eqn:Ew;
    cbn [negb fst snd was_connected tracked_nodes tracked_servers running
         bluesky_client set_tracked_nodes set_tracked_servers
         set_was_connected app];
    rewrite ?Ew;
    (split; [exact Hset|]); (split; [reflexivity|]);
    (split; [reflexivity|]); (split; [reflexivity|]);
    (split; [exact Hc|]);
    (split; [|split; [|apply Hagain; exact Hmem]]).
  all: unfold _emit_node_info, _emit_connection_status, has_consumers;
    cbn [socketio connected_clients set_tracked_nodes set_tracked_servers
         set_was_connected tracked_nodes tracked_servers server_ip running].
  all: fold (has_consumers p).
  all: try (intros Hh; rewrite Hh; destruct (running p); reflexivity).
  all: intros Hh; rewrite Hh; fold (connect_notice now p);
    destruct (running p); cbn [app]; split.
  all: try (intros Hr; try discriminate Hr;
            first [ exists []; reflexivity
                  | eexists [_]; reflexivity
                  | eexists [_; _]; reflexivity ]).
  all: split; intros H; try reflexivity; try discriminate H.
  all: try (cbn [In] in H;
            repeat (destruct H as [H|H]; try discriminate H);
            contradiction).
  all: cbn [In]; auto.
Qed.

Lemma node_added_is_tracked_witness :
  tracked_nodes (fst (_on_node_added sample_node2 1%Q sample_proxy))
  = tracked_nodes sample_proxy
    ++ [(Text.hex sample_node2,
         entry_of sample_node2
           (Client.set_ctx
              {| Client.action := VNone;
                 Client.ctx_sender_id := Some sample_node1 |}
              sample_client))]
  /\ _on_node_added sample_node2 1%Q
       (fst (_on_node_added sample_node2 1%Q sample_proxy))
     = (fst (_on_node_added sample_node2 1%Q sample_proxy), []).
Proof.
  destruct (@node_added_is_tracked sample_node2 1%Q sample_proxy
              (Client.set_ctx
                 {| Client.action := VNone;
                    Client.ctx_sender_id := Some sample_node1 |}
                 sample_client))
    as (H1 & _ & _ & _ & _ & _ & _ & H8).
  - reflexivity.
  - vm_compute. reflexivity.
  - discriminate.
  - split; [exact H1 | exact H8].
Defined.

Lemma dict_del_last (V : Type) k (v : V) d :
  dict_mem k d = false -> dict_del k (d ++ [(k, v)]) = d.
Proof.
  induction d as [|[k' v'] rest IH]; simpl.
  - intros _. rewrite string_eqb_refl. reflexivity.
  - destruct (string_eqb k k'); simpl; [discriminate|].
    intros H. rewrite IH by exact H. reflexivity.
Qed.

Lemma check_shutdown_run fault now q :
  _check_node_shutdown fault now q
  = if (length (tracked_nodes q) =? 0)%nat && was_connected q && running q
    then _handle_disconnection "All nodes removed (server shutdown)" fault
           now q
    else (q, []).
Proof. reflexivity. Qed.

(** X19. A node that comes and goes. On a running proxy with a client, a
    node that is announced and then withdrawn leaves the table of tracked
    nodes as it was before. The withdrawal starts the shutdown check
    exactly when no node is left. When the check then still finds no node
    it gives the connection up: the proxy stops, is marked not connected
    and closes its client. When a node was announced in between, the
    check changes nothing and pushes nothing. *)
Theorem node_comes_and_goes
    (node_id : bytes) (now : Q) (fault : Client.close_fault)
    (p : proxy) (c : Client.client) :
  bluesky_client p = Some c ->
  running p = true ->
  dict_mem (Text.hex node_id) (tracked_nodes p) = false ->
  node_id <> [] ->
  let added := fst (_on_node_added node_id now p) in
  let removed := _on_node_removed node_id added in
  let left := fst (fst removed) in
  tracked_nodes left = tracked_nodes p
  /\ snd removed = (length (tracked_nodes p) =? 0)%nat
  /\ (tracked_nodes p = [] ->
      forall later,
        let down := _check_node_shutdown fault later left in
        running (fst down) = false
        /\ was_connected (fst down) = false
        /\ allow_reconnection (fst down) = false
        /\ bluesky_client (fst down) = Some (Client.close fault c))
  /\ (forall other later,
        other <> [] ->
        let back := fst (_on_node_added other later left) in
        _check_node_shutdown fault later back = (back, [])).
Proof.
  intros Hc Hr Hn Hne. cbv zeta.
  destruct (@node_added_state node_id now p c Hc Hn Hne)
    as (A1 & A2 & A3 & A4 & A5).
  destruct (_on_node_added node_id now p) as [added e0]. cbn [fst] in *.
  assert (Hmem : dict_mem (Text.hex node_id) (tracked_nodes added) = true).
  { rewrite A1. apply dict_mem_In. unfold dict_keys. rewrite map_app.
    apply in_or_app. right. left. reflexivity. }
  unfold _on_node_removed. rewrite Hmem. cbn [fst snd].
  change (tracked_nodes
            (set_tracked_nodes
               (dict_del (Text.hex node_id) (tracked_nodes added)) added))
    with (dict_del (Text.hex node_id) (tracked_nodes added)).
  change (was_connected
            (set_tracked_nodes
               (dict_del (Text.hex node_id) (tracked_nodes added)) added))
    with (was_connected added).
  change (running
            (set_tracked_nodes
               (dict_del (Text.hex node_id) (tracked_nodes added)) added))
    with (running added).
  rewrite A1, dict_del_last by exact Hn. rewrite A3, A4, Hr, !andb_true_r.
  split; [reflexivity|]. split; [reflexivity|].
  set (left := set_tracked_nodes (tracked_nodes p) added).
  assert (L1 : tracked_nodes left = tracked_nodes p) by reflexivity.
  assert (L2 : was_connected left = true) by exact A3.
  assert (L3 : running left = true) by (rewrite <- Hr, <- A4; reflexivity).
  assert (L4 : bluesky_client left = Some c) by exact A5.
  split.
  - intros Hno later. cbv zeta. rewrite check_shutdown_run.
    rewrite L1, Hno, L2, L3. cbn [length Nat.eqb andb].
    destruct (@handle_disconnection_run "All nodes removed (server shutdown)"
                fault later left c L4)
      as (B1 & B2 & B3 & _ & _ & _ & _ & _ & _ & _ & _ & B12 & _).
    auto.
  - intros other later Hother. cbv zeta. rewrite check_shutdown_run.
    assert (Hnodes : tracked_nodes
                       (fst (_on_node_added other later left)) <> []).
    { destruct (dict_mem (Text.hex other) (tracked_nodes left)) eqn:Eo.
      - assert (Hsame : _on_node_added other later left = (left, [])).
        { unfold _on_node_added, try_except, node_added_body.
          cbv [bind reading ret]. rewrite Eo. reflexivity. }
        rewrite Hsame. cbn [fst]. intros Hnil. rewrite Hnil in Eo.
        discriminate Eo.
      - destruct (@node_added_state other later left c L4 Eo Hother)
          as (C1 & _). rewrite C1. intros Hnil.
        apply app_eq_nil in Hnil. destruct Hnil as [_ Hnil].
        discriminate Hnil. }
    destruct (tracked_nodes (fst (_on_node_added other later left)))
      as [|x rest]; [contradiction|]. reflexivity.
Qed.

Lemma node_comes_and_goes_witness :
  tracked_nodes
    (fst (fst (_on_node_removed sample_node2
                 (fst (_on_node_added sample_node2 1%Q sample_proxy)))))
  = tracked_nodes sample_proxy
  /\ snd (_on_node_removed sample_node2
            (fst (_on_node_added sample_node2 1%Q sample_proxy)))
     = false.
Proof.
  destruct (@node_comes_and_goes sample_node2 1%Q Client.CloseClean
              sample_proxy
              (Client.set_ctx
                 {| Client.action := VNone;
                    Client.ctx_sender_id := Some sample_node1 |}
                 sample_client))
    as (H1 & H2 & _).
  - reflexivity.
  - reflexivity.
  - vm_compute. reflexivity.
  - discriminate.
  - split; [exact H1 | exact H2].
Defined.

(** ** The first page load and the active node's shapes *)

Lemma emit_active_shapes_run name which active p shape_data n :
  (match active with
   | Some a =>
       if string_eqb a EmptyString then None
       else dict_get a (store_of which p)
   | None => None
   end) = Some shape_data ->
  shape_count shape_data = Some n ->
  emit_active_shapes name which active p
  = (p, if has_consumers p then [Emit name shape_data] else [], Some tt).
Proof.
  intros Hs Hn. unfold emit_active_shapes.
  cbv [bind reading checked ret raise pushing]. rewrite Hs, Hn.
  cbn [app]. reflexivity.
Qed.

Lemma emit_active_shapes_none name which active p :
  (match active with
   | Some a =>
       if string_eqb a EmptyString then None
       else dict_get a (store_of which p)
   | None => None
   end) = None ->
  emit_active_shapes name which active p
  = (p, if has_consumers p then [Emit name (VDict [])] else [], Some tt).
Proof.
  intros Hs. unfold emit_active_shapes.
  cbv [bind reading checked ret raise pushing]. rewrite Hs.
  cbn [app]. reflexivity.
Qed.

Lemma emit_active_shapes_state name which active p :
  fst (fst (emit_active_shapes name which active p)) = p.
Proof.
  unfold emit_active_shapes. cbv [bind reading checked ret raise pushing].
  destruct (match active with
            | Some a =>
                if string_eqb a EmptyString then None
                else dict_get a (store_of which p)
            | None => None
            end) as [sd|]; [|reflexivity].
  destruct (shape_count sd); reflexivity.
Qed.

Lemma safe_active_node_fields p a :
  _get_safe_active_node p = Some a ->
  running p = true /\ was_connected p = true
  /\ (exists c raw, bluesky_client p = Some c
                    /\ Client.act_id c = Some raw /\ a = Text.hex raw)
  /\ dict_mem a (tracked_nodes p) = true.
Proof.
  unfold _get_safe_active_node.
  destruct (bluesky_client p) as [c|]; [|discriminate].
  destruct (running p); [|discriminate].
  destruct (was_connected p); [|discriminate]. cbn [negb orb].
  destruct (length (tracked_nodes p) =? 0)%nat; [discriminate|].
  destruct (Client.act_id c) as [[|x raw]|] eqn:Ea; try discriminate.
  destruct (dict_mem (Text.hex (x :: raw)) (tracked_nodes p)) eqn:E;
    [|discriminate].
  intros H. injection H as <-.
  split; [reflexivity|]. split; [reflexivity|].
  split; [|exact E]. exists c, (x :: raw).
  split; [reflexivity|]. split; [exact Ea | reflexivity].
Qed.

Lemma get_current_data_shapes safe_decode now p cd :
  get_current_data safe_decode now p = Some cd ->
  forall which,
    let shown := match which with
                 | Polygons => cd_poly_data cd
                 | Polylines => cd_polyline_data cd
                 end in
    match (match _get_safe_active_node p with
           | Some a =>
               if string_eqb a EmptyString then None
               else dict_get a (store_of which p)
           | None => None
           end) with
    | Some shape_data =>
        shown = shape_data /\ exists n, shape_count shape_data = Some n
    | None => shown = VDict []
    end.
Proof.
  unfold get_current_data.
  destruct (_get_safe_active_node p) as [a|].
  - destruct (string_eqb a EmptyString).
    + intros H. injection H as <-. intros []; reflexivity.
    + unfold active_shapes.
      destruct (dict_get a (store_of Polygons p)) as [pg|] eqn:Eg;
        destruct (dict_get a (store_of Polylines p)) as [pl|] eqn:El;
        cbv beta iota;
        try (destruct (shape_count pg) as [n|] eqn:Ng; [|discriminate]);
        try (destruct (shape_count pl) as [m|] eqn:Nl; [|discriminate]);
        try change (shape_count (VDict [])) with (Some 0%nat);
        cbv beta iota;
        intros H; injection H as <-; intros [];
        cbv beta iota zeta; cbn [cd_poly_data cd_polyline_data];
        rewrite ?Eg, ?El; eauto.
  - intros H. injection H as <-. intros []; reflexivity.
Qed.

Lemma emitted_then_changed p (shapes : list push) :
  _emit_active_node_poly_data p
  = (p, if has_consumers p then shapes else []) ->
  _emit_active_node_poly_data p
  = (p, if has_consumers p then shapes else [])
  /\ (forall node_id : bytes,
        _on_actnode_changed node_id p
        = (p, if running p && has_consumers p
              then EmitNodeInfo (tracked_nodes p) (tracked_servers p)
                     (_get_safe_active_node p) (length (tracked_nodes p))
                   :: shapes
              else [])).
Proof.
  intros H. split; [exact H|]. intros node_id. unfold _on_actnode_changed.
  rewrite H. unfold _emit_node_info.
  destruct (running p), (has_consumers p); reflexivity.
Qed.

(** X20. The first page load. [get_current_data] fails only when an
    active node has stored shapes that cannot be counted. What it returns
    is consistent: an active node is reported only together with a live
    connection and is one of the nodes listed, whose count is the length
    of the list; without an active node no shapes are included. The
    shapes it includes are those that [_emit_active_node_poly_data] pushes
    to attached consumers, polygons first, and neither changes the proxy.
    [_on_actnode_changed] pushes the node list and then these shapes while
    the proxy runs, and nothing when it does not. *)
Theorem first_page_data_is_consistent
    (safe_decode : bytes -> string) (now : Q) (p : proxy) :
  (_get_safe_active_node p = None ->
   exists cd, get_current_data safe_decode now p = Some cd
              /\ cd_poly_data cd = VDict []
              /\ cd_polyline_data cd = VDict [])
  /\ (forall cd,
        get_current_data safe_decode now p = Some cd ->
        cd_active_node cd = _get_safe_active_node p
        /\ cd_total_nodes cd = length (cd_nodes cd)
        /\ (forall active,
              cd_active_node cd = Some active ->
              cd_connected cd = true
              /\ dict_mem active (cd_nodes cd) = true)
        /\ _emit_active_node_poly_data p
           = (p, if has_consumers p
                 then [Emit "poly" (cd_poly_data cd);
                       Emit "polyline" (cd_polyline_data cd)]
                 else [])
        /\ (forall node_id,
              _on_actnode_changed node_id p
              = (p, if running p && has_consumers p
                    then [EmitNodeInfo (tracked_nodes p) (tracked_servers p)
                            (_get_safe_active_node p)
                            (length (tracked_nodes p));
                          Emit "poly" (cd_poly_data cd);
                          Emit "polyline" (cd_polyline_data cd)]
                    else []))).
Proof.
  split.
  - intros Hnone. unfold get_current_data. rewrite Hnone.
    eexists. split; [reflexivity|]. split; reflexivity.
  - intros cd Hcd.
    pose proof (get_current_data_shapes _ _ _ Hcd) as Hshapes.
    assert (Hfields : cd_active_node cd = _get_safe_active_node p
                      /\ cd_total_nodes cd = length (cd_nodes cd)
                      /\ cd_nodes cd = tracked_nodes p
                      /\ cd_connected cd
                         = was_connected p && running p
                           && (0 <? length (tracked_nodes p))%nat).
    { clear Hshapes. unfold get_current_data in Hcd.
      destruct (match _get_safe_active_node p with
                | Some active =>
                    if string_eqb active EmptyString
                    then Some (VDict [], VDict [])
                    else
                      match shape_count (active_shapes Polygons active p),
                            shape_count (active_shapes Polylines active p) with
                      | Some _, Some _ =>
                          Some (active_shapes Polygons active p,
                                active_shapes Polylines active p)
                      | _, _ => None
                      end
                | None => Some (VDict [], VDict [])
                end) as [[pd pld]|]; [|discriminate].
      injection Hcd as <-. repeat split. }
    destruct Hfields as (F1 & F2 & F3 & F4).
    split; [exact F1|]. split; [exact F2|]. split; [|apply emitted_then_changed].
    + intros active Ha. rewrite F1 in Ha. rewrite F3, F4.
      apply safe_active_node_fields in Ha.
      destruct Ha as (Hr & Hw & _ & Hm). rewrite Hr, Hw, Hm.
      split; [|reflexivity].
      destruct (tracked_nodes p); [discriminate Hm | reflexivity].
    + unfold _emit_active_node_poly_data, try_except.
      rewrite bind_reading.
      pose proof (Hshapes Polygons) as Hg. pose proof (Hshapes Polylines) as Hl.
      cbv zeta in Hg, Hl.
      unfold bind.
      destruct (match _get_safe_active_node p with
                | Some a =>
                    if string_eqb a EmptyString then None
                    else dict_get a (store_of Polygons p)
                | None => None
                end) as [sg|] eqn:Eg.
      * destruct Hg as [-> [n Hn]].
        rewrite (emit_active_shapes_run "poly" Polygons _ p Eg Hn).
        destruct (match _get_safe_active_node p with
                  | Some a =>
                      if string_eqb a EmptyString then None
                      else dict_get a (store_of Polylines p)
                  | None => None
                  end) as [sl|] eqn:El.
        -- destruct Hl as [-> [m Hm]].
           rewrite (emit_active_shapes_run "polyline" Polylines _ p El Hm).
           cbn [fst]. destruct (has_consumers p); reflexivity.
        -- rewrite Hl.
           rewrite (emit_active_shapes_none "polyline" Polylines _ p El).
           cbn [fst]. destruct (has_consumers p); reflexivity.
      * rewrite Hg.
        rewrite (emit_active_shapes_none "poly" Polygons _ p Eg).
        destruct (match _get_safe_active_node p with
                  | Some a =>
                      if string_eqb a EmptyString then None
                      else dict_get a (store_of Polylines p)
                  | None => None
                  end) as [sl|] eqn:El.
        -- destruct Hl as [-> [m Hm]].
           rewrite (emit_active_shapes_run "polyline" Polylines _ p El Hm).
           cbn [fst]. destruct (has_consumers p); reflexivity.
        -- rewrite Hl.
           rewrite (emit_active_shapes_none "polyline" Polylines _ p El).
           cbn [fst]. destruct (has_consumers p); reflexivity.
Qed.

(** X21. [_clear_state]. After it, whatever the proxy held, the first
    page load gives the empty page: no traffic, simulation or echo data, no
    shapes, no commands, no nodes or servers, no active node, not
    connected, with the time of clearing as last update. The stored shapes
    of all nodes are gone. Attached consumers are sent the empty node
    list. Clearing does not stop the proxy, touch its client or its poll
    timer, or change whether it accepts data; clearing again at the same
    time changes nothing more. *)
Theorem cleared_state_gives_empty_page
    (safe_decode : bytes -> string) (now later : Q) (p : proxy) :
  let r := _clear_state now p in
  get_current_data safe_decode later (fst r)
  = Some (empty_page (server_ip p) now later)
  /\ poly_data_by_node (fst r) = []
  /\ polyline_data_by_node (fst r) = []
  /\ snd r = (if has_consumers p then [EmitNodeInfo [] [] None 0] else [])
  /\ running (fst r) = running p
  /\ allow_reconnection (fst r) = allow_reconnection p
  /\ network_timer (fst r) = network_timer p
  /\ bluesky_client (fst r) = bluesky_client p
  /\ _clear_state now (fst r) = r.
Proof.
  destruct p. unfold has_consumers. cbn [socketio connected_clients].
  destruct bluesky_client0 as [c|], running0, socketio0,
    (0 <? connected_clients0) eqn:E;
    unfold _clear_state, get_current_data, _emit_node_info, has_consumers,
      _get_safe_active_node;
    lazy -[Z.ltb]; rewrite ?E; lazy -[Z.ltb];
    repeat (split; [reflexivity|]); reflexivity.
Qed.

(** ** Forwarding command lines *)

Lemma split_on_plain sep w rest :
  has_char sep w = false ->
  Text.split_on sep (w ++ String sep rest) = w :: Text.split_on sep rest.
Proof.
  induction w as [|ch w IH]; intros H.
  - cbn [String.append Text.split_on]. rewrite Ascii.eqb_refl. reflexivity.
  - cbn [has_char] in H. apply orb_false_iff in H. destruct H as [H1 H2].
    cbn [String.append Text.split_on]. rewrite H1, IH by exact H2.
    reflexivity.
Qed.

Lemma split_on_single sep w :
  has_char sep w = false -> Text.split_on sep w = [w].
Proof.
  induction w as [|ch w IH]; intros H; [reflexivity|].
  cbn [has_char] in H. apply orb_false_iff in H. destruct H as [H1 H2].
  cbn [Text.split_on]. rewrite H1, IH by exact H2. reflexivity.
Qed.

Lemma split_on_joined sep lines :
  lines <> [] ->
  Forall (fun line => has_char sep line = false) lines ->
  Text.split_on sep (Text.join (String sep EmptyString) lines) = lines.
Proof.
  induction lines as [|w rest IH]; intros Hne Hall; [contradiction|].
  inversion Hall as [|x l Hw Hrest]; subst.
  destruct rest as [|w' rest'].
  - cbn [Text.join]. apply split_on_single. exact Hw.
  - change (Text.join (String sep EmptyString) (w :: w' :: rest'))
      with (w ++ String sep (Text.join (String sep EmptyString) (w' :: rest')))%string.
    rewrite split_on_plain by exact Hw. rewrite IH; [reflexivity | discriminate | exact Hrest].
Qed.

(** X22. [forward]. With a running client that can send, one or more
    command lines go out as exactly one STACK frame, addressed to the
    target given, or else to the active node, or else to the default
    server address; its payload is the lines joined by semicolons, so that
    lines without semicolons are recovered by splitting the payload. One
    line without a target goes out as [_forward_command] sends it. With a
    client that is not running nothing is sent. Without a client a target
    makes the call do nothing, while without a target the failure is
    reported as an echo with flag 1, cached and pushed to consumers. *)
Theorem forward_sends_one_frame
    (cmdlines : list string) (target_id : option bytes) (now : Q)
    (p : proxy) :
  cmdlines <> [] ->
  (forall c,
     bluesky_client p = Some c ->
     Client.running c = true ->
     Client.sock_send (Client.socks c) = true ->
     let target := match target_id with
                   | Some given => given
                   | None => forward_target c
                   end in
     forward cmdlines target_id now p
     = (set_bluesky_client (Some c) p,
        [OnWire
           (Client.SendMultipart
              (ljust target IDLEN wildcard
               ++ list_byte_of_string "STACK" ++ Client.node_id c)
              (VStr (Text.join ";" cmdlines)))])
     /\ (Forall (fun line => has_char ";" line = false) cmdlines ->
         Text.split_on ";" (Text.join ";" cmdlines) = cmdlines)
     /\ (forall cmd, forward [cmd] None now p = _forward_command cmd now p))
  /\ (forall c,
        bluesky_client p = Some c -> Client.running c = false ->
        forward cmdlines target_id now p = (p, []))
  /\ (bluesky_client p = None ->
      forward cmdlines target_id now p
      = match target_id with
        | Some _ => (p, [])
        | None =>
            let record :=
              VDict [("text"%string,
                      VStr "Error forwarding command: 'NoneType' object has no attribute 'act_id'");
                     ("flags"%string, VInt 1);
                     ("timestamp"%string, VFloat now)] in
            (set_echo_data record p,
             if has_consumers p then [Pushed (Emit "echo" record)] else [])
        end).
Proof.
  intros Hne. destruct cmdlines as [|l0 ls]; [contradiction|].
  split; [|split].
  - intros c Hc Hr Hs. cbv zeta. split; [|split].
    + unfold forward. rewrite Hc, Hr. unfold Client.send.
      rewrite Hr, Hs. cbn [negb orb asbytestr map].
      rewrite or_empty_bytes. unfold forward_target.
      destruct target_id; reflexivity.
    + apply split_on_joined. discriminate.
    + intros cmd. unfold forward, _forward_command. rewrite Hc, Hr.
      reflexivity.
  - intros c Hc Hr. unfold forward. rewrite Hc, Hr. reflexivity.
  - intros Hc. unfold forward. rewrite Hc.
    destruct target_id; [reflexivity|].
    unfold _echo_response. cbv zeta. unfold has_consumers.
    cbn [socketio connected_clients set_echo_data].
    destruct (socketio p && (0 <? connected_clients p)); reflexivity.
Qed.

Lemma forward_sends_one_frame_witness :
  forward ["HOLD"; "OP"]%string None 1%Q sample_proxy
  = (sample_proxy,
     [OnWire
        (Client.SendMultipart
           (ljust sample_node1 IDLEN wildcard
            ++ list_byte_of_string "STACK"
            ++ Client.node_id sample_client)
           (VStr "HOLD;OP"))]).
Proof.
  destruct (@forward_sends_one_frame ["HOLD"; "OP"]%string None 1%Q
              sample_proxy ltac:(discriminate)) as (H & _).
  destruct (H (Client.set_ctx
                 {| Client.action := VNone;
                    Client.ctx_sender_id := Some sample_node1 |}
                 sample_client) eq_refl eq_refl eq_refl) as (H1 & _).
  exact H1.
Defined.

Lemma text_of_bytes data :
  text_of (map Byte.to_N data) = string_of_list_byte data.
Proof.
  unfold text_of, string_of_list_byte. f_equal. rewrite map_map.
  apply map_ext. intros b. destruct b; reflexivity.
Qed.

Lemma printable_bytes data :
  printable (map Byte.to_N data) = forallb printable_byte data.
Proof.
  unfold printable, printable_byte.
  induction data as [|x rest IH]; [reflexivity|].
  cbn [map forallb]. rewrite IH. reflexivity.
Qed.

Lemma printable_is_ascii data :
  forallb printable_byte data = true -> forallb ascii_byte data = true.
Proof.
  rewrite !forallb_forall. intros H x Hx. specialize (H x Hx).
  unfold printable_byte in H. unfold ascii_byte.
  apply andb_true_iff in H. destruct H as [_ H].
  apply N.leb_le in H. apply N.ltb_lt. lia.
Qed.

Lemma upper_hex_printable data :
  Forall (fun ch => (32 <= N_of_ascii ch <= 126)%N)
    (list_ascii_of_string (Text.upper (Text.hex data))).
Proof.
  induction data as [|x rest IH]; [constructor|].
  cbn [Text.hex Text.upper list_ascii_of_string].
  constructor; [|constructor; [|exact IH]];
    destruct x; vm_compute; split; discriminate.
Qed.

(** X23. [safe_decode], for a UTF-8 decoder that decodes ASCII bytes to
    themselves and gives a code point above 127 whenever it accepts a byte
    above 127. Bytes that are all printable ASCII (32 to 126) are returned
    as that text; any other bytes are returned as their hex digits in upper
    case, two per byte. So the result holds printable ASCII characters
    only. *)
Theorem safe_decode_text_or_hex
    (utf8_decode : bytes -> option (list N)) (data : bytes) :
  (forall d, forallb ascii_byte d = true ->
             utf8_decode d = Some (map Byte.to_N d)) ->
  (forall d decoded, utf8_decode d = Some decoded ->
                     forallb ascii_byte d = false ->
                     printable decoded = false) ->
  safe_decode utf8_decode data
  = (if forallb printable_byte data then string_of_list_byte data
     else Text.upper (Text.hex data))
  /\ String.length (Text.upper (Text.hex data)) = (2 * length data)%nat
  /\ Forall (fun ch => (32 <= N_of_ascii ch <= 126)%N)
       (list_ascii_of_string (safe_decode utf8_decode data)).
Proof.
  intros Hascii Hhigh.
  assert (Hmain : safe_decode utf8_decode data
                  = (if forallb printable_byte data
                     then string_of_list_byte data
                     else Text.upper (Text.hex data))).
  { unfold safe_decode.
    destruct (forallb ascii_byte data) eqn:Ea.
    - rewrite (Hascii data Ea), printable_bytes, text_of_bytes. reflexivity.
    - assert (Hp : forallb printable_byte data = false).
      { destruct (forallb printable_byte data) eqn:Ep; [|reflexivity].
        apply printable_is_ascii in Ep. congruence. }
      rewrite Hp.
      destruct (utf8_decode data) as [decoded|] eqn:Ed.
      + rewrite (Hhigh data decoded Ed Ea). reflexivity.
      + unfold decode_ascii. fold ascii_byte. rewrite Ea. reflexivity. }
  split; [exact Hmain|]. split.
  - clear. induction data as [|x rest IH]; [reflexivity|].
    cbn [Text.hex Text.upper String.length length]. rewrite IH. lia.
  - rewrite Hmain. destruct (forallb printable_byte data) eqn:Ep.
    + clear Hmain. induction data as [|x rest IH]; [constructor|].
      cbn [forallb] in Ep. apply andb_true_iff in Ep. destruct Ep as [Ex Er].
      change (string_of_list_byte (x :: rest))
        with (String (ascii_of_byte x) (string_of_list_byte rest)).
      cbn [list_ascii_of_string]. constructor; [|apply IH; exact Er].
      unfold printable_byte in Ex. apply andb_true_iff in Ex.
      destruct Ex as [E1 E2]. apply N.leb_le in E1. apply N.leb_le in E2.
      replace (N_of_ascii (ascii_of_byte x)) with (Byte.to_N x)
        by (destruct x; reflexivity).
      lia.
    + apply upper_hex_printable.
Qed.

Lemma safe_decode_text_or_hex_witness :
  safe_decode ascii_only sample_node1 = "5361626381"%string
  /\ safe_decode ascii_only (list_byte_of_string "node") = "node"%string.
Proof.
  assert (H1 : forall d, forallb ascii_byte d = true ->
                         ascii_only d = Some (map Byte.to_N d)).
  { intros d Hd. unfold ascii_only, decode_ascii. fold ascii_byte.
    rewrite Hd. reflexivity. }
  assert (H2 : forall d decoded, ascii_only d = Some decoded ->
                                 forallb ascii_byte d = false ->
                                 printable decoded = false).
  { intros d decoded Hd Hf. unfold ascii_only, decode_ascii in Hd.
    fold ascii_byte in Hd. rewrite Hf in Hd. discriminate Hd. }
  split.
  - exact (proj1 (@safe_decode_text_or_hex ascii_only sample_node1 H1 H2)).
  - exact (proj1 (@safe_decode_text_or_hex ascii_only
                    (list_byte_of_string "node") H1 H2)).
Defined.

Lemma dict_get_del (V : Type) k n (d : list (string * V)) :
  NoDup (dict_keys d) ->
  dict_get k (dict_del n d) = if string_eqb k n then None else dict_get k d.
Proof.
  induction d as [|[k0 v0] rest IH]; intros Hnd.
  - cbn. destruct (string_eqb k n); reflexivity.
  - cbn [dict_keys map fst] in Hnd. inversion Hnd as [|x l Hnot Hnd']; subst.
    cbn [dict_del dict_get].
    destruct (string_eqb n k0) eqn:En.
    + apply string_eqb_true in En. subst k0.
      destruct (string_eqb k n) eqn:Ek; [|reflexivity].
      apply string_eqb_true in Ek. subst k.
      destruct (dict_get n rest) eqn:Eg; [|reflexivity].
      exfalso. apply Hnot. apply dict_mem_In.
      rewrite dict_mem_get, Eg. reflexivity.
    + cbn [dict_get]. destruct (string_eqb k k0) eqn:Ek0.
      * apply string_eqb_true in Ek0. subst k0.
        destruct (string_eqb k n) eqn:Ek; [|reflexivity].
        apply string_eqb_true in Ek. subst k.
        rewrite string_eqb_refl in En. discriminate En.
      * apply IH. exact Hnd'.
Qed.

Lemma dict_del_keys (V : Type) n (d : list (string * V)) :
  NoDup (dict_keys d) -> NoDup (dict_keys (dict_del n d)).
Proof.
  induction d as [|[k0 v0] rest IH]; intros Hnd; [constructor|].
  cbn [dict_keys map fst] in Hnd. inversion Hnd as [|x l Hnot Hnd']; subst.
  cbn [dict_del]. destruct (string_eqb n k0) eqn:En; [exact Hnd'|].
  cbn [dict_keys map fst]. constructor; [|apply IH; exact Hnd'].
  intros Hin. apply Hnot. apply dict_mem_In. apply dict_mem_In in Hin.
  rewrite dict_mem_get in Hin |- *.
  rewrite dict_get_del in Hin by exact Hnd'.
  destruct (string_eqb k0 n); [discriminate Hin | exact Hin].
Qed.

Lemma without_get k n d :
  NoDup (dict_keys d) ->
  dict_get k (without n d) = if string_eqb k n then None else dict_get k d.
Proof.
  intros Hnd. unfold without. destruct (dict_mem n d) eqn:Em.
  - apply dict_get_del. exact Hnd.
  - destruct (string_eqb k n) eqn:Ek; [|reflexivity].
    apply string_eqb_true in Ek. subst k.
    rewrite dict_mem_get in Em. destruct (dict_get n d); [discriminate Em|].
    reflexivity.
Qed.

Lemma without_keys n d :
  NoDup (dict_keys d) -> NoDup (dict_keys (without n d)).
Proof.
  intros Hnd. unfold without. destruct (dict_mem n d); [|exact Hnd].
  apply dict_del_keys. exact Hnd.
Qed.

Lemma forget_shapes_run n p :
  forall which,
    store_of which (forget_shapes n p) = without n (store_of which p).
Proof.
  unfold forget_shapes, without. intros which.
  destruct (dict_mem n (poly_data_by_node p)) eqn:E1;
    cbn [polyline_data_by_node set_poly_data_by_node];
    destruct (dict_mem n (polyline_data_by_node p)) eqn:E2;
    destruct which; cbn [store_of]; rewrite ?E1, ?E2; reflexivity.
Qed.

Lemma forget_shapes_keeps n p :
  bluesky_client (forget_shapes n p) = bluesky_client p
  /\ running (forget_shapes n p) = running p
  /\ was_connected (forget_shapes n p) = was_connected p
  /\ tracked_nodes (forget_shapes n p) = tracked_nodes p
  /\ has_consumers (forget_shapes n p) = has_consumers p
  /\ _get_safe_active_node (forget_shapes n p) = _get_safe_active_node p.
Proof.
  unfold forget_shapes.
  destruct (dict_mem n (poly_data_by_node p));
    cbn [polyline_data_by_node set_poly_data_by_node];
    destruct (dict_mem n (polyline_data_by_node p)); repeat split.
Qed.

Lemma hex_not_empty x rest :
  string_eqb (Text.hex (x :: rest)) EmptyString = false.
Proof. reflexivity. Qed.

Lemma context_sender_not_empty p s :
  context_sender p = Some s -> string_eqb s EmptyString = false.
Proof.
  unfold context_sender. destruct (bluesky_client p) as [c|]; [|discriminate].
  destruct (Client.ctx_sender_id (Client.ctx c)) as [[|x rest]|];
    try discriminate.
  intros H. injection H as <-. apply hex_not_empty.
Qed.

Lemma active_node_not_empty p a :
  _get_safe_active_node p = Some a -> string_eqb a EmptyString = false.
Proof.
  unfold _get_safe_active_node.
  destruct (bluesky_client p) as [c|]; [|discriminate].
  destruct (negb (running p) || negb (was_connected p)
            || (length (tracked_nodes p) =? 0)%nat); [discriminate|].
  destruct (Client.act_id c) as [[|x raw]|]; try discriminate.
  destruct (dict_mem (Text.hex (x :: raw)) (tracked_nodes p));
    [|discriminate].
  intros H. injection H as <-. apply hex_not_empty.
Qed.

Lemma reset_run now p :
  allow_reconnection p = true ->
  on_reset_received now p
  = let p0 := set_last_successful_update now p in
    match context_sender p, _get_safe_active_node p with
    | Some sender, Some active =>
        (if string_eqb active sender then forget_shapes sender p0
         else forget_shapes active (forget_shapes sender p0),
         if has_consumers p then reset_events now else [])
    | Some sender, None =>
        (forget_shapes sender p0,
         if has_consumers p then reset_events now else [])
    | None, Some active =>
        (forget_shapes active p0,
         if has_consumers p then reset_events now else [])
    | None, None => (p0, [])
    end.
Proof.
  intros Ha. unfold on_reset_received. rewrite Ha. cbn [negb]. cbv zeta.
  change (context_sender (set_last_successful_update now p))
    with (context_sender p).
  change (_get_safe_active_node (set_last_successful_update now p))
    with (_get_safe_active_node p).
  change (has_consumers (set_last_successful_update now p))
    with (has_consumers p).
  assert (K : forall n q,
            has_consumers (forget_shapes n q) = has_consumers q
            /\ _get_safe_active_node (forget_shapes n q)
               = _get_safe_active_node q).
  { intros n q. destruct (forget_shapes_keeps n q) as (_ & _ & _ & _ & K5 & K6).
    split; assumption. }
  assert (K0 : forall n,
            has_consumers (forget_shapes n (set_last_successful_update now p))
            = has_consumers p
            /\ _get_safe_active_node
                 (forget_shapes n (set_last_successful_update now p))
               = _get_safe_active_node p).
  { intros n. apply (K n (set_last_successful_update now p)). }
  destruct (context_sender p) as [sender|] eqn:Es;
    destruct (_get_safe_active_node p) as [active|] eqn:Eact;
    try pose proof (context_sender_not_empty _ Es) as Ns;
    try pose proof (active_node_not_empty _ Eact) as Na;
    rewrite ?Ns, ?Na; cbv beta iota; rewrite ?Ns, ?Na;
    try rewrite (proj2 (K0 _)); rewrite ?Eact; cbv beta iota;
    rewrite ?Na, ?string_eqb_refl; cbn [negb andb];
    try (destruct (string_eqb active sender); cbn [negb]);
    rewrite ?(proj1 (K _ _)), ?(proj1 (K0 _)); reflexivity.
Qed.

(** X24. [on_reset_received]. A RESET taken while the proxy accepts data
    forgets the stored polygons and polylines of the node that sent it
    (the sender left in the client's context) and of the active node, and
    of no other node; it leaves the tracked nodes and the active node as
    they are. When there is a sender or an active node, attached consumers
    are sent empty polygons, empty polylines and the reset event, in this
    order; when there is neither, nothing is forgotten and nothing is
    sent. The stores are dicts: their keys are distinct. *)
Theorem reset_forgets_shapes (now : Q) (p : proxy) :
  allow_reconnection p = true ->
  NoDup (dict_keys (poly_data_by_node p)) ->
  NoDup (dict_keys (polyline_data_by_node p)) ->
  let r := on_reset_received now p in
  let concerned node :=
    context_sender p = Some node \/ _get_safe_active_node p = Some node in
  (forall node which,
      concerned node -> dict_get node (store_of which (fst r)) = None)
  /\ (forall node which,
        ~ concerned node ->
        dict_get node (store_of which (fst r))
        = dict_get node (store_of which p))
  /\ _get_safe_active_node (fst r) = _get_safe_active_node p
  /\ tracked_nodes (fst r) = tracked_nodes p
  /\ snd r
     = match context_sender p, _get_safe_active_node p with
       | None, None => []
       | _, _ => if has_consumers p then reset_events now else []
       end.
Proof.
  intros Ha Hg Hl. cbv zeta. rewrite (@reset_run now p Ha). cbv zeta.
  set (p0 := set_last_successful_update now p).
  assert (Hnd : forall which, NoDup (dict_keys (store_of which p0)))
    by (intros []; assumption).
  assert (H0 : forall which, store_of which p0 = store_of which p)
    by (intros []; reflexivity).
  assert (Hone : forall n k which,
            dict_get k (store_of which (forget_shapes n p0))
            = if string_eqb k n then None
              else dict_get k (store_of which p)).
  { intros n k which. rewrite forget_shapes_run, without_get by apply Hnd.
    rewrite H0. reflexivity. }
  assert (Htwo : forall n m k which,
            dict_get k (store_of which
                          (forget_shapes m (forget_shapes n p0)))
            = if string_eqb k m then None
              else if string_eqb k n then None
              else dict_get k (store_of which p)).
  { intros n m k which. rewrite forget_shapes_run, without_get.
    - rewrite Hone. reflexivity.
    - rewrite forget_shapes_run. apply without_keys. apply Hnd. }
  assert (Hact0 : _get_safe_active_node p0 = _get_safe_active_node p)
    by reflexivity.
  destruct (context_sender p) as [sender|];
    destruct (_get_safe_active_node p) as [active|] eqn:Eact.
  - destruct (string_eqb active sender) eqn:E; cbn [fst snd].
    + apply string_eqb_true in E. subst active.
      destruct (forget_shapes_keeps sender p0) as (_ & _ & _ & K4 & _ & K6).
      split; [|split; [|split; [rewrite K6; exact Hact0 | split; [exact K4 | reflexivity]]]].
      * intros node which [H|H]; injection H as <-;
          rewrite Hone, string_eqb_refl; reflexivity.
      * intros node which Hn. rewrite Hone.
        destruct (string_eqb node sender) eqn:En; [|reflexivity].
        apply string_eqb_true in En. subst node. exfalso. apply Hn.
        left. reflexivity.
    + destruct (forget_shapes_keeps sender p0) as (_ & _ & _ & K4 & _ & K6).
      destruct (forget_shapes_keeps active (forget_shapes sender p0))
        as (_ & _ & _ & L4 & _ & L6).
      split; [|split; [|split; [|split]]].
      * intros node which [H|H]; injection H as <-; rewrite Htwo;
          rewrite string_eqb_refl;
          repeat match goal with
                 | |- context [if ?c then _ else _] => destruct c
                 end; reflexivity.
      * intros node which Hn. rewrite Htwo.
        destruct (string_eqb node active) eqn:En1.
        { apply string_eqb_true in En1. subst node. exfalso. apply Hn.
          right. reflexivity. }
        destruct (string_eqb node sender) eqn:En2; [|reflexivity].
        apply string_eqb_true in En2. subst node. exfalso. apply Hn.
        left. reflexivity.
      * rewrite L6, K6. exact Hact0.
      * rewrite L4. exact K4.
      * reflexivity.
  - cbn [fst snd].
    destruct (forget_shapes_keeps sender p0) as (_ & _ & _ & K4 & _ & K6).
    split; [|split; [|split; [|split; [exact K4 | reflexivity]]]].
    + intros node which [H|H]; [|discriminate H]. injection H as <-.
      rewrite Hone, string_eqb_refl. reflexivity.
    + intros node which Hn. rewrite Hone.
      destruct (string_eqb node sender) eqn:En; [|reflexivity].
      apply string_eqb_true in En. subst node. exfalso. apply Hn.
      left. reflexivity.
    + rewrite K6. exact Hact0.
  - cbn [fst snd].
    destruct (forget_shapes_keeps active p0) as (_ & _ & _ & K4 & _ & K6).
    split; [|split; [|split; [rewrite K6; exact Hact0 | split; [exact K4 | reflexivity]]]].
    + intros node which [H|H]; [discriminate H|]. injection H as <-.
      rewrite Hone, string_eqb_refl. reflexivity.
    + intros node which Hn. rewrite Hone.
      destruct (string_eqb node active) eqn:En; [|reflexivity].
      apply string_eqb_true in En. subst node. exfalso. apply Hn.
      right. reflexivity.
  - cbn [fst snd].
    split; [|split; [|split; [exact Hact0 | split; reflexivity]]].
    + intros node which [H|H]; discriminate H.
    + intros node which _. apply (f_equal (dict_get node)). apply H0.
Qed.

Lemma reset_forgets_shapes_witness :
  snd (on_reset_received 1%Q sample_proxy) = reset_events 1%Q
  /\ tracked_nodes (fst (on_reset_received 1%Q sample_proxy))
     = tracked_nodes sample_proxy.
Proof.
  destruct (@reset_forgets_shapes 1%Q sample_proxy)
    as (_ & _ & _ & H4 & H5).
  - reflexivity.
  - constructor.
  - constructor.
  - split; [exact H5 | exact H4].
Defined.



(** ** Closing the connection *)

(** X26. [ConnectionManager.close]. After it the proxy takes no data any
    more, its client is closed and has no active node, and the first page
    load gives the empty page, with the time of closing as last update.
    Unlike [_clear_state] it leaves the stored shapes of the nodes where
    they are; they are not shown, since no node is tracked. It does not
    change whether the proxy runs or whether a poll tick is scheduled. *)
Theorem connection_close_hides_shapes
    (safe_decode : bytes -> string) (fault : Client.close_fault)
    (now later : Q) (p : proxy) :
  let p' := Proxy.close fault now p in
  get_current_data safe_decode later p'
  = Some (empty_page (server_ip p) now later)
  /\ poly_data_by_node p' = poly_data_by_node p
  /\ polyline_data_by_node p' = polyline_data_by_node p
  /\ allow_reconnection p' = false
  /\ running p' = running p
  /\ network_timer p' = network_timer p
  /\ bluesky_client p'
     = match bluesky_client p with
       | Some c => Some (Client.set_act_id None (Client.close fault c))
       | None => None
       end
  /\ (forall data t, on_poly_received data t p' = (p', [])).
Proof.
  destruct p.
  destruct bluesky_client0 as [c|], running0;
    unfold Proxy.close, get_current_data, _get_safe_active_node,
      on_poly_received;
    lazy -[Client.close Z.ltb];
    repeat (split; [reflexivity|]); reflexivity.
Qed.

End ManagersFacts.
